(** * PowerKit: backend negotiation, device registry, level-to-edge tracking

    A shallow embedding of [src/lib/powerkit.cpp] (class [PowerKit]) and of
    the parts of [src/lib/power.cpp] (class [Power]) that mirror it.

    Conventions of the model.
    - The D-Bus system bus is an environment [Bus]: what the services answer
      while one handler runs.  Handlers run to completion on the event thread,
      and one handler sees one [Bus].  Successive handlers may see different
      ones.
    - The object's members are a record; a handler is a function from the
      bus and the members to a result, the new members and the trace of what
      it did to the outside: the signals it emitted and the action methods
      it called on a backend.  What a handler asks of the bus (a property,
      a "can" call, the introspection of the device tree) is read from the
      [Bus] and leaves no entry in the trace.
    - [QMap] is an ordered map; iteration is by ascending key.
    - [double] is IEEE binary64 ([PrimFloat.float]); [int] and [qlonglong]
      are [Z] with the two's-complement wrap written out.
    - Both interface handles [upower] and [logind] are taken to be allocated
      (this is the state after [setup()] has run on a connected bus).
    - A signal of a Device runs the slot connected to it before the emitting
      call returns (a direct connection within one thread). *)

From Stdlib Require Import ZArith NArith Bool List String Ascii Lia OrderedTypeEx.
From Stdlib Require Import PrimFloat Uint63.
Import ListNotations.

Set Implicit Arguments.

(** ** Qt value types *)

(** A [QString] is taken as the string of its character codes, ordered by
    them as [operator<] orders it; a [quint32] as a natural number, which
    the code stores and compares and never computes with. *)
Definition QString := string.
Definition quint32 := N.
Definition double := float.

Definition isEmpty (s : QString) : bool :=
  match s with
  | EmptyString => true
  | String _ _ => false
  end.

(** [s.startsWith(p)] *)
Definition startsWith (s p : QString) : bool := String.prefix p s.

(** [s.toLower()], on the letters A to Z. *)
Definition toLower_ascii (c : ascii) : ascii :=
  let n := nat_of_ascii c in
  if (65 <=? n) && (n <=? 90) then ascii_of_nat (n + 32) else c.

Fixpoint toLower (s : QString) : QString :=
  match s with
  | EmptyString => EmptyString
  | String c rest => String (toLower_ascii c) (toLower rest)
  end.

(** A [QVariant], as far as the replies to the "can" calls go: they carry a
    boolean (UPower) or a string (logind, ConsoleKit). *)
Inductive QVariant :=
  | QVariant_bool (b : bool)
  | QVariant_QString (s : QString).

Definition QVariant_toString (v : QVariant) : QString :=
  match v with
  | QVariant_bool true => "true"%string
  | QVariant_bool false => "false"%string
  | QVariant_QString s => s
  end.

(** [QVariant::toBool()]: a string is false exactly when, in lower case, it
    is empty, "0" or "false". *)
Definition QVariant_toBool (v : QVariant) : bool :=
  match v with
  | QVariant_bool b => b
  | QVariant_QString s =>
      negb (String.eqb (toLower s) "0"%string
            || String.eqb (toLower s) "false"%string
            || isEmpty s)
  end.

(** [QDBusUtil::isValidObjectPath], which the constructor of
    [QDBusObjectPath] applies: "/" alone, or one or more elements, each led
    by "/" and made of letters, digits and "_". *)
Definition isObjectPathCharacter (c : ascii) : bool :=
  let n := nat_of_ascii c in
  ((48 <=? n) && (n <=? 57)) || ((65 <=? n) && (n <=? 90))
  || ((97 <=? n) && (n <=? 122)) || (n =? 95).

Fixpoint validElements (afterSlash : bool) (s : QString) : bool :=
  match s with
  | EmptyString => negb afterSlash
  | String c rest =>
      if Ascii.eqb c "/"%char
      then (if afterSlash then false else validElements true rest)
      else if isObjectPathCharacter c then validElements false rest
      else false
  end.

Definition isValidObjectPath (p : QString) : bool :=
  match p with
  | String c rest =>
      if Ascii.eqb c "/"%char
      then (if isEmpty rest then true else validElements true rest)
      else false
  | EmptyString => false
  end.

(** [QDBusObjectPath(p).path()]: an invalid path is cleared. *)
Definition QDBusObjectPath_path (p : QString) : QString :=
  if isValidObjectPath p then p else EmptyString.

(** [int]: 32 bits, two's complement. *)
Definition int_wrap (z : Z) : Z := ((z + 2 ^ 31) mod 2 ^ 32 - 2 ^ 31)%Z.

(** [qlonglong]: 64 bits, two's complement. *)
Definition qlonglong_wrap (z : Z) : Z := ((z + 2 ^ 63) mod 2 ^ 64 - 2 ^ 63)%Z.

(** The conversion of an [int] to [double] in [batteryLeft/batteries]. *)
Definition double_of_int (z : Z) : double :=
  if (z <? 0)%Z
  then PrimFloat.opp (PrimFloat.of_uint63 (Uint63.of_Z (- z)))
  else PrimFloat.of_uint63 (Uint63.of_Z z).

(** ** QMap: the ordered map of Qt

    Keys are ordered by [operator<]; two keys are the same key when neither
    is less than the other.  The entries are kept in ascending key order,
    which is the order a [QMapIterator] visits them. *)

Class LessThan (K : Type) := lessThan : K -> K -> bool.

#[export] Instance QString_lessThan : LessThan QString := String.ltb.
#[export] Instance quint32_lessThan : LessThan quint32 := N.ltb.

Module QMap.

Section Operations.
Context {K V : Type} `{LessThan K}.

Definition t := list (K * V).

Definition sameKey (a b : K) : bool :=
  negb (lessThan a b) && negb (lessThan b a).

(** [m.value(k)] when present *)
Fixpoint value (k : K) (m : list (K * V)) : option V :=
  match m with
  | [] => None
  | (k0, v0) :: m' => if sameKey k k0 then Some v0 else value k m'
  end.

(** [m.contains(k)] *)
Definition contains (k : K) (m : list (K * V)) : bool :=
  match value k m with
  | Some _ => true
  | None => false
  end.

(** [m[k] = v] *)
Fixpoint insert (k : K) (v : V) (m : list (K * V)) : list (K * V) :=
  match m with
  | [] => [(k, v)]
  | (k0, v0) :: m' =>
      if lessThan k k0 then (k, v) :: (k0, v0) :: m'
      else if lessThan k0 k then (k0, v0) :: insert k v m'
      else (k, v) :: m'
  end.

(** [m.remove(k)] *)
Fixpoint remove (k : K) (m : list (K * V)) : list (K * V) :=
  match m with
  | [] => []
  | (k0, v0) :: m' => if sameKey k k0 then m' else (k0, v0) :: remove k m'
  end.

(** [m.take(k)]: the value removed (if any) and the map without it *)
Definition take (k : K) (m : list (K * V)) : option V * list (K * V) :=
  (value k m, remove k m).

Definition keys (m : list (K * V)) : list K := map fst m.

(** Every key of [m] is greater than [k]. *)
Definition above (k : K) (m : list (K * V)) : bool :=
  forallb (fun e => lessThan k (fst e)) m.

(** The representation invariant: keys strictly ascending. *)
Fixpoint sorted (m : list (K * V)) : bool :=
  match m with
  | [] => true
  | (k0, _) :: m' => above k0 m' && sorted m'
  end.

End Operations.

(** Pointer-held values changed in place: same keys, new contents. *)
Definition mapValues {K V W : Type} (f : V -> W) (m : list (K * V)) : list (K * W) :=
  map (fun e => (fst e, f (snd e))) m.

End QMap.

(** ** Device *)

Record Device := mkDevice {
  path : QString;
  isBattery : bool;
  isPresent : bool;
  nativePath : QString;
  percentage : double;
  timeToEmpty : Z;
  timeToFull : Z
}.

(** What the backing D-Bus object of a device answers for each property;
    [None] is a read that fails. *)
Record DeviceObject := mkDeviceObject {
  obj_isBattery : option bool;
  obj_isPresent : option bool;
  obj_nativePath : option QString;
  obj_percentage : option double;
  obj_timeToEmpty : option Z;
  obj_timeToFull : option Z
}.

Definition readOr {A : Type} (cached : A) (answer : option A) : A :=
  match answer with
  | Some a => a
  | None => cached
  end.

(** Modelled from the spec: [Device::update()] ([device.cpp] is not among the
    sources).  Section 4.2: it "re-reads presence/percentage/time-remaining
    properties from the backing object"; "a failed property read leaves the
    previous cached value in place".  The notification it emits afterwards
    is modelled where the registry calls it ([Device_update] below). *)
Definition Device_refresh (o : DeviceObject) (d : Device) : Device :=
  {| path := path d;
     isBattery := isBattery d;
     isPresent := readOr (isPresent d) (obj_isPresent o);
     nativePath := nativePath d;
     percentage := readOr (percentage d) (obj_percentage o);
     timeToEmpty := readOr (timeToEmpty d) (obj_timeToEmpty o);
     timeToFull := readOr (timeToFull d) (obj_timeToFull o) |}.

(** Modelled from the spec: [Device::updateBattery()].  Section 4.2: "a
    narrower refresh limited to percentage/time fields". *)
Definition Device_updateBattery (o : DeviceObject) (d : Device) : Device :=
  {| path := path d;
     isBattery := isBattery d;
     isPresent := isPresent d;
     nativePath := nativePath d;
     percentage := readOr (percentage d) (obj_percentage o);
     timeToEmpty := readOr (timeToEmpty d) (obj_timeToEmpty o);
     timeToFull := readOr (timeToFull d) (obj_timeToFull o) |}.

(** Modelled from the spec: the constructor [Device(path, parent)].  The spec
    gives a Device its identity (section 3, "id ... immutable once created")
    and its cached attributes; the attributes of a new Device are read from
    the backing object, a failed read leaving the blank value. *)
Definition Device_new (p : QString) (o : DeviceObject) : Device :=
  {| path := p;
     isBattery := readOr false (obj_isBattery o);
     isPresent := readOr false (obj_isPresent o);
     nativePath := readOr EmptyString (obj_nativePath o);
     percentage := readOr 0%float (obj_percentage o);
     timeToEmpty := readOr 0%Z (obj_timeToEmpty o);
     timeToFull := readOr 0%Z (obj_timeToFull o) |}.

(** ** The system bus as the handlers see it *)

(** [PowerKit::PKBackend], [PKMethod], [PKAction] ([powerkit.h] is not among
    the sources).  The last constructor of each stands for any value that
    reaches the [default:] label of the switches. *)
Inductive PKBackend := PKConsoleKit | PKLogind | PKUPower | PKNoBackend.

Inductive PKMethod :=
  | PKCanRestart | PKCanPowerOff | PKCanSuspend | PKCanHibernate
  | PKCanHybridSleep | PKSuspendAllowed | PKHibernateAllowed | PKNoMethod.

Inductive PKAction :=
  | PKRestartAction | PKPowerOffAction | PKSuspendAction | PKHibernateAction
  | PKHybridSleepAction | PKNoAction.

(** The string macros of [def.h], which is not among the sources: they are
    parameters of the model. *)
Class Defs := {
  DBUS_OK_REPLY : QString;
  DBUS_FAILED_CONN : QString;
  PK_NO_BACKEND : QString;
  PK_NO_ACTION : QString;
  PK_CAN_RESTART : QString;
  PK_CAN_POWEROFF : QString;
  PK_CAN_SUSPEND : QString;
  PK_CAN_HIBERNATE : QString;
  PK_CAN_HYBRIDSLEEP : QString;
  PK_SUSPEND_ALLOWED : QString;
  PK_HIBERNATE_ALLOWED : QString;
  PK_RESTART : QString;
  PK_POWEROFF : QString;
  PK_SUSPEND : QString;
  PK_HIBERNATE : QString;
  PK_HYBRIDSLEEP : QString;
  UPOWER_DEVICES : QString;
  (** the value of [QString(DBUS_JOBS).arg(UPOWER_PATH)] *)
  DBUS_JOBS_arg_UPOWER_PATH : QString;
  UPOWER_DOCKED : QString;
  UPOWER_LID_IS_PRESENT : QString;
  UPOWER_LID_IS_CLOSED : QString;
  UPOWER_ON_BATTERY : QString;
  LOGIND_DOCKED : QString
}.

(** A [QDBusMessage] reply, as far as the code looks at it. *)
Record QDBusMessage := mkReply {
  first_toString : QString;   (* reply.arguments().first().toString() *)
  first_toBool : bool;        (* reply.arguments().first().toBool() *)
  errorMessage : QString      (* reply.errorMessage() *)
}.

(** The reply whose first argument is [v] and whose error message is
    [error]. *)
Definition replyWith (v : QVariant) (error : QString) : QDBusMessage :=
  {| first_toString := QVariant_toString v;
     first_toBool := QVariant_toBool v;
     errorMessage := error |}.

(** The static helpers of [login1.h] and [upower.h] that [Power] calls to
    carry out an action. *)
Inductive Helper := Login1_suspend | Login1_hibernate | UPower_suspend | UPower_hibernate.

Record Bus := mkBus {
  (** [QDBusInterface(service, path, interface, systemBus()).isValid()] for
      the manager object of a backend, built afresh *)
  interface_isValid : PKBackend -> bool;
  (** the reply to [iface.call(cmd, args...)] on that manager object *)
  call : PKBackend -> QString -> list bool -> QDBusMessage;
  (** [upower->isValid()] and [logind->isValid()] on the two handles that
      [setup()] allocated *)
  upower_isValid : bool;
  logind_isValid : bool;
  (** [upower->property(name).toBool()], [logind->property(name).toBool()] *)
  upower_property : QString -> bool;
  logind_property : QString -> bool;
  (** the names of the [node] elements in the introspection of
      [UPOWER_PATH/devices], in document order; [None] when the call fails *)
  introspect : option (list QString);
  (** the backing object of the device at a path *)
  device_object : QString -> DeviceObject;
  (** the static helpers of [upower.h] and [login1.h] used by [Power] *)
  UPower_getDevices : list QString;
  Login1_canSuspend : bool;
  Login1_canHibernate : bool
}.

(** ** Handlers as computations *)

Record Outcome (E S A : Type) := mkOutcome {
  result : A;
  after : S;
  trace : list E
}.

Definition M (E S A : Type) : Type := Bus -> S -> Outcome E S A.

Definition ret {E S A : Type} (a : A) : M E S A :=
  fun _ s => {| result := a; after := s; trace := [] |}.

Definition bind {E S A B : Type} (c : M E S A) (k : A -> M E S B) : M E S B :=
  fun bus s =>
    match c bus s with
    | {| result := a; after := s1; trace := t1 |} =>
        match k a bus s1 with
        | {| result := b; after := s2; trace := t2 |} =>
            {| result := b; after := s2; trace := t1 ++ t2 |}
        end
    end.

Definition get {E S : Type} : M E S S :=
  fun _ s => {| result := s; after := s; trace := [] |}.

Definition put {E S : Type} (s : S) : M E S unit :=
  fun _ _ => {| result := tt; after := s; trace := [] |}.

Definition ask {E S A : Type} (q : Bus -> A) : M E S A :=
  fun bus s => {| result := q bus; after := s; trace := [] |}.

Definition tell {E S : Type} (e : E) : M E S unit :=
  fun _ s => {| result := tt; after := s; trace := [e] |}.

Definition when {E S : Type} (b : bool) (c : M E S unit) : M E S unit :=
  if b then c else ret tt.

Declare Scope handler_scope.
Delimit Scope handler_scope with handler.
Notation "x <- c1 ;; c2" := (bind c1 (fun x => c2))
  (at level 61, c1 at next level, right associativity) : handler_scope.
Notation "c1 ;; c2" := (bind c1 (fun _ => c2))
  (at level 61, right associativity) : handler_scope.

(** How often an effect satisfying [p] occurs in a trace. *)
Definition occurrences {E : Type} (p : E -> bool) (t : list E) : nat :=
  List.length (List.filter p t).

(** ** class PowerKit ([src/lib/powerkit.cpp]) *)

Module PowerKit.

Inductive Signal :=
  | UpdatedDevices
  | LidClosed
  | LidOpened
  | SwitchedToBattery
  | SwitchedToAC
  | UpdatedInhibitors
  | DeviceWasAdded (p : QString)
  | DeviceWasRemoved (p : QString)
  | PrepareForSuspend (suspend : bool)
  | Update.

(** What a handler does to the outside: [emit] a signal, or call a method
    of a backend's manager object to carry out an action. *)
Inductive Effect :=
  | Emit (s : Signal)
  | MethodCall (backend : PKBackend) (cmd : QString) (args : list bool).

Record Members := mkMembers {
  devices : list (QString * Device);          (* QMap<QString, Device*> *)
  wasDocked : bool;
  wasLidClosed : bool;
  wasOnBattery : bool;
  ssInhibitors : list (quint32 * QString);   (* QMap<quint32, QString> *)
  pmInhibitors : list (quint32 * QString)
}.

(** The members as the constructor's initialiser list leaves them. *)
Definition initial : Members :=
  {| devices := []; wasDocked := false; wasLidClosed := false;
     wasOnBattery := false; ssInhibitors := []; pmInhibitors := [] |}.

Definition set_devices (m : list (QString * Device)) (s : Members) : Members :=
  {| devices := m; wasDocked := wasDocked s; wasLidClosed := wasLidClosed s;
     wasOnBattery := wasOnBattery s; ssInhibitors := ssInhibitors s;
     pmInhibitors := pmInhibitors s |}.

Definition set_wasLidClosed (b : bool) (s : Members) : Members :=
  {| devices := devices s; wasDocked := wasDocked s; wasLidClosed := b;
     wasOnBattery := wasOnBattery s; ssInhibitors := ssInhibitors s;
     pmInhibitors := pmInhibitors s |}.

Definition set_wasOnBattery (b : bool) (s : Members) : Members :=
  {| devices := devices s; wasDocked := wasDocked s; wasLidClosed := wasLidClosed s;
     wasOnBattery := b; ssInhibitors := ssInhibitors s;
     pmInhibitors := pmInhibitors s |}.

Definition set_ssInhibitors (m : list (quint32 * QString)) (s : Members) : Members :=
  {| devices := devices s; wasDocked := wasDocked s; wasLidClosed := wasLidClosed s;
     wasOnBattery := wasOnBattery s; ssInhibitors := m;
     pmInhibitors := pmInhibitors s |}.

Definition set_pmInhibitors (m : list (quint32 * QString)) (s : Members) : Members :=
  {| devices := devices s; wasDocked := wasDocked s; wasLidClosed := wasLidClosed s;
     wasOnBattery := wasOnBattery s; ssInhibitors := ssInhibitors s;
     pmInhibitors := m |}.

Definition Handler (A : Type) : Type := M Effect Members A.

Definition emit (sig : Signal) : Handler unit := tell (Emit sig).

Definition modify (f : Members -> Members) : Handler unit :=
  fun _ s => {| result := tt; after := f s; trace := [] |}.

Section WithDefs.
Context {defs : Defs}.

Local Open Scope handler_scope.

(** The service, path and interface that the callers pass are those of one
    backend's manager object; the triple is named by the backend. *)
Definition availableService (backend : PKBackend) (bus : Bus) : bool :=
  if interface_isValid bus backend then true else false.

Definition methodCommand (method : PKMethod) : option QString :=
  match method with
  | PKCanRestart => Some PK_CAN_RESTART
  | PKCanPowerOff => Some PK_CAN_POWEROFF
  | PKCanSuspend => Some PK_CAN_SUSPEND
  | PKCanHibernate => Some PK_CAN_HIBERNATE
  | PKCanHybridSleep => Some PK_CAN_HYBRIDSLEEP
  | PKSuspendAllowed => Some PK_SUSPEND_ALLOWED
  | PKHibernateAllowed => Some PK_HIBERNATE_ALLOWED
  | PKNoMethod => None
  end.

Definition availableAction (method : PKMethod) (backend : PKBackend) (bus : Bus) : bool :=
  match backend with
  | PKNoBackend => false
  | _ =>
      match methodCommand method with
      | None => false
      | Some cmd =>
          if negb (interface_isValid bus backend) then false
          else
            let reply := call bus backend cmd [] in
            if String.eqb (first_toString reply) DBUS_OK_REPLY then true
            else
              let result := first_toBool reply in
              if negb (isEmpty (errorMessage reply)) then false else result
      end
  end.

Definition actionCommand (action : PKAction) : option QString :=
  match action with
  | PKRestartAction => Some PK_RESTART
  | PKPowerOffAction => Some PK_POWEROFF
  | PKSuspendAction => Some PK_SUSPEND
  | PKHibernateAction => Some PK_HIBERNATE
  | PKHybridSleepAction => Some PK_HYBRIDSLEEP
  | PKNoAction => None
  end.

Definition executeAction (action : PKAction) (backend : PKBackend) : Handler QString :=
  match backend with
  | PKNoBackend => ret PK_NO_BACKEND
  | _ =>
      match actionCommand action with
      | None => ret PK_NO_ACTION
      | Some cmd =>
          valid <- ask (fun bus => interface_isValid bus backend) ;;
          if negb valid then ret DBUS_FAILED_CONN
          else
            let args := match backend with PKUPower => [] | _ => [true] end in
            tell (MethodCall backend cmd args) ;;
            reply <- ask (fun bus => call bus backend cmd args) ;;
            ret (errorMessage reply)
      end
  end.

(** The "Introspect" call on [UPOWER_PATH/devices] is a read of the bus.
    Every node with a name gives one entry, in document order: the path of
    [QDBusObjectPath(UPOWER_DEVICES + name)], which is empty when the
    concatenation is no object path. *)
Definition find (bus : Bus) : list QString :=
  match introspect bus with
  | None => []
  | Some names =>
      map (fun name => QDBusObjectPath_path (UPOWER_DEVICES ++ name)%string)
          (filter (fun name => negb (isEmpty name)) names)
  end.

(** *** Level facts *)

Definition IsDocked (bus : Bus) : bool :=
  if logind_isValid bus then logind_property bus LOGIND_DOCKED
  else if upower_isValid bus then upower_property bus UPOWER_DOCKED
  else false.

Definition LidIsPresent (bus : Bus) : bool :=
  if upower_isValid bus then upower_property bus UPOWER_LID_IS_PRESENT else false.

Definition LidIsClosed (bus : Bus) : bool :=
  if upower_isValid bus then upower_property bus UPOWER_LID_IS_CLOSED else false.

Definition OnBattery (bus : Bus) : bool :=
  if upower_isValid bus then upower_property bus UPOWER_ON_BATTERY else false.

(** *** Level to edge *)

(** Every [LidIsClosed()] and [OnBattery()] of the source is a read of its
    own; they all read the one bus of the call. *)
Definition deviceChanged : Handler unit :=
  s <- get ;;
  lid1 <- ask LidIsClosed ;;
  when (negb (Bool.eqb (wasLidClosed s) lid1))
    (lid2 <- ask LidIsClosed ;;
     if negb (wasLidClosed s) && lid2 then emit LidClosed
     else
       lid3 <- ask LidIsClosed ;;
       if wasLidClosed s && negb lid3 then emit LidOpened
       else ret tt) ;;
  lid4 <- ask LidIsClosed ;;
  modify (set_wasLidClosed lid4) ;;
  s <- get ;;
  bat1 <- ask OnBattery ;;
  when (negb (Bool.eqb (wasOnBattery s) bat1))
    (bat2 <- ask OnBattery ;;
     if negb (wasOnBattery s) && bat2 then emit SwitchedToBattery
     else
       bat3 <- ask OnBattery ;;
       if wasOnBattery s && negb bat3 then emit SwitchedToAC
       else ret tt) ;;
  bat4 <- ask OnBattery ;;
  modify (set_wasOnBattery bat4) ;;
  emit UpdatedDevices.

Definition handleDeviceChanged (device : QString) : Handler unit :=
  if isEmpty device then ret tt else deviceChanged.

(** *** Device registry *)

(** [device->update()]: the refresh of the attributes, then the Device's
    [deviceChanged(path)] signal, which [scan()] connected to
    [handleDeviceChanged]. *)
Definition Device_update (d : Device) : Handler Device :=
  o <- ask (fun bus => device_object bus (path d)) ;;
  let d' := Device_refresh o d in
  handleDeviceChanged (path d') ;;
  ret d'.

(** The loop of [UpdateDevices()] over the entries, in key order.  The map
    holds pointers, so the loop changes the Devices where they are: the
    entries keep their keys and get the refreshed contents. *)
Fixpoint UpdateDevices_loop (entries : list (QString * Device))
  : Handler (list (QString * Device)) :=
  match entries with
  | [] => ret []
  | (k, d) :: rest =>
      d' <- Device_update d ;;
      rest' <- UpdateDevices_loop rest ;;
      ret ((k, d') :: rest')
  end.

Definition UpdateDevices : Handler unit :=
  s <- get ;;
  entries <- UpdateDevices_loop (devices s) ;;
  modify (set_devices entries).

(** The body of the loop of [UpdateBattery()], on one Device. *)
Definition UpdateBattery_body (bus : Bus) (d : Device) : Device :=
  if isBattery d then Device_updateBattery (device_object bus (path d)) d else d.

Definition UpdateBattery : Handler unit :=
  bus <- ask (fun bus => bus) ;;
  modify (fun s => set_devices (QMap.mapValues (UpdateBattery_body bus) (devices s)) s).

Fixpoint scan_loop (foundDevices : list QString) : Handler unit :=
  match foundDevices with
  | [] => ret tt
  | foundDevicePath :: rest =>
      s <- get ;;
      (if QMap.contains foundDevicePath (devices s) then ret tt
       else
         o <- ask (fun bus => device_object bus foundDevicePath) ;;
         let newDevice := Device_new foundDevicePath o in
         modify (set_devices (QMap.insert foundDevicePath newDevice (devices s)))) ;;
      scan_loop rest
  end.

Definition scan : Handler unit :=
  foundDevices <- ask find ;;
  scan_loop foundDevices ;;
  UpdateDevices ;;
  emit UpdatedDevices.

Definition deviceAdded (p : QString) : Handler unit :=
  valid <- ask upower_isValid ;;
  if negb valid then ret tt
  else if startsWith p DBUS_JOBS_arg_UPOWER_PATH then ret tt
  else
    emit (DeviceWasAdded p) ;;
    scan.

Definition deviceRemoved (p : QString) : Handler unit :=
  valid <- ask upower_isValid ;;
  if negb valid then ret tt
  else
    s <- get ;;
    let deviceExists := QMap.contains p (devices s) in
    if startsWith p DBUS_JOBS_arg_UPOWER_PATH then ret tt
    else if deviceExists then
      found <- ask find ;;
      if existsb (String.eqb p) found then ret tt
      else
        modify (set_devices (snd (QMap.take p (devices s)))) ;;
        emit (DeviceWasRemoved p) ;;
        scan
    else scan.

Definition handleResume : Handler unit := emit (PrepareForSuspend false).

Definition handleSuspend : Handler unit := emit (PrepareForSuspend true).

Definition handlePrepareForSuspend (suspend : bool) : Handler unit :=
  emit (PrepareForSuspend suspend).

Definition clearDevices : Handler unit := modify (set_devices []).

Definition getDevices (s : Members) : list (QString * Device) := devices s.

Definition UpdateConfig : Handler unit := emit Update.

(** *** Inhibitors *)

Definition handleNewInhibitScreenSaver
  (application reason : QString) (cookie : quint32) : Handler unit :=
  modify (fun s => set_ssInhibitors (QMap.insert cookie application (ssInhibitors s)) s) ;;
  emit UpdatedInhibitors.

Definition handleNewInhibitPowerManagement
  (application reason : QString) (cookie : quint32) : Handler unit :=
  modify (fun s => set_pmInhibitors (QMap.insert cookie application (pmInhibitors s)) s) ;;
  emit UpdatedInhibitors.

Definition handleDelInhibitScreenSaver (cookie : quint32) : Handler unit :=
  s <- get ;;
  if QMap.contains cookie (ssInhibitors s) then
    modify (set_ssInhibitors (QMap.remove cookie (ssInhibitors s))) ;;
    emit UpdatedInhibitors
  else ret tt.

Definition handleDelInhibitPowerManagement (cookie : quint32) : Handler unit :=
  s <- get ;;
  if QMap.contains cookie (pmInhibitors s) then
    modify (set_pmInhibitors (QMap.remove cookie (pmInhibitors s))) ;;
    emit UpdatedInhibitors
  else ret tt.

Definition ScreenSaverInhibitors (s : Members) : list QString :=
  map snd (ssInhibitors s).

Definition PowerManagementInhibitors (s : Members) : list QString :=
  map snd (pmInhibitors s).

(** *** Backends and capabilities *)

Definition HasConsoleKit : Bus -> bool := availableService PKConsoleKit.
Definition HasLogind : Bus -> bool := availableService PKLogind.
Definition HasUPower : Bus -> bool := availableService PKUPower.

Definition CanRestart (bus : Bus) : bool :=
  if HasLogind bus then availableAction PKCanRestart PKLogind bus
  else if HasConsoleKit bus then availableAction PKCanRestart PKConsoleKit bus
  else false.

Definition CanPowerOff (bus : Bus) : bool :=
  if HasLogind bus then availableAction PKCanPowerOff PKLogind bus
  else if HasConsoleKit bus then availableAction PKCanPowerOff PKConsoleKit bus
  else false.

Definition CanSuspend (bus : Bus) : bool :=
  if HasLogind bus then availableAction PKCanSuspend PKLogind bus
  else if HasConsoleKit bus then availableAction PKCanSuspend PKConsoleKit bus
  else if HasUPower bus then availableAction PKSuspendAllowed PKUPower bus
  else false.

Definition CanHibernate (bus : Bus) : bool :=
  if HasLogind bus then availableAction PKCanHibernate PKLogind bus
  else if HasConsoleKit bus then availableAction PKCanHibernate PKConsoleKit bus
  else if HasUPower bus then availableAction PKHibernateAllowed PKUPower bus
  else false.

Definition CanHybridSleep (bus : Bus) : bool :=
  if HasLogind bus then availableAction PKCanHybridSleep PKLogind bus
  else if HasConsoleKit bus then availableAction PKCanHybridSleep PKConsoleKit bus
  else false.

(** *** Actions *)

Definition Restart : Handler QString :=
  l <- ask HasLogind ;;
  if l then executeAction PKRestartAction PKLogind
  else
    c <- ask HasConsoleKit ;;
    if c then executeAction PKRestartAction PKConsoleKit
    else ret PK_NO_BACKEND.

Definition PowerOff : Handler QString :=
  l <- ask HasLogind ;;
  if l then executeAction PKPowerOffAction PKLogind
  else
    c <- ask HasConsoleKit ;;
    if c then executeAction PKPowerOffAction PKConsoleKit
    else ret PK_NO_BACKEND.

Definition Suspend : Handler QString :=
  l <- ask HasLogind ;;
  if l then executeAction PKSuspendAction PKLogind
  else
    c <- ask HasConsoleKit ;;
    if c then executeAction PKSuspendAction PKConsoleKit
    else
      u <- ask HasUPower ;;
      if u then executeAction PKSuspendAction PKUPower
      else ret PK_NO_BACKEND.

Definition Hibernate : Handler QString :=
  l <- ask HasLogind ;;
  if l then executeAction PKHibernateAction PKLogind
  else
    c <- ask HasConsoleKit ;;
    if c then executeAction PKHibernateAction PKConsoleKit
    else
      u <- ask HasUPower ;;
      if u then executeAction PKHibernateAction PKUPower
      else ret PK_NO_BACKEND.

Definition HybridSleep : Handler QString :=
  l <- ask HasLogind ;;
  if l then executeAction PKHybridSleepAction PKLogind
  else
    c <- ask HasConsoleKit ;;
    if c then executeAction PKHybridSleepAction PKConsoleKit
    else ret PK_NO_BACKEND.

(** *** Aggregates over the devices *)

(** The test that guards the accumulation in [BatteryLeft], [TimeToEmpty]
    and [TimeToFull]. *)
Definition counted (d : Device) : bool :=
  isBattery d && isPresent d && negb (isEmpty (nativePath d)).

(** The loop of [BatteryLeft]: the running [batteryLeft] and [batteries]. *)
Definition BatteryLeft_loop (entries : list (QString * Device)) : double * Z :=
  fold_left
    (fun acc e =>
       if counted (snd e)
       then (PrimFloat.add (fst acc) (percentage (snd e)), int_wrap (snd acc + 1))
       else acc)
    entries (0%float, 0%Z).

Definition BatteryLeft : Handler double :=
  bat <- ask OnBattery ;;
  when bat UpdateBattery ;;
  s <- get ;;
  let acc := BatteryLeft_loop (devices s) in
  ret (PrimFloat.div (fst acc) (double_of_int (snd acc))).

Definition HasBattery (s : Members) : bool :=
  existsb (fun e => isBattery (snd e)) (devices s).

Definition TimeToEmpty_loop (entries : list (QString * Device)) : Z :=
  fold_left
    (fun acc e =>
       if counted (snd e) then qlonglong_wrap (acc + timeToEmpty (snd e)) else acc)
    entries 0%Z.

Definition TimeToEmpty : Handler Z :=
  bat <- ask OnBattery ;;
  when bat UpdateBattery ;;
  s <- get ;;
  ret (TimeToEmpty_loop (devices s)).

Definition TimeToFull_loop (entries : list (QString * Device)) : Z :=
  fold_left
    (fun acc e =>
       if counted (snd e) then qlonglong_wrap (acc + timeToFull (snd e)) else acc)
    entries 0%Z.

Definition TimeToFull : Handler Z :=
  bat <- ask OnBattery ;;
  when bat UpdateBattery ;;
  s <- get ;;
  ret (TimeToFull_loop (devices s)).

End WithDefs.

End PowerKit.

(** ** class Power ([src/lib/power.cpp]) *)

Module Power.

Inductive Signal :=
  | updatedDevices
  | closedLid
  | openedLid
  | switchedToBattery
  | switchedToAC.

(** [emit] of a signal, or a call of one of the static action helpers. *)
Inductive Effect :=
  | Emit (s : Signal)
  | HelperCall (h : Helper).

Record Members := mkMembers {
  devices : list (QString * Device);
  wasDocked : bool;
  wasLidClosed : bool;
  wasOnBattery : bool
}.

Definition initial : Members :=
  {| devices := []; wasDocked := false; wasLidClosed := false; wasOnBattery := false |}.

Definition set_devices (m : list (QString * Device)) (s : Members) : Members :=
  {| devices := m; wasDocked := wasDocked s; wasLidClosed := wasLidClosed s;
     wasOnBattery := wasOnBattery s |}.

Definition set_wasLidClosed (b : bool) (s : Members) : Members :=
  {| devices := devices s; wasDocked := wasDocked s; wasLidClosed := b;
     wasOnBattery := wasOnBattery s |}.

Definition set_wasOnBattery (b : bool) (s : Members) : Members :=
  {| devices := devices s; wasDocked := wasDocked s; wasLidClosed := wasLidClosed s;
     wasOnBattery := b |}.

Definition Handler (A : Type) : Type := M Effect Members A.

Definition emit (sig : Signal) : Handler unit := tell (Emit sig).

Definition modify (f : Members -> Members) : Handler unit :=
  fun _ s => {| result := tt; after := f s; trace := [] |}.

Section WithDefs.
(** The macro [UP_PATH] of this class's [def.h]. *)
Variable UP_PATH : QString.

Local Open Scope handler_scope.
Local Open Scope string_scope.

Definition isDocked (bus : Bus) : bool :=
  if logind_isValid bus then logind_property bus "Docked"
  else if upower_isValid bus then upower_property bus "IsDocked"
  else false.

Definition lidIsPresent (bus : Bus) : bool :=
  if upower_isValid bus then upower_property bus "LidIsPresent" else false.

Definition lidIsClosed (bus : Bus) : bool :=
  if upower_isValid bus then upower_property bus "LidIsClosed" else false.

Definition onBattery (bus : Bus) : bool :=
  if upower_isValid bus then upower_property bus "OnBattery" else false.

Definition canHibernate (bus : Bus) : bool :=
  if logind_isValid bus then Login1_canHibernate bus
  else if upower_isValid bus then upower_property bus "CanHibernate"
  else false.

Definition canSuspend (bus : Bus) : bool :=
  if logind_isValid bus then Login1_canSuspend bus
  else if upower_isValid bus then upower_property bus "CanSuspend"
  else false.

Definition batteryLeft (s : Members) : double :=
  fold_left
    (fun acc e =>
       if isBattery (snd e) && isPresent (snd e) && negb (isEmpty (nativePath (snd e)))
       then PrimFloat.add acc (percentage (snd e))
       else acc)
    (devices s) 0%float.

Definition sleep : Handler unit :=
  can <- ask canSuspend ;;
  when can
    (l <- ask logind_isValid ;;
     if l then tell (HelperCall Login1_suspend)
     else
       u <- ask upower_isValid ;;
       when u (tell (HelperCall UPower_suspend))).

Definition hibernate : Handler unit :=
  can <- ask canHibernate ;;
  when can
    (l <- ask logind_isValid ;;
     if l then tell (HelperCall Login1_hibernate)
     else
       u <- ask upower_isValid ;;
       when u (tell (HelperCall UPower_hibernate))).

Fixpoint scanDevices_loop (foundDevices : list QString) : Handler unit :=
  match foundDevices with
  | [] => ret tt
  | foundDevicePath :: rest =>
      s <- get ;;
      let hasDevice := QMap.contains foundDevicePath (devices s) in
      (if hasDevice then ret tt
       else
         o <- ask (fun bus => device_object bus foundDevicePath) ;;
         let newDevice := Device_new foundDevicePath o in
         modify (set_devices (QMap.insert foundDevicePath newDevice (devices s)))) ;;
      scanDevices_loop rest
  end.

Definition scanDevices : Handler unit :=
  foundDevices <- ask UPower_getDevices ;;
  scanDevices_loop foundDevices ;;
  emit updatedDevices.

(** [QString("%1/jobs").arg(UP_PATH)] *)
Definition jobsPath : QString := UP_PATH ++ "/jobs".

Definition deviceAdded (p : QString) : Handler unit :=
  valid <- ask upower_isValid ;;
  if negb valid then ret tt
  else if startsWith p jobsPath then ret tt
  else scanDevices.

Definition deviceRemoved (p : QString) : Handler unit :=
  valid <- ask upower_isValid ;;
  if negb valid then ret tt
  else
    s <- get ;;
    let deviceExists := QMap.contains p (devices s) in
    if startsWith p jobsPath then ret tt
    else if deviceExists then
      found <- ask UPower_getDevices ;;
      if existsb (String.eqb p) found then ret tt
      else
        modify (set_devices (snd (QMap.take p (devices s)))) ;;
        scanDevices
    else scanDevices.

Definition deviceChanged : Handler unit :=
  s <- get ;;
  lid1 <- ask lidIsClosed ;;
  when (negb (Bool.eqb (wasLidClosed s) lid1))
    (lid2 <- ask lidIsClosed ;;
     if negb (wasLidClosed s) && lid2 then emit closedLid
     else
       lid3 <- ask lidIsClosed ;;
       if wasLidClosed s && negb lid3 then emit openedLid
       else ret tt) ;;
  lid4 <- ask lidIsClosed ;;
  modify (set_wasLidClosed lid4) ;;
  s <- get ;;
  bat1 <- ask onBattery ;;
  when (negb (Bool.eqb (wasOnBattery s) bat1))
    (bat2 <- ask onBattery ;;
     if negb (wasOnBattery s) && bat2 then emit switchedToBattery
     else
       bat3 <- ask onBattery ;;
       if wasOnBattery s && negb bat3 then emit switchedToAC
       else ret tt) ;;
  bat4 <- ask onBattery ;;
  modify (set_wasOnBattery bat4) ;;
  emit updatedDevices.

Definition handleDeviceChanged (devicePath : QString) : Handler unit :=
  if isEmpty devicePath then ret tt else deviceChanged.

End WithDefs.

End Power.

(** One handler run once per bus of a sequence, each run starting from the
    members the previous one left: the trace of each call, and the members
    after the last. *)
Fixpoint traces {E S : Type} (h : M E S unit) (buses : list Bus) (s : S) : list (list E) :=
  match buses with
  | [] => []
  | bus :: rest => trace (h bus s) :: traces h rest (after (h bus s))
  end.

Fixpoint afterAll {E S : Type} (h : M E S unit) (buses : list Bus) (s : S) : S :=
  match buses with
  | [] => s
  | bus :: rest => afterAll h rest (after (h bus s))
  end.

(** ** The specification's side

    Definitions that follow the words of the specification, to be compared
    with the code above. *)

Module Spec.

(** Section 4.1, BackendSelector: "resolve(capability) -> backendId | none",
    with a fixed, capability-dependent priority order. *)
Inductive Capability := Restart | PowerOff | Suspend | Hibernate | HybridSleep.

Definition priority (c : Capability) : list PKBackend :=
  match c with
  | Restart | PowerOff => [PKLogind; PKConsoleKit]
  | Suspend | Hibernate => [PKLogind; PKConsoleKit; PKUPower]
  | HybridSleep => [PKLogind; PKConsoleKit]
  end.

(** "Reachability of a backend is determined by attempting to address it";
    callers "fall through to the next priority tier". *)
Fixpoint firstReachable (tiers : list PKBackend) (bus : Bus) : option PKBackend :=
  match tiers with
  | [] => None
  | b :: rest => if interface_isValid bus b then Some b else firstReachable rest bus
  end.

Definition resolve (c : Capability) (bus : Bus) : option PKBackend :=
  firstReachable (priority c) bus.

(** The "can" question a backend is asked for a capability. *)
Definition question (c : Capability) (b : PKBackend) : PKMethod :=
  match c, b with
  | Restart, _ => PKCanRestart
  | PowerOff, _ => PKCanPowerOff
  | Suspend, PKUPower => PKSuspendAllowed
  | Suspend, _ => PKCanSuspend
  | Hibernate, PKUPower => PKHibernateAllowed
  | Hibernate, _ => PKCanHibernate
  | HybridSleep, _ => PKCanHybridSleep
  end.

(** The action asked of a backend for a capability. *)
Definition action (c : Capability) : PKAction :=
  match c with
  | Restart => PKRestartAction
  | PowerOff => PKPowerOffAction
  | Suspend => PKSuspendAction
  | Hibernate => PKHibernateAction
  | HybridSleep => PKHybridSleepAction
  end.

Section WithDefs.
Context {defs : Defs}.

(** The member of a backend that carries its "can" answer for a capability
    (section 7: "logind reports CanSuspend", "upower reports
    SuspendAllowed"). *)
Definition member (c : Capability) (b : PKBackend) : QString :=
  match c, b with
  | Restart, _ => PK_CAN_RESTART
  | PowerOff, _ => PK_CAN_POWEROFF
  | Suspend, PKUPower => PK_SUSPEND_ALLOWED
  | Suspend, _ => PK_CAN_SUSPEND
  | Hibernate, PKUPower => PK_HIBERNATE_ALLOWED
  | Hibernate, _ => PK_CAN_HIBERNATE
  | HybridSleep, _ => PK_CAN_HYBRIDSLEEP
  end.

(** What a backend answers, as the spec has it: a capability is "a boolean
    can-this-action-be-performed fact", and a backend reports it true or
    false.  The reply of the backend is a yes when it carries the boolean
    true or the affirmative string [DBUS_OK_REPLY], and is no error;
    every other reply is a no. *)
Definition answer (v : QVariant) (error : QString) : bool :=
  isEmpty error
  && match v with
     | QVariant_bool b => b
     | QVariant_QString s => String.eqb s DBUS_OK_REPLY
     end.

(** The query and the action of the code for each capability. *)
Definition can (c : Capability) : Bus -> bool :=
  match c with
  | Restart => PowerKit.CanRestart
  | PowerOff => PowerKit.CanPowerOff
  | Suspend => PowerKit.CanSuspend
  | Hibernate => PowerKit.CanHibernate
  | HybridSleep => PowerKit.CanHybridSleep
  end.

Definition act (c : Capability) : PowerKit.Handler QString :=
  match c with
  | Restart => PowerKit.Restart
  | PowerOff => PowerKit.PowerOff
  | Suspend => PowerKit.Suspend
  | Hibernate => PowerKit.Hibernate
  | HybridSleep => PowerKit.HybridSleep
  end.

(** The method call that carries out a capability on a backend: the
    command, and the [true] argument that all backends but UPower get. *)
Definition actionCall (c : Capability) (b : PKBackend) : option (QString * list bool) :=
  match PowerKit.actionCommand (action c) with
  | Some cmd => Some (cmd, match b with PKUPower => [] | _ => [true] end)
  | None => None
  end.

End WithDefs.

(** Whether UPower is in the priority order of a capability. *)
Definition usesUPower (c : Capability) : bool :=
  existsb (fun b => match b with PKUPower => true | _ => false end) (priority c).

(** Two buses that differ at most in what backend [b0] is and says. *)
Definition agreeOff (b0 : PKBackend) (bus1 bus2 : Bus) : Prop :=
  forall b, b <> b0 ->
    interface_isValid bus1 b = interface_isValid bus2 b /\
    forall cmd args, call bus1 b cmd args = call bus2 b cmd args.

(** Section 3, StateTracker: "an edge event for a given fact fires iff the
    newly observed value differs from the cached value".  The number of
    transitions from false to true, and from true to false, in a sequence of
    observations that starts from the cached value [prev]. *)
Fixpoint rises (prev : bool) (observed : list bool) : nat :=
  match observed with
  | [] => 0
  | now :: rest => (if negb prev && now then 1 else 0) + rises now rest
  end.

Fixpoint falls (prev : bool) (observed : list bool) : nat :=
  match observed with
  | [] => 0
  | now :: rest => (if prev && negb now then 1 else 0) + falls now rest
  end.

(** Section 4.4: a handler that turns the level fact [observe] into the edge
    events [up] and [down] by comparing it with the cache [cached]: per call
    one event exactly when the value moved, none otherwise, never both; over
    successive calls one event per transition of the observed value. *)
Definition edgeTriggered {E S : Type} (h : M E S unit)
  (cached : S -> bool) (observe : Bus -> bool) (up down : E -> bool) : Prop :=
  (forall bus s,
      occurrences up (trace (h bus s))
        = (if negb (cached s) && observe bus then 1 else 0)
      /\ occurrences down (trace (h bus s))
        = (if cached s && negb (observe bus) then 1 else 0)
      /\ occurrences up (trace (h bus s)) + occurrences down (trace (h bus s)) <= 1)
  /\ (forall buses s,
      occurrences up (List.concat (traces h buses s))
        = rises (cached s) (map observe buses)
      /\ occurrences down (List.concat (traces h buses s))
        = falls (cached s) (map observe buses)).

(** Section 3, DeviceRegistry: "batteryLeft = sum(percentage) / count over
    qualifying devices", in [double] arithmetic, the sum taken in the order
    given. *)
Definition mean (percentages : list double) : double :=
  PrimFloat.div (fold_left PrimFloat.add percentages 0%float)
                (double_of_int (Z.of_nat (List.length percentages))).

(** The events of one level fact in one call: at most one. *)
Definition edge {E : Type} (up down : E) (prev now : bool) : list E :=
  if negb prev && now then [up]
  else if prev && negb now then [down]
  else [].

End Spec.

(** Recognisers of the effects the statements count. *)
Module Is.

Definition LidClosed (e : PowerKit.Effect) : bool :=
  match e with PowerKit.Emit PowerKit.LidClosed => true | _ => false end.
Definition LidOpened (e : PowerKit.Effect) : bool :=
  match e with PowerKit.Emit PowerKit.LidOpened => true | _ => false end.
Definition SwitchedToBattery (e : PowerKit.Effect) : bool :=
  match e with PowerKit.Emit PowerKit.SwitchedToBattery => true | _ => false end.
Definition SwitchedToAC (e : PowerKit.Effect) : bool :=
  match e with PowerKit.Emit PowerKit.SwitchedToAC => true | _ => false end.
Definition UpdatedDevices (e : PowerKit.Effect) : bool :=
  match e with PowerKit.Emit PowerKit.UpdatedDevices => true | _ => false end.
Definition DeviceWasAdded (p : QString) (e : PowerKit.Effect) : bool :=
  match e with PowerKit.Emit (PowerKit.DeviceWasAdded q) => String.eqb q p | _ => false end.
Definition DeviceWasRemoved (e : PowerKit.Effect) : bool :=
  match e with PowerKit.Emit (PowerKit.DeviceWasRemoved _) => true | _ => false end.
Definition MethodCall (e : PowerKit.Effect) : bool :=
  match e with PowerKit.MethodCall _ _ _ => true | _ => false end.

Definition closedLid (e : Power.Effect) : bool :=
  match e with Power.Emit Power.closedLid => true | _ => false end.
Definition openedLid (e : Power.Effect) : bool :=
  match e with Power.Emit Power.openedLid => true | _ => false end.
Definition switchedToBattery (e : Power.Effect) : bool :=
  match e with Power.Emit Power.switchedToBattery => true | _ => false end.
Definition switchedToAC (e : Power.Effect) : bool :=
  match e with Power.Emit Power.switchedToAC => true | _ => false end.
Definition HelperCall (e : Power.Effect) : bool :=
  match e with Power.HelperCall _ => true | _ => false end.

End Is.

(** The devices the aggregates read: swept by [UpdateBattery()] when on
    battery, as they are otherwise. *)
Definition devicesRead {defs : Defs} (bus : Bus) (s : PowerKit.Members)
  : list (QString * Device) :=
  if PowerKit.OnBattery bus
  then QMap.mapValues (PowerKit.UpdateBattery_body bus) (PowerKit.devices s)
  else PowerKit.devices s.

(** The entries that pass the test of the aggregates. *)
Definition countedEntries (entries : list (QString * Device)) : list (QString * Device) :=
  filter (fun e => PowerKit.counted (snd e)) entries.

(** What [device->update()] leaves in a Device. *)
Definition refreshed (bus : Bus) (d : Device) : Device :=
  Device_refresh (device_object bus (path d)) d.

(** The Device at key [k] once the loop of a scan over [found] has run:
    the one already there, or a new one when [k] was found and not there. *)
Definition afterScanLoop (bus : Bus) (found : list QString)
  (m : list (QString * Device)) (k : QString) : option Device :=
  match QMap.value k m with
  | Some d => Some d
  | None =>
      if existsb (String.eqb k) found
      then Some (Device_new k (device_object bus k))
      else None
  end.

(** The events of the level-to-edge tracker, which a scan passes on. *)
Definition isTrackerEvent (e : PowerKit.Effect) : bool :=
  match e with
  | PowerKit.Emit PowerKit.UpdatedDevices
  | PowerKit.Emit PowerKit.LidClosed
  | PowerKit.Emit PowerKit.LidOpened
  | PowerKit.Emit PowerKit.SwitchedToBattery
  | PowerKit.Emit PowerKit.SwitchedToAC => true
  | _ => false
  end.

(** One turn of the loop of [scan()], on the members. *)
Definition scanStep (bus : Bus) (foundDevicePath : QString) (s : PowerKit.Members)
  : PowerKit.Members :=
  if QMap.contains foundDevicePath (PowerKit.devices s) then s
  else PowerKit.set_devices
         (QMap.insert foundDevicePath
            (Device_new foundDevicePath (device_object bus foundDevicePath))
            (PowerKit.devices s)) s.

(** ** The object over its lifetime *)

(** The calls that reach a [PowerKit]: the slots wired to the bus signals,
    to the Devices and to the inhibit requests, and the public queries and
    actions that touch the members. *)
Inductive Call :=
  | Call_scan
  | Call_deviceAdded (p : QString)
  | Call_deviceRemoved (p : QString)
  | Call_deviceChanged
  | Call_handleDeviceChanged (device : QString)
  | Call_handleNewInhibitScreenSaver (application reason : QString) (cookie : quint32)
  | Call_handleNewInhibitPowerManagement (application reason : QString) (cookie : quint32)
  | Call_handleDelInhibitScreenSaver (cookie : quint32)
  | Call_handleDelInhibitPowerManagement (cookie : quint32)
  | Call_BatteryLeft
  | Call_TimeToEmpty
  | Call_TimeToFull
  | Call_UpdateDevices
  | Call_UpdateBattery
  | Call_action (c : Spec.Capability).

(** The members after a call; what the call returns is dropped. *)
Definition membersAfter {defs : Defs} (c : Call) (bus : Bus) (s : PowerKit.Members)
  : PowerKit.Members :=
  match c with
  | Call_scan => after (PowerKit.scan bus s)
  | Call_deviceAdded p => after (PowerKit.deviceAdded p bus s)
  | Call_deviceRemoved p => after (PowerKit.deviceRemoved p bus s)
  | Call_deviceChanged => after (PowerKit.deviceChanged bus s)
  | Call_handleDeviceChanged device => after (PowerKit.handleDeviceChanged device bus s)
  | Call_handleNewInhibitScreenSaver application reason cookie =>
      after (PowerKit.handleNewInhibitScreenSaver application reason cookie bus s)
  | Call_handleNewInhibitPowerManagement application reason cookie =>
      after (PowerKit.handleNewInhibitPowerManagement application reason cookie bus s)
  | Call_handleDelInhibitScreenSaver cookie =>
      after (PowerKit.handleDelInhibitScreenSaver cookie bus s)
  | Call_handleDelInhibitPowerManagement cookie =>
      after (PowerKit.handleDelInhibitPowerManagement cookie bus s)
  | Call_BatteryLeft => after (PowerKit.BatteryLeft bus s)
  | Call_TimeToEmpty => after (PowerKit.TimeToEmpty bus s)
  | Call_TimeToFull => after (PowerKit.TimeToFull bus s)
  | Call_UpdateDevices => after (PowerKit.UpdateDevices bus s)
  | Call_UpdateBattery => after (PowerKit.UpdateBattery bus s)
  | Call_action c => after (Spec.act c bus s)
  end.

(** A history: each call with the bus it saw, oldest first. *)
Fixpoint membersAfterAll {defs : Defs} (history : list (Call * Bus)) (s : PowerKit.Members)
  : PowerKit.Members :=
  match history with
  | [] => s
  | (c, bus) :: rest => membersAfterAll rest (membersAfter c bus s)
  end.

(** The three maps are in key order. *)
Definition mapsSorted (s : PowerKit.Members) : bool :=
  QMap.sorted (PowerKit.devices s)
  && QMap.sorted (PowerKit.ssInhibitors s)
  && QMap.sorted (PowerKit.pmInhibitors s).

(** A call that leaves the inhibitor tables and [wasDocked] as they were. *)
Definition ledgerKept (s s' : PowerKit.Members) : Prop :=
  PowerKit.ssInhibitors s' = PowerKit.ssInhibitors s
  /\ PowerKit.pmInhibitors s' = PowerKit.pmInhibitors s
  /\ PowerKit.wasDocked s' = PowerKit.wasDocked s.

(** ** Concrete data to run the model on *)

Module Sample.

Local Open Scope string_scope.

(** A [def.h] to run the model on; the theorems hold for any. *)
Definition def_h : Defs :=
  {| DBUS_OK_REPLY := "yes";
     DBUS_FAILED_CONN := "Failed D-Bus connection.";
     PK_NO_BACKEND := "No backend available.";
     PK_NO_ACTION := "Action no available.";
     PK_CAN_RESTART := "CanReboot";
     PK_CAN_POWEROFF := "CanPowerOff";
     PK_CAN_SUSPEND := "CanSuspend";
     PK_CAN_HIBERNATE := "CanHibernate";
     PK_CAN_HYBRIDSLEEP := "CanHybridSleep";
     PK_SUSPEND_ALLOWED := "SuspendAllowed";
     PK_HIBERNATE_ALLOWED := "HibernateAllowed";
     PK_RESTART := "Reboot";
     PK_POWEROFF := "PowerOff";
     PK_SUSPEND := "Suspend";
     PK_HIBERNATE := "Hibernate";
     PK_HYBRIDSLEEP := "HybridSleep";
     UPOWER_DEVICES := "/org/freedesktop/UPower/devices/";
     DBUS_JOBS_arg_UPOWER_PATH := "/org/freedesktop/UPower/jobs";
     UPOWER_DOCKED := "IsDocked";
     UPOWER_LID_IS_PRESENT := "LidIsPresent";
     UPOWER_LID_IS_CLOSED := "LidIsClosed";
     UPOWER_ON_BATTERY := "OnBattery";
     LOGIND_DOCKED := "Docked" |}.

Definition emptyReply : QDBusMessage :=
  {| first_toString := EmptyString; first_toBool := false; errorMessage := EmptyString |}.

Definition silentObject : DeviceObject :=
  {| obj_isBattery := None; obj_isPresent := None; obj_nativePath := None;
     obj_percentage := None; obj_timeToEmpty := None; obj_timeToFull := None |}.

(** No service answers. *)
Definition deadBus : Bus :=
  {| interface_isValid := fun _ => false;
     call := fun _ _ _ => emptyReply;
     upower_isValid := false;
     logind_isValid := false;
     upower_property := fun _ => false;
     logind_property := fun _ => false;
     introspect := None;
     device_object := fun _ => silentObject;
     UPower_getDevices := [];
     Login1_canSuspend := false;
     Login1_canHibernate := false |}.

(** UPower answers, reports no device, and every boolean property true
    (docked, lid closed, on battery). *)
Definition dockedBus : Bus :=
  {| interface_isValid := fun b => match b with PKUPower => true | _ => false end;
     call := fun _ _ _ => emptyReply;
     upower_isValid := true;
     logind_isValid := false;
     upower_property := fun _ => true;
     logind_property := fun _ => false;
     introspect := Some [];
     device_object := fun _ => silentObject;
     UPower_getDevices := [];
     Login1_canSuspend := false;
     Login1_canHibernate := false |}.

(** UPower answers, reports no device, and every boolean property false
    (on AC, lid open). *)
Definition mainsBus : Bus :=
  {| interface_isValid := fun b => match b with PKUPower => true | _ => false end;
     call := fun _ _ _ => emptyReply;
     upower_isValid := true;
     logind_isValid := false;
     upower_property := fun _ => false;
     logind_property := fun _ => false;
     introspect := Some [];
     device_object := fun _ => silentObject;
     UPower_getDevices := [];
     Login1_canSuspend := false;
     Login1_canHibernate := false |}.

Definition deniedReply : QDBusMessage :=
  {| first_toString := "Permission denied"; first_toBool := true;
     errorMessage := "Permission denied" |}.

Definition trueReply : QDBusMessage :=
  {| first_toString := "true"; first_toBool := true; errorMessage := EmptyString |}.

(** logind and UPower are reachable, ConsoleKit is not.  logind answers
    every call with an error; UPower answers every call with [true]. *)
Definition refusingBus : Bus :=
  {| interface_isValid :=
       fun b => match b with PKLogind | PKUPower => true | _ => false end;
     call := fun b _ _ =>
       match b with
       | PKLogind => deniedReply
       | PKUPower => trueReply
       | _ => emptyReply
       end;
     upower_isValid := true;
     logind_isValid := true;
     upower_property := fun _ => false;
     logind_property := fun _ => false;
     introspect := Some [];
     device_object := fun _ => silentObject;
     UPower_getDevices := [];
     Login1_canSuspend := false;
     Login1_canHibernate := false |}.

(** The same, with UPower gone. *)
Definition refusingBus_noUPower : Bus :=
  {| interface_isValid :=
       fun b => match b with PKLogind => true | _ => false end;
     call := fun b _ _ =>
       match b with
       | PKLogind => deniedReply
       | _ => emptyReply
       end;
     upower_isValid := false;
     logind_isValid := true;
     upower_property := fun _ => false;
     logind_property := fun _ => false;
     introspect := None;
     device_object := fun _ => silentObject;
     UPower_getDevices := [];
     Login1_canSuspend := false;
     Login1_canHibernate := false |}.

Definition BAT0 : QString := "/org/freedesktop/UPower/devices/battery_BAT0".
Definition BAT1 : QString := "/org/freedesktop/UPower/devices/battery_BAT1".

(** A present battery with a native path, at the given percentage. *)
Definition battery (p : QString) (native : QString) (percent : double) : Device :=
  {| path := p; isBattery := true; isPresent := true; nativePath := native;
     percentage := percent; timeToEmpty := 3600; timeToFull := 0 |}.

(** Two batteries, at 40% and at 60%. *)
Definition twoBatteries : PowerKit.Members :=
  PowerKit.set_devices
    [(BAT0, battery BAT0 "BAT0" 40%float); (BAT1, battery BAT1 "BAT1" 60%float)]
    PowerKit.initial.


(** One battery, at 40%, one hour left. *)
Definition oneBattery : PowerKit.Members :=
  PowerKit.set_devices [(BAT0, battery BAT0 "BAT0" 40%float)] PowerKit.initial.

(** What the backing object of a battery at 60%, half an hour left, says. *)
(** logind is reachable and answers every "can" call with the string
    [says]; UPower is reachable and answers every call with the boolean
    true; ConsoleKit is not there. *)
Definition logindSays (says : QString) : Bus :=
  {| interface_isValid :=
       fun b => match b with PKLogind | PKUPower => true | _ => false end;
     call := fun b _ _ =>
       match b with
       | PKLogind => replyWith (QVariant_QString says) EmptyString
       | PKUPower => replyWith (QVariant_bool true) EmptyString
       | _ => emptyReply
       end;
     upower_isValid := true;
     logind_isValid := true;
     upower_property := fun _ => false;
     logind_property := fun _ => false;
     introspect := Some [];
     device_object := fun _ => silentObject;
     UPower_getDevices := [];
     Login1_canSuspend := false;
     Login1_canHibernate := false |}.

Definition batteryObject (native : QString) : DeviceObject :=
  {| obj_isBattery := Some true; obj_isPresent := Some true;
     obj_nativePath := Some native; obj_percentage := Some 60%float;
     obj_timeToEmpty := Some 1800%Z; obj_timeToFull := Some 0%Z |}.

(** UPower answers, on AC, and lists the batteries BAT0 and BAT1. *)
Definition twoListedBus : Bus :=
  {| interface_isValid := fun b => match b with PKUPower => true | _ => false end;
     call := fun _ _ _ => emptyReply;
     upower_isValid := true;
     logind_isValid := false;
     upower_property := fun _ => false;
     logind_property := fun _ => false;
     introspect := Some ["battery_BAT0"; "battery_BAT1"];
     device_object := fun p =>
       if String.eqb p BAT0 then batteryObject "BAT0"
       else if String.eqb p BAT1 then batteryObject "BAT1"
       else silentObject;
     UPower_getDevices := [BAT0; BAT1];
     Login1_canSuspend := false;
     Login1_canHibernate := false |}.

(** One screen-saver inhibitor, cookie 7. *)
Definition oneInhibitor : PowerKit.Members :=
  PowerKit.set_ssInhibitors [(7%N, "app")] PowerKit.initial.

End Sample.

(** ** Further definitions for the properties of the code *)

(** The sum of an attribute over the entries that pass the test of the
    aggregates, as an integer. *)
Definition totalOf (f : Device -> Z) (entries : list (QString * Device)) : Z :=
  fold_right (fun e a => (f (snd e) + a)%Z) 0%Z (countedEntries entries).

(** A query that may sweep the batteries and does nothing else: it emits
    nothing; on AC it leaves the members as they are; it keeps the tracked
    ids, every Device that is not a battery, the caches and the inhibitor
    tables. *)
Definition sweepsBatteriesOnly {defs : Defs} {A : Type} (q : PowerKit.Handler A) : Prop :=
  forall bus s,
    trace (q bus s) = []
    /\ (PowerKit.OnBattery bus = false -> after (q bus s) = s)
    /\ QMap.keys (PowerKit.devices (after (q bus s))) = QMap.keys (PowerKit.devices s)
    /\ (forall k d,
          QMap.value k (PowerKit.devices s) = Some d -> isBattery d = false ->
          QMap.value k (PowerKit.devices (after (q bus s))) = Some d)
    /\ PowerKit.wasLidClosed (after (q bus s)) = PowerKit.wasLidClosed s
    /\ PowerKit.wasOnBattery (after (q bus s)) = PowerKit.wasOnBattery s
    /\ ledgerKept s (after (q bus s)).

(** ** class PowerKit, continued: the constructor, [setup()] and [check()]

    These are the three places where the two interface handles [upower] and
    [logind] may still be NULL, so here the members carry whether each is
    allocated.  [QDBusConnection::systemBus().isConnected()] is read with
    the bus: one call sees one answer. *)

Module Supervisor.

(** The signal macros and the slots that [setup()] names in its
    [system.connect] calls. *)
Inductive SignalName :=
  | DBUS_DEVICE_ADDED
  | DBUS_DEVICE_REMOVED
  | DBUS_CHANGED
  | DBUS_DEVICE_CHANGED
  | UPOWER_NOTIFY_RESUME
  | UPOWER_NOTIFY_SLEEP
  | PK_PREPARE_FOR_SUSPEND
  | PK_PREPARE_FOR_SLEEP.

Inductive Slot :=
  | deviceAdded_QDBusObjectPath
  | deviceAdded_QString
  | deviceRemoved_QDBusObjectPath
  | deviceRemoved_QString
  | deviceChanged
  | handleResume
  | handleSuspend
  | handlePrepareForSuspend.

Inductive Effect :=
  | Connect (service : PKBackend) (signal : SignalName) (slot : Slot)
  | NewInterface (service : PKBackend)     (* new QDBusInterface(...) *)
  | TimerStart                             (* timer.start() *)
  | Inner (e : PowerKit.Effect).           (* what a call of the class itself does *)

Record Members := mkMembers {
  base : PowerKit.Members;
  upower : bool;     (* upower != NULL *)
  logind : bool      (* logind != NULL *)
}.

Record SystemBus := mkSystemBus {
  isConnected : bool;
  services : Bus
}.

(** The end of a call: it returns, or it calls a method through a NULL
    handle. *)
Inductive End :=
  | Returns (o : Outcome Effect Members unit)
  | ThroughNull.

Definition nothing (s : Members) : Outcome Effect Members unit :=
  {| result := tt; after := s; trace := [] |}.

(** The ten [system.connect] calls of [setup()], in order. *)
Definition subscriptions : list Effect :=
  [ Connect PKUPower DBUS_DEVICE_ADDED deviceAdded_QDBusObjectPath;
    Connect PKUPower DBUS_DEVICE_ADDED deviceAdded_QString;
    Connect PKUPower DBUS_DEVICE_REMOVED deviceRemoved_QDBusObjectPath;
    Connect PKUPower DBUS_DEVICE_REMOVED deviceRemoved_QString;
    Connect PKUPower DBUS_CHANGED deviceChanged;
    Connect PKUPower DBUS_DEVICE_CHANGED deviceChanged;
    Connect PKUPower UPOWER_NOTIFY_RESUME handleResume;
    Connect PKUPower UPOWER_NOTIFY_SLEEP handleSuspend;
    Connect PKLogind PK_PREPARE_FOR_SUSPEND handlePrepareForSuspend;
    Connect PKConsoleKit PK_PREPARE_FOR_SLEEP handlePrepareForSuspend ].

Section WithDefs.
Context {defs : Defs}.

(** [scan()], run on the members of the class with both handles in place. *)
Definition scan (system : SystemBus) (s : Members) : Outcome Effect Members unit :=
  let o := PowerKit.scan (services system) (base s) in
  {| result := tt;
     after := {| base := after o; upower := upower s; logind := logind s |};
     trace := map Inner (trace o) |}.

Definition setup (system : SystemBus) (s : Members) : Outcome Effect Members unit :=
  if isConnected system then
    let newUPower := if upower s then [] else [NewInterface PKUPower] in
    let newLogind := if logind s then [] else [NewInterface PKLogind] in
    let allocated := {| base := base s; upower := true; logind := true |} in
    let o := scan system allocated in
    {| result := tt; after := after o;
       trace := subscriptions ++ newUPower ++ newLogind ++ trace o |}
  else nothing s.

Definition check (system : SystemBus) (s : Members) : End :=
  if negb (isConnected system) then Returns (setup system s)
  else if upower s then
    if negb (upower_isValid (services system)) then Returns (scan system s)
    else Returns (nothing s)
  else ThroughNull.

(** The constructor: the initialiser list, [setup()], and the timer. *)
Definition construct (system : SystemBus) : Outcome Effect Members unit :=
  let o := setup system {| base := PowerKit.initial; upower := false; logind := false |} in
  {| result := tt; after := after o; trace := trace o ++ [TimerStart] |}.

(** [check()] on every timer tick of a history; [None] once a tick has gone
    through a NULL handle. *)
Fixpoint checks (history : list SystemBus) (s : Members)
  : option (Members * list Effect) :=
  match history with
  | [] => Some (s, [])
  | system :: rest =>
      match check system s with
      | ThroughNull => None
      | Returns o =>
          match checks rest (after o) with
          | None => None
          | Some (s', t) => Some (s', trace o ++ t)
          end
      end
  end.

End WithDefs.

Definition isConnect (e : Effect) : bool :=
  match e with Connect _ _ _ => true | _ => false end.

Definition isNewInterface (e : Effect) : bool :=
  match e with NewInterface _ => true | _ => false end.

End Supervisor.

(** ** class SysTray ([src/app/systray.cpp]): the slots of the tray

    The tray owns a [Power] object [man] and decides, on its own timer and
    on the signals of [man], when to lock, sleep, hibernate or shut down.
    The settings file, the constructor's wiring of the other services and
    the screen saver process are left aside. *)

Module SysTray.

(** The three session services that [registerService()] claims. *)
Inductive Service := PM_SERVICE | SS_SERVICE | PD_SERVICE.

(** What one slot call sees of the session: the system bus, the replies of
    the static helpers of [login1.h] and [ckit.h] that [Power::shutdown()]
    asks, [pm->HasInhibit()], the value of [idle] at line 598 of [xIdle()]
    (0 when the X server gave none), [tray->isSystemTrayAvailable()],
    [QIcon::themeName()], and the session bus: whether it is connected and
    what it answers to [registerService] and [registerObject]. *)
Record Desktop := mkDesktop {
  system : Bus;
  Login1_canPowerOff : bool;
  CKit_canPowerOff : bool;
  pm_HasInhibit : bool;
  idle : Z;
  isSystemTrayAvailable : bool;
  themeName : QString;
  sessionBus_isConnected : bool;
  sessionBus_registerService : Service -> bool;
  sessionBus_registerObject : Service -> bool
}.

(** The values that the three [switch] statements tell apart: one
    constructor for each [case] label, one for [default]. *)
Inductive LidAction := lidLock | lidSleep | lidHibernate | lidShutdown | lidDefault.
Inductive CriticalAction := criticalHibernate | criticalShutdown | criticalDefault.
Inductive SuspendAction := suspendSleep | suspendHibernate | suspendShutdown | suspendDefault.

(** The icon names of [def.h] that [drawBattery] picks from. *)
Inductive Icon :=
  | DEFAULT_AC_ICON
  | DEFAULT_BATTERY_ICON_CRIT
  | DEFAULT_BATTERY_ICON_CRIT_AC
  | DEFAULT_BATTERY_ICON_LOW
  | DEFAULT_BATTERY_ICON_LOW_AC
  | DEFAULT_BATTERY_ICON_GOOD
  | DEFAULT_BATTERY_ICON_GOOD_AC
  | DEFAULT_BATTERY_ICON_FULL
  | DEFAULT_BATTERY_ICON_FULL_AC
  | DEFAULT_BATTERY_ICON_CHARGED.

(** The tooltip texts of [checkDevices], before translation and
    formatting. *)
Inductive ToolTip :=
  | BatteryAt (left : double)          (* tr("Battery at %1%").arg(left) *)
  | Charged                            (* tr("Charged") *)
  | OnAC                               (* tr("On AC") *)
  | Charging (text : ToolTip).         (* text.append(tr(" (Charging)")) *)

Inductive Act :=
  | ByPower (e : Power.Effect)     (* what [man->sleep()], [man->hibernate()] do *)
  | Login1_poweroff
  | CKit_poweroff
  | startDetached_XSCREENSAVER_LOCK
  | tray_show
  | tray_hide
  | tray_setIcon (icon : Icon)
  | tray_setToolTip (text : ToolTip)
  | tray_showMessage (title msg : QString) (critical : bool)
  | registerService_on_sessionBus (service : Service)
  | registerObject_on_sessionBus (service : Service)
  | updatedMonitors.               (* emit updatedMonitors() *)

Record Members := mkMembers {
  man : Power.Members;
  tray_isVisible : bool;
  critBatteryValue : Z;
  hasService : bool;
  lidActionBattery : LidAction;
  lidActionAC : LidAction;
  criticalAction : CriticalAction;
  autoSuspendBattery : Z;
  autoSuspendAC : Z;
  timeouts : Z;
  showNotifications : bool;
  desktopSS : bool;
  desktopPM : bool;
  showTray : bool;
  disableLidOnExternalMonitors : bool;
  autoSuspendBatteryAction : SuspendAction;
  autoSuspendACAction : SuspendAction;
  monitors : list (QString * bool);
  internalMonitor : QString;
  ssInhibitors : list (quint32 * QString);
  pmInhibitors : list (quint32 * QString)
}.

Definition set_man (m : Power.Members) (s : Members) : Members :=
  {| man := m;
     tray_isVisible := tray_isVisible s;
     critBatteryValue := critBatteryValue s;
     hasService := hasService s;
     lidActionBattery := lidActionBattery s;
     lidActionAC := lidActionAC s;
     criticalAction := criticalAction s;
     autoSuspendBattery := autoSuspendBattery s;
     autoSuspendAC := autoSuspendAC s;
     timeouts := timeouts s;
     showNotifications := showNotifications s;
     desktopSS := desktopSS s;
     desktopPM := desktopPM s;
     showTray := showTray s;
     disableLidOnExternalMonitors := disableLidOnExternalMonitors s;
     autoSuspendBatteryAction := autoSuspendBatteryAction s;
     autoSuspendACAction := autoSuspendACAction s;
     monitors := monitors s;
     internalMonitor := internalMonitor s;
     ssInhibitors := ssInhibitors s;
     pmInhibitors := pmInhibitors s |}.

Definition set_tray_isVisible (b : bool) (s : Members) : Members :=
  {| man := man s;
     tray_isVisible := b;
     critBatteryValue := critBatteryValue s;
     hasService := hasService s;
     lidActionBattery := lidActionBattery s;
     lidActionAC := lidActionAC s;
     criticalAction := criticalAction s;
     autoSuspendBattery := autoSuspendBattery s;
     autoSuspendAC := autoSuspendAC s;
     timeouts := timeouts s;
     showNotifications := showNotifications s;
     desktopSS := desktopSS s;
     desktopPM := desktopPM s;
     showTray := showTray s;
     disableLidOnExternalMonitors := disableLidOnExternalMonitors s;
     autoSuspendBatteryAction := autoSuspendBatteryAction s;
     autoSuspendACAction := autoSuspendACAction s;
     monitors := monitors s;
     internalMonitor := internalMonitor s;
     ssInhibitors := ssInhibitors s;
     pmInhibitors := pmInhibitors s |}.

Definition set_hasService (b : bool) (s : Members) : Members :=
  {| man := man s;
     tray_isVisible := tray_isVisible s;
     critBatteryValue := critBatteryValue s;
     hasService := b;
     lidActionBattery := lidActionBattery s;
     lidActionAC := lidActionAC s;
     criticalAction := criticalAction s;
     autoSuspendBattery := autoSuspendBattery s;
     autoSuspendAC := autoSuspendAC s;
     timeouts := timeouts s;
     showNotifications := showNotifications s;
     desktopSS := desktopSS s;
     desktopPM := desktopPM s;
     showTray := showTray s;
     disableLidOnExternalMonitors := disableLidOnExternalMonitors s;
     autoSuspendBatteryAction := autoSuspendBatteryAction s;
     autoSuspendACAction := autoSuspendACAction s;
     monitors := monitors s;
     internalMonitor := internalMonitor s;
     ssInhibitors := ssInhibitors s;
     pmInhibitors := pmInhibitors s |}.

Definition set_timeouts (n : Z) (s : Members) : Members :=
  {| man := man s;
     tray_isVisible := tray_isVisible s;
     critBatteryValue := critBatteryValue s;
     hasService := hasService s;
     lidActionBattery := lidActionBattery s;
     lidActionAC := lidActionAC s;
     criticalAction := criticalAction s;
     autoSuspendBattery := autoSuspendBattery s;
     autoSuspendAC := autoSuspendAC s;
     timeouts := n;
     showNotifications := showNotifications s;
     desktopSS := desktopSS s;
     desktopPM := desktopPM s;
     showTray := showTray s;
     disableLidOnExternalMonitors := disableLidOnExternalMonitors s;
     autoSuspendBatteryAction := autoSuspendBatteryAction s;
     autoSuspendACAction := autoSuspendACAction s;
     monitors := monitors s;
     internalMonitor := internalMonitor s;
     ssInhibitors := ssInhibitors s;
     pmInhibitors := pmInhibitors s |}.

Definition set_monitors (m : list (QString * bool)) (s : Members) : Members :=
  {| man := man s;
     tray_isVisible := tray_isVisible s;
     critBatteryValue := critBatteryValue s;
     hasService := hasService s;
     lidActionBattery := lidActionBattery s;
     lidActionAC := lidActionAC s;
     criticalAction := criticalAction s;
     autoSuspendBattery := autoSuspendBattery s;
     autoSuspendAC := autoSuspendAC s;
     timeouts := timeouts s;
     showNotifications := showNotifications s;
     desktopSS := desktopSS s;
     desktopPM := desktopPM s;
     showTray := showTray s;
     disableLidOnExternalMonitors := disableLidOnExternalMonitors s;
     autoSuspendBatteryAction := autoSuspendBatteryAction s;
     autoSuspendACAction := autoSuspendACAction s;
     monitors := m;
     internalMonitor := internalMonitor s;
     ssInhibitors := ssInhibitors s;
     pmInhibitors := pmInhibitors s |}.

Definition set_ssInhibitors (m : list (quint32 * QString)) (s : Members) : Members :=
  {| man := man s;
     tray_isVisible := tray_isVisible s;
     critBatteryValue := critBatteryValue s;
     hasService := hasService s;
     lidActionBattery := lidActionBattery s;
     lidActionAC := lidActionAC s;
     criticalAction := criticalAction s;
     autoSuspendBattery := autoSuspendBattery s;
     autoSuspendAC := autoSuspendAC s;
     timeouts := timeouts s;
     showNotifications := showNotifications s;
     desktopSS := desktopSS s;
     desktopPM := desktopPM s;
     showTray := showTray s;
     disableLidOnExternalMonitors := disableLidOnExternalMonitors s;
     autoSuspendBatteryAction := autoSuspendBatteryAction s;
     autoSuspendACAction := autoSuspendACAction s;
     monitors := monitors s;
     internalMonitor := internalMonitor s;
     ssInhibitors := m;
     pmInhibitors := pmInhibitors s |}.

Definition set_pmInhibitors (m : list (quint32 * QString)) (s : Members) : Members :=
  {| man := man s;
     tray_isVisible := tray_isVisible s;
     critBatteryValue := critBatteryValue s;
     hasService := hasService s;
     lidActionBattery := lidActionBattery s;
     lidActionAC := lidActionAC s;
     criticalAction := criticalAction s;
     autoSuspendBattery := autoSuspendBattery s;
     autoSuspendAC := autoSuspendAC s;
     timeouts := timeouts s;
     showNotifications := showNotifications s;
     desktopSS := desktopSS s;
     desktopPM := desktopPM s;
     showTray := showTray s;
     disableLidOnExternalMonitors := disableLidOnExternalMonitors s;
     autoSuspendBatteryAction := autoSuspendBatteryAction s;
     autoSuspendACAction := autoSuspendACAction s;
     monitors := monitors s;
     internalMonitor := internalMonitor s;
     ssInhibitors := ssInhibitors s;
     pmInhibitors := m |}.

Definition Slot : Type := Desktop -> Members -> Outcome Act Members unit.

Definition nothing (s : Members) : Outcome Act Members unit :=
  {| result := tt; after := s; trace := [] |}.

(** One slot after another. *)
Definition andThen (first second : Slot) : Slot :=
  fun desk s =>
    let o1 := first desk s in
    let o2 := second desk (after o1) in
    {| result := tt; after := after o2; trace := trace o1 ++ trace o2 |}.

(** A call [man->f()] of a handler of [Power] modelled above. *)
Definition man_call (f : Power.Handler unit) : Slot :=
  fun desk s =>
    let o := f (system desk) (man s) in
    {| result := tt; after := set_man (after o) s; trace := map ByPower (trace o) |}.

(** *** [Power::lockScreen()] and [Power::shutdown()] (power.cpp) *)

Definition Power_lockScreen : Slot :=
  fun _ s => {| result := tt; after := s; trace := [startDetached_XSCREENSAVER_LOCK] |}.

Definition Power_shutdown : Slot :=
  fun desk s =>
    if logind_isValid (system desk) && Login1_canPowerOff desk
    then {| result := tt; after := s; trace := [Login1_poweroff] |}
    else if upower_isValid (system desk)
    then (if CKit_canPowerOff desk
          then {| result := tt; after := s; trace := [CKit_poweroff] |}
          else nothing s)
    else nothing s.

(** *** The tray icon *)

Definition tray_show_when_wanted : Slot :=
  fun desk s =>
    if isSystemTrayAvailable desk && negb (tray_isVisible s) && showTray s
    then {| result := tt; after := set_tray_isVisible true s; trace := [tray_show] |}
    else nothing s.

Definition tray_hide_when_unwanted : Slot :=
  fun _ s =>
    if negb (showTray s) && tray_isVisible s
    then {| result := tt; after := set_tray_isVisible false s; trace := [tray_hide] |}
    else nothing s.

Definition showMessage (title msg : QString) (critical : bool) : Slot :=
  fun _ s =>
    if tray_isVisible s
    then {| result := tt; after := s; trace := [tray_showMessage title msg critical] |}
    else nothing s.

Definition drawBattery (left : double) : Slot :=
  fun desk s =>
    if negb (showTray s) && tray_isVisible s
    then {| result := tt; after := set_tray_isVisible false s; trace := [tray_hide] |}
    else
      andThen tray_show_when_wanted
        (fun desk s =>
           let onBattery := Power.onBattery (system desk) in
           let icon :=
             if PrimFloat.eqb left 0%float then DEFAULT_AC_ICON
             else if PrimFloat.leb left 10%float
             then (if onBattery then DEFAULT_BATTERY_ICON_CRIT
                   else DEFAULT_BATTERY_ICON_CRIT_AC)
             else if PrimFloat.leb left 25%float
             then (if onBattery then DEFAULT_BATTERY_ICON_LOW
                   else DEFAULT_BATTERY_ICON_LOW_AC)
             else if PrimFloat.leb left 75%float
             then (if onBattery then DEFAULT_BATTERY_ICON_GOOD
                   else DEFAULT_BATTERY_ICON_GOOD_AC)
             else if PrimFloat.leb left 90%float
             then (if onBattery then DEFAULT_BATTERY_ICON_FULL
                   else DEFAULT_BATTERY_ICON_FULL_AC)
             else (if onBattery then DEFAULT_BATTERY_ICON_FULL
                   else DEFAULT_BATTERY_ICON_CHARGED) in
           {| result := tt; after := s; trace := [tray_setIcon icon] |})
        desk s.

(** *** Session services *)

Definition registerService : Slot :=
  fun desk s =>
    if hasService s then nothing s
    else if negb (sessionBus_isConnected desk) then nothing s
    else
      (* the requests made for one service, the name and then the object,
         and whether both were granted *)
      let claim (service : Service) : list Act * bool :=
        if negb (sessionBus_registerService desk service)
        then ([registerService_on_sessionBus service], false)
        else if negb (sessionBus_registerObject desk service)
        then ([registerService_on_sessionBus service;
               registerObject_on_sessionBus service], false)
        else ([registerService_on_sessionBus service;
               registerObject_on_sessionBus service], true) in
      let '(t1, ok1) := if desktopPM s then claim PM_SERVICE else ([], true) in
      if negb ok1 then {| result := tt; after := s; trace := t1 |}
      else
        let '(t2, ok2) := if desktopSS s then claim SS_SERVICE else ([], true) in
        if negb ok2 then {| result := tt; after := s; trace := t1 ++ t2 |}
        else
          let '(t3, ok3) := claim PD_SERVICE in
          if negb ok3 then {| result := tt; after := s; trace := t1 ++ t2 ++ t3 |}
          else {| result := tt; after := set_hasService true s;
                  trace := t1 ++ t2 ++ t3 |}.

(** *** Monitors *)

Definition handleDisplay (display : QString) (connected : bool) : Slot :=
  fun _ s =>
    (* [monitors[display]] on the non-const map: an absent key is inserted
       with [bool()] before it is read *)
    let touched :=
      if QMap.contains display (monitors s) then monitors s
      else QMap.insert display false (monitors s) in
    let current :=
      match QMap.value display touched with Some b => b | None => false end in
    if Bool.eqb current connected
    then {| result := tt; after := set_monitors touched s; trace := [] |}
    else {| result := tt;
            after := set_monitors (QMap.insert display connected touched) s;
            trace := [updatedMonitors] |}.

Definition handleFoundDisplays (displays : list (QString * bool)) : Slot :=
  fun _ s => {| result := tt; after := set_monitors displays s; trace := [] |}.

Fixpoint internalMonitorIsConnected_loop (internal : QString)
    (entries : list (QString * bool)) : bool :=
  match entries with
  | [] => false
  | (key, value) :: rest =>
      if String.eqb key internal then value
      else internalMonitorIsConnected_loop internal rest
  end.

Definition internalMonitorIsConnected (s : Members) : bool :=
  internalMonitorIsConnected_loop (internalMonitor s) (monitors s).

(** *** The critical level *)

Definition handleCritical : Slot :=
  fun desk s =>
    match criticalAction s with
    | criticalHibernate => man_call Power.hibernate desk s
    | criticalShutdown => Power_shutdown desk s
    | criticalDefault => nothing s
    end.

(** The steps of [checkDevices()], in order; [batteryLeft] is its local
    variable, read once from [man->batteryLeft()]. *)

Definition checkDevices_theme : Slot :=
  fun desk s =>
    if tray_isVisible s
       && (isEmpty (themeName desk) || String.eqb (themeName desk) "hicolor"%string)
    then showMessage "No icon theme found!"%string
           "Unable to find any icon theme, please install an icon theme and restart powerdwarf."%string
           true desk s
    else nothing s.

Definition checkDevices_toolTip (batteryLeft : double) : Slot :=
  fun desk s =>
    let texts :=
      if PrimFloat.ltb 0%float batteryLeft
      then
        let first := [BatteryAt batteryLeft] in
        let second := if PrimFloat.ltb 99%float batteryLeft then [Charged] else [] in
        let shown := last (first ++ second) OnAC in
        let third :=
          if negb (Power.onBattery (system desk))
             && PrimFloat.leb (Power.batteryLeft (man s)) 99%float
          then [Charging shown] else [] in
        first ++ second ++ third
      else [OnAC] in
    {| result := tt; after := s; trace := map tray_setToolTip texts |}.

(** The test that leads to [handleCritical()]. *)
Definition isCritical (batteryLeft : double) (desk : Desktop) (s : Members) : bool :=
  PrimFloat.ltb 0%float batteryLeft
  && PrimFloat.leb batteryLeft (double_of_int (critBatteryValue s))
  && Power.onBattery (system desk).

Definition checkDevices_critical (batteryLeft : double) : Slot :=
  fun desk s => if isCritical batteryLeft desk s then handleCritical desk s else nothing s.

Definition checkDevices_register : Slot :=
  fun desk s => if negb (hasService s) then registerService desk s else nothing s.

Definition checkDevices_battery : Slot :=
  fun desk s =>
    let batteryLeft := Power.batteryLeft (man s) in
    andThen (checkDevices_toolTip batteryLeft)
   (andThen (drawBattery batteryLeft)
   (andThen (checkDevices_critical batteryLeft)
            checkDevices_register))
      desk s.

Definition checkDevices : Slot :=
  andThen tray_show_when_wanted
 (andThen tray_hide_when_unwanted
 (andThen checkDevices_theme
          checkDevices_battery)).

Section WithDefs.
(** The macro [VIRTUAL_MONITOR] of [def.h], and the default value of the
    parameter [critical] of [showMessage] in [systray.h]. *)
Variable VIRTUAL_MONITOR : QString.
Variable showMessage_critical : bool.

Fixpoint externalMonitorIsConnected_loop (internal : QString)
    (entries : list (QString * bool)) : bool :=
  match entries with
  | [] => false
  | (key, value) :: rest =>
      if negb (String.eqb key internal) && negb (startsWith key VIRTUAL_MONITOR)
      then (if value then true
            else externalMonitorIsConnected_loop internal rest)
      else externalMonitorIsConnected_loop internal rest
  end.

Definition externalMonitorIsConnected (s : Members) : bool :=
  externalMonitorIsConnected_loop (internalMonitor s) (monitors s).

(** *** The slots wired to the signals of [man] *)

Definition handleClosedLid : Slot :=
  fun desk s =>
    let type :=
      if Power.onBattery (system desk) then lidActionBattery s
      else lidActionAC s in
    if disableLidOnExternalMonitors s && externalMonitorIsConnected s
    then nothing s
    else
      match type with
      | lidLock => Power_lockScreen desk s
      | lidSleep => man_call Power.sleep desk s
      | lidHibernate => man_call Power.hibernate desk s
      | lidShutdown => Power_shutdown desk s
      | lidDefault => nothing s
      end.

Definition handleOpenedLid : Slot := fun _ s => nothing s.

Definition handleOnBattery : Slot :=
  fun desk s =>
    if showNotifications s
    then showMessage "On Battery"%string "Switched to battery power."%string
           showMessage_critical desk s
    else nothing s.

Definition handleOnAC : Slot :=
  fun desk s =>
    if showNotifications s
    then showMessage "On AC"%string "Switched to AC power."%string
           showMessage_critical desk s
    else nothing s.

(** [Power::deviceChanged()] on [man], with the tray listening: the
    constructor connects closedLid, openedLid, switchedToBattery,
    switchedToAC and updatedDevices of [man] to the slots above, so each
    [emit] of [Power::deviceChanged()] runs its slot on the spot, before
    the cache is written. *)

Definition man_deviceChanged_lid : Slot :=
  fun desk s =>
    let lidIsClosed := Power.lidIsClosed (system desk) in
    let wasLidClosed := Power.wasLidClosed (man s) in
    if negb (Bool.eqb wasLidClosed lidIsClosed)
    then
      if negb wasLidClosed && lidIsClosed then handleClosedLid desk s
      else if wasLidClosed && negb lidIsClosed then handleOpenedLid desk s
      else nothing s
    else nothing s.

Definition man_deviceChanged_wasLidClosed : Slot :=
  fun desk s =>
    nothing (set_man (Power.set_wasLidClosed (Power.lidIsClosed (system desk)) (man s)) s).

Definition man_deviceChanged_supply : Slot :=
  fun desk s =>
    let onBattery := Power.onBattery (system desk) in
    let wasOnBattery := Power.wasOnBattery (man s) in
    if negb (Bool.eqb wasOnBattery onBattery)
    then
      if negb wasOnBattery && onBattery then handleOnBattery desk s
      else if wasOnBattery && negb onBattery then handleOnAC desk s
      else nothing s
    else nothing s.

Definition man_deviceChanged_wasOnBattery : Slot :=
  fun desk s =>
    nothing (set_man (Power.set_wasOnBattery (Power.onBattery (system desk)) (man s)) s).

Definition man_deviceChanged : Slot :=
  andThen man_deviceChanged_lid
 (andThen man_deviceChanged_wasLidClosed
 (andThen man_deviceChanged_supply
 (andThen man_deviceChanged_wasOnBattery
          checkDevices))).

End WithDefs.

(** *** The idle timer *)

(** [xIdle()] from line 598 on: [idle] is a [long], [hours] and [minutes]
    are [int], and [hours*1000*60*60] is computed in [int]. *)
Definition xIdle (desk : Desktop) : Z :=
  let hours := int_wrap (Z.quot (idle desk) (1000 * 60 * 60)) in
  let back := int_wrap (int_wrap (int_wrap (hours * 1000) * 60) * 60) in
  let minutes := int_wrap (Z.quot (qlonglong_wrap (idle desk - back)) (1000 * 60)) in
  minutes.

Definition resetTimer : Slot :=
  fun _ s => {| result := tt; after := set_timeouts 0 s; trace := [] |}.

Definition handleHasInhibitChanged (has_inhibit : bool) : Slot :=
  fun desk s => if has_inhibit then resetTimer desk s else nothing s.

(** The two tests on the tray icon that open [timeout()]. *)
Definition timeout_tray (desk : Desktop) (s : Members) : Members * list Act :=
  let o := andThen tray_hide_when_unwanted tray_show_when_wanted desk s in
  (after o, trace o).

Definition timeout_doSuspend (desk : Desktop) (s : Members) : bool :=
  let autoSuspend :=
    if Power.onBattery (system desk) then autoSuspendBattery s
    else autoSuspendAC s in
  (0 <? autoSuspend)%Z
  && (autoSuspend <=? timeouts s)%Z
  && (autoSuspend <=? xIdle desk)%Z
  && negb (pm_HasInhibit desk).

Definition timeout : Slot :=
  fun desk s =>
    let '(s, shown) := timeout_tray desk s in
    let autoSuspendAction :=
      if Power.onBattery (system desk) then autoSuspendBatteryAction s
      else autoSuspendACAction s in
    if negb (timeout_doSuspend desk s)
    then {| result := tt; after := set_timeouts (int_wrap (timeouts s + 1)) s;
            trace := shown |}
    else
      let s := set_timeouts 0 s in
      let o :=
        match autoSuspendAction with
        | suspendSleep => man_call Power.sleep desk s
        | suspendHibernate => man_call Power.hibernate desk s
        | suspendShutdown => Power_shutdown desk s
        | suspendDefault => nothing s
        end in
      {| result := tt; after := after o; trace := shown ++ trace o |}.

(** *** The inhibitor tables of the tray *)

Definition handleNewInhibitScreenSaver (application reason : QString)
    (cookie : quint32) : Slot :=
  fun _ s =>
    {| result := tt;
       after := set_ssInhibitors (QMap.insert cookie application (ssInhibitors s)) s;
       trace := [] |}.

Definition handleNewInhibitPowerManagement (application reason : QString)
    (cookie : quint32) : Slot :=
  fun _ s =>
    {| result := tt;
       after := set_pmInhibitors (QMap.insert cookie application (pmInhibitors s)) s;
       trace := [] |}.

Definition handleDelInhibitScreenSaver (cookie : quint32) : Slot :=
  fun _ s =>
    if QMap.contains cookie (ssInhibitors s)
    then {| result := tt;
            after := set_ssInhibitors (QMap.remove cookie (ssInhibitors s)) s;
            trace := [] |}
    else nothing s.

Definition handleDelInhibitPowerManagement (cookie : quint32) : Slot :=
  fun _ s =>
    if QMap.contains cookie (pmInhibitors s)
    then {| result := tt;
            after := set_pmInhibitors (QMap.remove cookie (pmInhibitors s)) s;
            trace := [] |}
    else nothing s.

(** *** Histories *)

(** The timer slot on each tick of a history, in order. *)
Fixpoint ticks (history : list Desktop) (s : Members) : Members * list (list Act) :=
  match history with
  | [] => (s, [])
  | desk :: rest =>
      let o := timeout desk s in
      let '(s', ts) := ticks rest (after o) in
      (s', trace o :: ts)
  end.

(** The acts of a slot that reach the machine: the lock, suspend, hibernate
    and power-off calls. *)
Definition isPowerAct (a : Act) : bool :=
  match a with
  | ByPower _ | Login1_poweroff | CKit_poweroff | startDetached_XSCREENSAVER_LOCK => true
  | _ => false
  end.

End SysTray.

(** ** Further concrete data *)

Module Sample2.

Local Open Scope string_scope.

Definition AC : QString := "/org/freedesktop/UPower/devices/line_power_AC".

(** A line-power device: present, with a native path, not a battery. *)
Definition linePower : Device :=
  {| path := AC; isBattery := false; isPresent := true; nativePath := "AC";
     percentage := 0%float; timeToEmpty := 0; timeToFull := 0 |}.

(** A desktop: the line-power device alone. *)
Definition desktop : PowerKit.Members :=
  PowerKit.set_devices [(AC, linePower)] PowerKit.initial.

(** [Power] with the two batteries of [Sample.twoBatteries]. *)
Definition twoBatteries : Power.Members :=
  Power.set_devices (PowerKit.devices Sample.twoBatteries) Power.initial.

(** [Power] with the one battery of [Sample.oneBattery]. *)
Definition oneBattery : Power.Members :=
  Power.set_devices (PowerKit.devices Sample.oneBattery) Power.initial.

(** The system bus down, and up with the two batteries listed. *)
Definition offline : Supervisor.SystemBus :=
  {| Supervisor.isConnected := false; Supervisor.services := Sample.deadBus |}.

Definition online : Supervisor.SystemBus :=
  {| Supervisor.isConnected := true; Supervisor.services := Sample.twoListedBus |}.

(** A laptop tray: sleep after [minutes] idle minutes on battery, never on
    AC; [ticks] timer ticks counted so far; the panel LVDS1 is on, nothing
    is plugged into HDMI1. *)
Definition tray (minutes ticks : Z) : SysTray.Members :=
  {| SysTray.man := oneBattery;
     SysTray.tray_isVisible := false;
     SysTray.critBatteryValue := 10;
     SysTray.hasService := false;
     SysTray.lidActionBattery := SysTray.lidSleep;
     SysTray.lidActionAC := SysTray.lidLock;
     SysTray.criticalAction := SysTray.criticalShutdown;
     SysTray.autoSuspendBattery := minutes;
     SysTray.autoSuspendAC := 0;
     SysTray.timeouts := ticks;
     SysTray.showNotifications := true;
     SysTray.desktopSS := true;
     SysTray.desktopPM := true;
     SysTray.showTray := true;
     SysTray.disableLidOnExternalMonitors := true;
     SysTray.autoSuspendBatteryAction := SysTray.suspendSleep;
     SysTray.autoSuspendACAction := SysTray.suspendDefault;
     SysTray.monitors := [("HDMI1", false); ("LVDS1", true)];
     SysTray.internalMonitor := "LVDS1";
     SysTray.ssInhibitors := [];
     SysTray.pmInhibitors := [] |}.

Definition laptop : SysTray.Members := tray 15 0.

(** On battery (every UPower property reads true), logind absent,
    ConsoleKit able to power off, nobody inhibits, idle for [minutes]. *)
Definition idleOnBattery (minutes : Z) : SysTray.Desktop :=
  {| SysTray.system := Sample.dockedBus;
     SysTray.Login1_canPowerOff := false;
     SysTray.CKit_canPowerOff := true;
     SysTray.pm_HasInhibit := false;
     SysTray.idle := minutes * 60000;
     SysTray.isSystemTrayAvailable := true;
     SysTray.themeName := "Adwaita";
     SysTray.sessionBus_isConnected := true;
     SysTray.sessionBus_registerService := fun _ => true;
     SysTray.sessionBus_registerObject := fun _ => true |}.

(** No service answers, although ConsoleKit could power off. *)
Definition noUPower : SysTray.Desktop :=
  {| SysTray.system := Sample.deadBus;
     SysTray.Login1_canPowerOff := false;
     SysTray.CKit_canPowerOff := true;
     SysTray.pm_HasInhibit := false;
     SysTray.idle := 0;
     SysTray.isSystemTrayAvailable := true;
     SysTray.themeName := "Adwaita";
     SysTray.sessionBus_isConnected := true;
     SysTray.sessionBus_registerService := fun _ => true;
     SysTray.sessionBus_registerObject := fun _ => true |}.

End Sample2.

(** ** Reading the slots of the tray *)

(** The requests that [registerService()] makes on the session bus. *)
Definition isRequest (a : SysTray.Act) : bool :=
  match a with
  | SysTray.registerService_on_sessionBus _
  | SysTray.registerObject_on_sessionBus _ => true
  | _ => false
  end.

(** [s'] has the settings, the monitors, the inhibitor tables and the
    devices of [man] that [s] has.  What may differ: the visibility of the
    tray icon, [hasService], [timeouts] and the caches of [man]. *)
Definition settingsKept (s s' : SysTray.Members) : Prop :=
  Power.devices (SysTray.man s') = Power.devices (SysTray.man s)
  /\ SysTray.critBatteryValue s' = SysTray.critBatteryValue s
  /\ SysTray.lidActionBattery s' = SysTray.lidActionBattery s
  /\ SysTray.lidActionAC s' = SysTray.lidActionAC s
  /\ SysTray.criticalAction s' = SysTray.criticalAction s
  /\ SysTray.autoSuspendBattery s' = SysTray.autoSuspendBattery s
  /\ SysTray.autoSuspendAC s' = SysTray.autoSuspendAC s
  /\ SysTray.showNotifications s' = SysTray.showNotifications s
  /\ SysTray.desktopSS s' = SysTray.desktopSS s
  /\ SysTray.desktopPM s' = SysTray.desktopPM s
  /\ SysTray.showTray s' = SysTray.showTray s
  /\ SysTray.disableLidOnExternalMonitors s' = SysTray.disableLidOnExternalMonitors s
  /\ SysTray.autoSuspendBatteryAction s' = SysTray.autoSuspendBatteryAction s
  /\ SysTray.autoSuspendACAction s' = SysTray.autoSuspendACAction s
  /\ SysTray.monitors s' = SysTray.monitors s
  /\ SysTray.internalMonitor s' = SysTray.internalMonitor s
  /\ SysTray.ssInhibitors s' = SysTray.ssInhibitors s
  /\ SysTray.pmInhibitors s' = SysTray.pmInhibitors s.

(** A slot that performs no power act, and writes none of the above. *)
Definition bystander (slot : SysTray.Slot) : Prop :=
  forall desk s,
    filter SysTray.isPowerAct (trace (slot desk s)) = []
    /\ settingsKept s (after (slot desk s)).

(** * Properties *)

Unset Implicit Arguments.

(** ** The key orders *)

(** What [QMap] asks of [operator<]: a strict total order. *)
Class LessThanLaws (K : Type) `{LessThan K} : Prop := {
  lessThan_irrefl : forall a : K, lessThan a a = false;
  lessThan_trans : forall a b c : K,
    lessThan a b = true -> lessThan b c = true -> lessThan a c = true;
  lessThan_total : forall a b : K,
    lessThan a b = false -> lessThan b a = false -> a = b
}.

Arguments LessThanLaws K {_}.

Lemma String_ltb_lt (a b : string) :
  String.ltb a b = true <-> String.compare a b = Lt.
Proof.
  unfold String.ltb. destruct (String.compare a b); split; congruence.
Qed.

#[export] Instance QString_laws : LessThanLaws QString.
Proof.
  split; unfold lessThan, QString_lessThan.
  - intros a. unfold String.ltb.
    assert (E : String.compare a a = Eq) by (apply String_as_OT.cmp_eq; reflexivity).
    rewrite E. reflexivity.
  - intros a b c Hab Hbc. apply String_ltb_lt in Hab, Hbc. apply String_ltb_lt.
    apply String_as_OT.cmp_lt. apply String_as_OT.cmp_lt in Hab, Hbc.
    exact (String_as_OT.lt_trans a b c Hab Hbc).
  - intros a b Hab Hba. unfold String.ltb in *.
    rewrite String.compare_antisym in Hba.
    destruct (String.compare a b) eqn:E; simpl in *; try discriminate.
    now apply String.compare_eq_iff.
Qed.

#[export] Instance quint32_laws : LessThanLaws quint32.
Proof.
  split; unfold lessThan, quint32_lessThan.
  - intros a. apply N.ltb_irrefl.
  - intros a b c Hab Hbc. apply N.ltb_lt in Hab, Hbc. apply N.ltb_lt. lia.
  - intros a b Hab Hba. apply N.ltb_ge in Hab, Hba. lia.
Qed.

(** ** QMap *)

Module QMapFacts.
Import QMap.

Section Facts.
Context {K V : Type} `{LessThanLaws K}.
Implicit Types (k : K) (v : V) (m : list (K * V)).

Lemma sameKey_eq k k' : sameKey k k' = true <-> k = k'.
Proof.
  unfold sameKey. split.
  - intros E. apply andb_true_iff in E. destruct E as [E1 E2].
    apply negb_true_iff in E1, E2. now apply lessThan_total.
  - intros ->. now rewrite lessThan_irrefl.
Qed.

Lemma sameKey_refl k : sameKey k k = true.
Proof. now apply sameKey_eq. Qed.

Lemma sameKey_neq k k' : sameKey k k' = false <-> k <> k'.
Proof.
  rewrite <- sameKey_eq. destruct (sameKey k k'); split; congruence.
Qed.

Lemma lessThan_sameKey k k' : lessThan k k' = true -> sameKey k' k = false.
Proof.
  intros L. unfold sameKey. rewrite L. now rewrite andb_false_r.
Qed.

Lemma lessThan_sameKey' k k' : lessThan k k' = true -> sameKey k k' = false.
Proof.
  intros L. unfold sameKey. now rewrite L.
Qed.

Lemma value_insert k v m k' :
  value k' (insert k v m) = if sameKey k' k then Some v else value k' m.
Proof.
  induction m as [|[k0 v0] m IH]; simpl.
  - reflexivity.
  - destruct (lessThan k k0) eqn:L1; simpl.
    + reflexivity.
    + destruct (lessThan k0 k) eqn:L2; simpl.
      * rewrite IH. destruct (sameKey k' k0) eqn:S0; [|reflexivity].
        apply sameKey_eq in S0. subst k0.
        now rewrite (lessThan_sameKey' _ _ L2).
      * assert (k = k0) by now apply lessThan_total. subst k0.
        now destruct (sameKey k' k).
Qed.

Lemma contains_insert k v m k' :
  contains k' (insert k v m) = sameKey k' k || contains k' m.
Proof.
  unfold contains. rewrite value_insert. now destruct (sameKey k' k).
Qed.

Lemma value_remove_other k m k' :
  sameKey k' k = false -> value k' (remove k m) = value k' m.
Proof.
  intros N. induction m as [|[k0 v0] m IH]; simpl; [reflexivity|].
  destruct (sameKey k k0) eqn:S0; simpl.
  - apply sameKey_eq in S0. subst k0. now rewrite N.
  - now rewrite IH.
Qed.

Lemma above_value k m : above k m = true -> value k m = None.
Proof.
  induction m as [|[k0 v0] m IH]; simpl; [reflexivity|].
  intros A. apply andb_true_iff in A. destruct A as [L A].
  rewrite (lessThan_sameKey' _ _ L). now apply IH.
Qed.

Lemma value_remove_same k m : sorted m = true -> value k (remove k m) = None.
Proof.
  induction m as [|[k0 v0] m IH]; simpl; [reflexivity|].
  intros S. apply andb_true_iff in S. destruct S as [A S].
  destruct (sameKey k k0) eqn:S0; simpl.
  - apply sameKey_eq in S0. subst k0. now apply above_value.
  - rewrite S0. now apply IH.
Qed.

Lemma above_trans k k' m :
  lessThan k k' = true -> above k' m = true -> above k m = true.
Proof.
  intros L. unfold above. rewrite !forallb_forall. intros A e He.
  eapply lessThan_trans; [exact L | now apply A].
Qed.

Lemma above_remove k0 k m : above k0 m = true -> above k0 (remove k m) = true.
Proof.
  induction m as [|[k1 v1] m IH]; simpl; [reflexivity|].
  intros A. apply andb_true_iff in A. destruct A as [L A].
  destruct (sameKey k k1); simpl; [assumption|].
  rewrite L. now apply IH.
Qed.

Lemma sorted_remove k m : sorted m = true -> sorted (remove k m) = true.
Proof.
  induction m as [|[k0 v0] m IH]; simpl; [reflexivity|].
  intros S. apply andb_true_iff in S. destruct S as [A S].
  destruct (sameKey k k0); simpl; [assumption|].
  rewrite above_remove by assumption. now apply IH.
Qed.

Lemma above_insert k0 k v m :
  lessThan k0 k = true -> above k0 m = true -> above k0 (insert k v m) = true.
Proof.
  intros L. induction m as [|[k1 v1] m IH]; simpl.
  - intros _. now rewrite L.
  - intros A. apply andb_true_iff in A. destruct A as [L1 A].
    destruct (lessThan k k1); simpl.
    + now rewrite L, L1, A.
    + destruct (lessThan k1 k); simpl.
      * rewrite L1. now apply IH.
      * now rewrite L, A.
Qed.

Lemma sorted_insert k v m : sorted m = true -> sorted (insert k v m) = true.
Proof.
  induction m as [|[k0 v0] m IH]; simpl; [reflexivity|].
  intros S. apply andb_true_iff in S. destruct S as [A S].
  destruct (lessThan k k0) eqn:L1; simpl.
  - rewrite L1, A, S. now rewrite (above_trans _ _ _ L1 A).
  - destruct (lessThan k0 k) eqn:L2; simpl.
    + rewrite above_insert by assumption. now apply IH.
    + assert (k = k0) by now apply lessThan_total. subst k0.
      now rewrite A, S.
Qed.

End Facts.

Section MapValues.
Context {K V W : Type} `{LessThan K}.

Lemma value_mapValues (f : V -> W) (k : K) (m : list (K * V)) :
  value k (mapValues f m) = option_map f (value k m).
Proof.
  induction m as [|[k0 v0] m IH]; simpl; [reflexivity|].
  now destruct (sameKey k k0).
Qed.

Lemma contains_mapValues (f : V -> W) (k : K) (m : list (K * V)) :
  contains k (mapValues f m) = contains k m.
Proof.
  unfold contains. rewrite value_mapValues. now destruct (value k m).
Qed.

Lemma above_mapValues (f : V -> W) (k : K) (m : list (K * V)) :
  above k (mapValues f m) = above k m.
Proof.
  induction m as [|[k0 v0] m IH]; simpl; [reflexivity|]. now rewrite IH.
Qed.

Lemma sorted_mapValues (f : V -> W) (m : list (K * V)) :
  sorted (mapValues f m) = sorted m.
Proof.
  induction m as [|[k0 v0] m IH]; simpl; [reflexivity|].
  now rewrite above_mapValues, IH.
Qed.

End MapValues.

End QMapFacts.

(** ** Handlers: general facts *)

Lemma occurrences_app {E : Type} (p : E -> bool) (t1 t2 : list E) :
  occurrences p (t1 ++ t2) = occurrences p t1 + occurrences p t2.
Proof.
  unfold occurrences. now rewrite filter_app, length_app.
Qed.

Lemma bind_result {E S A B : Type} (c : M E S A) (k : A -> M E S B) bus s :
  result (bind c k bus s) = result (k (result (c bus s)) bus (after (c bus s))).
Proof.
  unfold bind. destruct (c bus s) as [a s1 t1]. simpl.
  now destruct (k a bus s1).
Qed.

Lemma bind_after {E S A B : Type} (c : M E S A) (k : A -> M E S B) bus s :
  after (bind c k bus s) = after (k (result (c bus s)) bus (after (c bus s))).
Proof.
  unfold bind. destruct (c bus s) as [a s1 t1]. simpl.
  now destruct (k a bus s1).
Qed.

Lemma bind_trace {E S A B : Type} (c : M E S A) (k : A -> M E S B) bus s :
  trace (bind c k bus s)
  = trace (c bus s) ++ trace (k (result (c bus s)) bus (after (c bus s))).
Proof.
  unfold bind. destruct (c bus s) as [a s1 t1]. simpl.
  now destruct (k a bus s1).
Qed.

(** Running a handler symbolically: compute, and put the answers already
    known for the bus and the members back in where they come up again. *)
Ltac known :=
  repeat match goal with
         | H : ?x = true |- context [?x] => rewrite H
         | H : ?x = false |- context [?x] => rewrite H
         end.

Ltac run :=
  repeat (progress
            (cbv beta iota delta
               [bind ask get ret tell when PowerKit.modify PowerKit.emit
                Power.modify Power.emit];
             cbn; known)).

(** The level facts are read as they stand. *)
Arguments PowerKit.LidIsClosed : simpl never.
Arguments PowerKit.OnBattery : simpl never.
Arguments PowerKit.IsDocked : simpl never.
Arguments Power.lidIsClosed : simpl never.
Arguments Power.onBattery : simpl never.

(** The per-call behaviour and the refresh of the cache give the behaviour
    over any sequence of calls. *)
Lemma edgeTriggered_of_step {E S : Type} (h : M E S unit)
  (cached : S -> bool) (observe : Bus -> bool) (up down : E -> bool) :
  (forall bus s,
      occurrences up (trace (h bus s))
        = (if negb (cached s) && observe bus then 1 else 0)
      /\ occurrences down (trace (h bus s))
        = (if cached s && negb (observe bus) then 1 else 0)) ->
  (forall bus s, cached (after (h bus s)) = observe bus) ->
  Spec.edgeTriggered h cached observe up down.
Proof.
  intros Hstep Hcache. split.
  - intros bus s. destruct (Hstep bus s) as [Hu Hd].
    rewrite Hu, Hd. repeat split.
    destruct (cached s), (observe bus); simpl; lia.
  - induction buses as [|bus rest IH]; intros s; simpl.
    + split; reflexivity.
    + rewrite !occurrences_app.
      destruct (Hstep bus s) as [Hu Hd].
      destruct (IH (after (h bus s))) as [IHu IHd].
      rewrite Hu, Hd, IHu, IHd, Hcache. split; reflexivity.
Qed.

(** ** [deviceChanged]: level to edge *)

Section DeviceChanged.
Context {defs : Defs}.

Lemma PowerKit_deviceChanged_trace bus s :
  trace (PowerKit.deviceChanged bus s)
  = Spec.edge (PowerKit.Emit PowerKit.LidClosed) (PowerKit.Emit PowerKit.LidOpened)
      (PowerKit.wasLidClosed s) (PowerKit.LidIsClosed bus)
    ++ Spec.edge (PowerKit.Emit PowerKit.SwitchedToBattery) (PowerKit.Emit PowerKit.SwitchedToAC)
         (PowerKit.wasOnBattery s) (PowerKit.OnBattery bus)
    ++ [PowerKit.Emit PowerKit.UpdatedDevices].
Proof.
  destruct s as [devs docked wasLid wasBat ss pm].
  unfold PowerKit.deviceChanged; cbn.
  destruct wasLid, (PowerKit.LidIsClosed bus) eqn:L; run;
    destruct wasBat, (PowerKit.OnBattery bus) eqn:B; run; reflexivity.
Qed.

Lemma PowerKit_deviceChanged_after bus s :
  after (PowerKit.deviceChanged bus s)
  = PowerKit.set_wasOnBattery (PowerKit.OnBattery bus)
      (PowerKit.set_wasLidClosed (PowerKit.LidIsClosed bus) s).
Proof.
  destruct s as [devs docked wasLid wasBat ss pm].
  unfold PowerKit.deviceChanged; cbn.
  destruct wasLid, (PowerKit.LidIsClosed bus) eqn:L; run;
    destruct wasBat, (PowerKit.OnBattery bus) eqn:B; run; reflexivity.
Qed.

Lemma Power_deviceChanged_trace bus s :
  trace (Power.deviceChanged bus s)
  = Spec.edge (Power.Emit Power.closedLid) (Power.Emit Power.openedLid)
      (Power.wasLidClosed s) (Power.lidIsClosed bus)
    ++ Spec.edge (Power.Emit Power.switchedToBattery) (Power.Emit Power.switchedToAC)
         (Power.wasOnBattery s) (Power.onBattery bus)
    ++ [Power.Emit Power.updatedDevices].
Proof.
  destruct s as [devs docked wasLid wasBat].
  unfold Power.deviceChanged; cbn.
  destruct wasLid, (Power.lidIsClosed bus) eqn:L; run;
    destruct wasBat, (Power.onBattery bus) eqn:B; run; reflexivity.
Qed.

Lemma Power_deviceChanged_after bus s :
  after (Power.deviceChanged bus s)
  = Power.set_wasOnBattery (Power.onBattery bus)
      (Power.set_wasLidClosed (Power.lidIsClosed bus) s).
Proof.
  destruct s as [devs docked wasLid wasBat].
  unfold Power.deviceChanged; cbn.
  destruct wasLid, (Power.lidIsClosed bus) eqn:L; run;
    destruct wasBat, (Power.onBattery bus) eqn:B; run; reflexivity.
Qed.

(** Counting one kind of event in the trace of a call. *)
Ltac count_edges :=
  intros bus s;
  rewrite ?PowerKit_deviceChanged_trace, ?Power_deviceChanged_trace;
  rewrite !occurrences_app; unfold Spec.edge;
  match goal with
  | |- context [PowerKit.wasLidClosed s] =>
      destruct (PowerKit.wasLidClosed s), (PowerKit.LidIsClosed bus),
               (PowerKit.wasOnBattery s), (PowerKit.OnBattery bus)
  | |- context [Power.wasLidClosed s] =>
      destruct (Power.wasLidClosed s), (Power.lidIsClosed bus),
               (Power.wasOnBattery s), (Power.onBattery bus)
  end; split; reflexivity.

(** C2.  Over every sequence of observed [OnBattery] values (and likewise
    [LidIsClosed] values) handled by successive [deviceChanged()] calls,
    [SwitchedToBattery]/[SwitchedToAC] (and [LidClosed]/[LidOpened]) are
    emitted once per transition of the observed value and not at all when
    the value observed equals the cached one; one call emits at most one
    event of each pair.  This holds of [PowerKit::deviceChanged] and of
    [Power::deviceChanged]. *)
Theorem deviceChanged_edge_once_per_transition :
  Spec.edgeTriggered PowerKit.deviceChanged
    PowerKit.wasOnBattery PowerKit.OnBattery Is.SwitchedToBattery Is.SwitchedToAC
  /\ Spec.edgeTriggered PowerKit.deviceChanged
    PowerKit.wasLidClosed PowerKit.LidIsClosed Is.LidClosed Is.LidOpened
  /\ Spec.edgeTriggered Power.deviceChanged
    Power.wasOnBattery Power.onBattery Is.switchedToBattery Is.switchedToAC
  /\ Spec.edgeTriggered Power.deviceChanged
    Power.wasLidClosed Power.lidIsClosed Is.closedLid Is.openedLid.
Proof.
  repeat apply conj; apply edgeTriggered_of_step;
    try (intros bus s;
         rewrite ?PowerKit_deviceChanged_after, ?Power_deviceChanged_after;
         reflexivity);
    count_edges.
Qed.

End DeviceChanged.

(** ** Capabilities and actions: the priority order *)

Section Backends.
Context {defs : Defs}.

Lemma availableService_valid b bus :
  PowerKit.availableService b bus = interface_isValid bus b.
Proof.
  unfold PowerKit.availableService. now destruct (interface_isValid bus b).
Qed.

Lemma can_first_reachable c bus :
  Spec.can c bus
  = match Spec.resolve c bus with
    | Some b => PowerKit.availableAction (Spec.question c b) b bus
    | None => false
    end.
Proof.
  destruct c; cbv [Spec.can Spec.resolve Spec.priority Spec.firstReachable
                   PowerKit.CanRestart PowerKit.CanPowerOff PowerKit.CanSuspend
                   PowerKit.CanHibernate PowerKit.CanHybridSleep
                   PowerKit.HasLogind PowerKit.HasConsoleKit PowerKit.HasUPower];
    rewrite ?availableService_valid;
    destruct (interface_isValid bus PKLogind);
    destruct (interface_isValid bus PKConsoleKit);
    destruct (interface_isValid bus PKUPower); reflexivity.
Qed.

Lemma availableAction_agree b0 bus bus' method b :
  Spec.agreeOff b0 bus bus' -> b <> b0 ->
  PowerKit.availableAction method b bus = PowerKit.availableAction method b bus'.
Proof.
  intros A N. destruct (A b N) as [V C].
  unfold PowerKit.availableAction. rewrite V.
  destruct b; try reflexivity;
    destruct (PowerKit.methodCommand method); try reflexivity;
    rewrite C; reflexivity.
Qed.

Lemma firstReachable_agree b0 bus bus' tiers :
  Spec.agreeOff b0 bus bus' -> ~ In b0 tiers ->
  Spec.firstReachable tiers bus = Spec.firstReachable tiers bus'.
Proof.
  intros A. induction tiers as [|b rest IH]; simpl; intros N; [reflexivity|].
  assert (Nb : b <> b0) by (intros ->; apply N; now left).
  destruct (A b Nb) as [V _]. rewrite V.
  destruct (interface_isValid bus' b); [reflexivity|].
  apply IH. intros I. apply N. now right.
Qed.

Lemma firstReachable_In tiers bus b :
  Spec.firstReachable tiers bus = Some b -> In b tiers.
Proof.
  induction tiers as [|b1 rest IH]; simpl; [discriminate|].
  destruct (interface_isValid bus b1).
  - intros [= ->]. now left.
  - intros E. right. now apply IH.
Qed.

Lemma firstReachable_valid tiers bus b :
  Spec.firstReachable tiers bus = Some b -> interface_isValid bus b = true.
Proof.
  induction tiers as [|b1 rest IH]; simpl; [discriminate|].
  destruct (interface_isValid bus b1) eqn:V.
  - now intros [= <-].
  - exact IH.
Qed.

(** What [availableAction] makes of a reply: the affirmative string is a
    yes whatever else the reply holds; otherwise an error is a no, and
    without an error the answer is [toBool()] of the first argument. *)
Lemma availableAction_reads c b bus v error :
  In b (Spec.priority c) ->
  interface_isValid bus b = true ->
  call bus b (Spec.member c b) [] = replyWith v error ->
  PowerKit.availableAction (Spec.question c b) b bus
  = String.eqb (QVariant_toString v) DBUS_OK_REPLY
    || (isEmpty error && QVariant_toBool v).
Proof.
  intros I V R.
  assert (M : PowerKit.methodCommand (Spec.question c b) = Some (Spec.member c b))
    by (destruct c, b; reflexivity).
  unfold PowerKit.availableAction. rewrite M, V, R. cbn [negb replyWith
    first_toString first_toBool errorMessage].
  destruct b; try (destruct c; simpl in I; intuition discriminate);
    destruct (String.eqb (QVariant_toString v) DBUS_OK_REPLY); try reflexivity;
    destruct (isEmpty error); reflexivity.
Qed.

Lemma can_reads c bus b v error :
  Spec.resolve c bus = Some b ->
  call bus b (Spec.member c b) [] = replyWith v error ->
  Spec.can c bus
  = String.eqb (QVariant_toString v) DBUS_OK_REPLY
    || (isEmpty error && QVariant_toBool v).
Proof.
  intros R C. rewrite can_first_reachable, R.
  apply availableAction_reads; [|exact (firstReachable_valid _ _ _ R) | exact C].
  eapply firstReachable_In. exact R.
Qed.

(** What holds of the priority order: with no reachable backend in its
    order a query is false; a query whose order has no UPower does not
    depend on UPower at all; and where the first reachable backend answers
    with a boolean, with the affirmative string, with a string that
    [toBool()] reads as false, or with an error, the query returns that
    backend's answer, whatever the backends after it would say.  (The
    affirmative string is taken not to be "true" or "false".) *)
Lemma capability_priority_order (c : Spec.Capability) (bus : Bus) :
  (Spec.resolve c bus = None -> Spec.can c bus = false)
  /\ (Spec.usesUPower c = false ->
      forall bus', Spec.agreeOff PKUPower bus bus' -> Spec.can c bus = Spec.can c bus')
  /\ (forall b v error,
        Spec.resolve c bus = Some b ->
        call bus b (Spec.member c b) [] = replyWith v error ->
        match v with
        | QVariant_bool _ =>
            DBUS_OK_REPLY <> "true"%string /\ DBUS_OK_REPLY <> "false"%string
        | QVariant_QString s =>
            s = DBUS_OK_REPLY /\ error = EmptyString
            \/ s <> DBUS_OK_REPLY /\ (QVariant_toBool v = false \/ error <> EmptyString)
        end ->
        Spec.can c bus = Spec.answer v error)
  /\ Spec.usesUPower Spec.Suspend = true
  /\ Spec.usesUPower Spec.Hibernate = true
  /\ Spec.usesUPower Spec.Restart = false
  /\ Spec.usesUPower Spec.PowerOff = false
  /\ Spec.usesUPower Spec.HybridSleep = false.
Proof.
  split; [|split; [|split]].
  - intros N. now rewrite can_first_reachable, N.
  - intros U bus' A. rewrite !can_first_reachable. unfold Spec.resolve.
    assert (NI : ~ In PKUPower (Spec.priority c)).
    { destruct c; simpl in *; try discriminate; intuition discriminate. }
    rewrite <- (firstReachable_agree PKUPower bus bus' _ A NI).
    destruct (Spec.firstReachable (Spec.priority c) bus) as [b|] eqn:R; [|reflexivity].
    apply (availableAction_agree PKUPower); [assumption|].
    intros ->. apply NI. eapply firstReachable_In; eassumption.
  - intros b v error R C S. rewrite (can_reads c bus b v error R C).
    unfold Spec.answer. destruct v as [a|s]; cbn [QVariant_toString QVariant_toBool].
    + destruct S as [T F].
      assert (E : String.eqb (if a then "true" else "false")%string DBUS_OK_REPLY = false).
      { apply String.eqb_neq. destruct a; congruence. }
      destruct a; cbn [QVariant_toString]; rewrite E; reflexivity.
    + destruct S as [[-> ->]|[N [B|E]]].
      * now rewrite String.eqb_refl.
      * apply String.eqb_neq in N. rewrite N. cbn [QVariant_toBool] in B. rewrite B.
        now destruct (isEmpty error).
      * apply String.eqb_neq in N. rewrite N.
        destruct error; [contradiction|reflexivity].
  - repeat split.
Qed.

(** C7.  The capability queries do not return the answer of the first
    reachable backend when that backend answers no with a string.  Where
    the first reachable backend of the priority order replies, without
    error, a string that is not [DBUS_OK_REPLY] and that is not empty, "0"
    or "false" (logind's "no", "na" and "challenge" are such strings), the
    answer of the backend is a no and the query returns true: after the
    test for the affirmative string, [availableAction] falls back on
    [toBool()], which is true of such a string. *)
Theorem capability_takes_a_string_no_for_yes :
  forall (c : Spec.Capability) (bus : Bus) (b : PKBackend) (says : QString),
    Spec.resolve c bus = Some b ->
    call bus b (Spec.member c b) [] = replyWith (QVariant_QString says) EmptyString ->
    says <> DBUS_OK_REPLY ->
    QVariant_toBool (QVariant_QString says) = true ->
    Spec.answer (QVariant_QString says) EmptyString = false
    /\ Spec.can c bus = true.
Proof.
  intros c bus b says R C N B.
  rewrite (can_reads c bus b _ _ R C), B.
  apply String.eqb_neq in N. unfold Spec.answer.
  cbn [QVariant_toString isEmpty andb]. rewrite N. split; reflexivity.
Qed.

End Backends.

Lemma refusingBus_agreeOff :
  Spec.agreeOff PKUPower Sample.refusingBus Sample.refusingBus_noUPower.
Proof.
  intros b N. destruct b; try (exfalso; apply N; reflexivity);
    split; reflexivity.
Qed.

(** C7 at work: logind is reachable and answers "no" to CanSuspend; UPower
    would answer true.  The answer of logind is a no, and [CanSuspend()]
    returns true.  With "yes" for "no" it returns true as well, with the
    boolean false in a string it returns false. *)
Lemma capability_takes_a_string_no_for_yes_witness :
  Spec.resolve Spec.Suspend (Sample.logindSays "no"%string) = Some PKLogind
  /\ Spec.answer (defs := Sample.def_h) (QVariant_QString "no"%string) EmptyString = false
  /\ PowerKit.CanSuspend (defs := Sample.def_h) (Sample.logindSays "no"%string) = true
  /\ PowerKit.CanSuspend (defs := Sample.def_h) (Sample.logindSays "yes"%string) = true
  /\ PowerKit.CanSuspend (defs := Sample.def_h) (Sample.logindSays "false"%string) = false.
Proof.
  destruct (capability_takes_a_string_no_for_yes (defs := Sample.def_h)
              Spec.Suspend (Sample.logindSays "no"%string) PKLogind "no"%string)
    as [A C]; [reflexivity | reflexivity | discriminate | reflexivity |].
  split; [reflexivity|]. split; [exact A|]. split; [exact C|].
  split; reflexivity.
Defined.

(** ** Actions *)

Section Actions.
Context {defs : Defs}.

Lemma Power_sleep_trace bus s :
  trace (Power.sleep bus s)
  = if Power.canSuspend bus
    then [Power.HelperCall (if logind_isValid bus then Login1_suspend else UPower_suspend)]
    else [].
Proof.
  unfold Power.sleep, Power.canSuspend; cbn.
  destruct (logind_isValid bus) eqn:L; run.
  - destruct (Login1_canSuspend bus); run; reflexivity.
  - destruct (upower_isValid bus) eqn:U; run; [|reflexivity].
    destruct (upower_property bus "CanSuspend"%string); run; reflexivity.
Qed.

Lemma Power_hibernate_trace bus s :
  trace (Power.hibernate bus s)
  = if Power.canHibernate bus
    then [Power.HelperCall (if logind_isValid bus then Login1_hibernate else UPower_hibernate)]
    else [].
Proof.
  unfold Power.hibernate, Power.canHibernate; cbn.
  destruct (logind_isValid bus) eqn:L; run.
  - destruct (Login1_canHibernate bus); run; reflexivity.
  - destruct (upower_isValid bus) eqn:U; run; [|reflexivity].
    destruct (upower_property bus "CanHibernate"%string); run; reflexivity.
Qed.

(** An action, tier by tier: the first reachable backend gets the call. *)
Ltac finish_action :=
  split; [reflexivity|];
  first [ split; reflexivity
        | eexists; eexists; repeat split; reflexivity ].

Ltac by_tiers bus :=
  run;
  first [ finish_action
        | match goal with
          | |- context [interface_isValid bus ?b] =>
              destruct (interface_isValid bus b) eqn:?; by_tiers bus
          end ].

(** C3, as amended.  Each action of [PowerKit] (restart, power-off, suspend,
    hibernate, hybrid sleep) goes to the first reachable backend of its
    priority order and makes the action call there without asking the "can"
    question; it returns the error message of that call's reply (empty on
    success), and [PK_NO_BACKEND], with no call made, only when no backend
    of the order is reachable.  The members are left as they were.
    [Power::sleep] and [Power::hibernate] do ask first: they make their one
    helper call only when [canSuspend()], resp. [canHibernate()], is true,
    and return nothing. *)
Theorem action_goes_to_first_reachable_backend :
  forall (c : Spec.Capability) (bus : Bus),
    (forall s,
        after (Spec.act c bus s) = s
        /\ match Spec.resolve c bus with
           | Some b =>
               exists cmd args,
                 Spec.actionCall c b = Some (cmd, args)
                 /\ trace (Spec.act c bus s) = [PowerKit.MethodCall b cmd args]
                 /\ result (Spec.act c bus s) = errorMessage (call bus b cmd args)
           | None =>
               trace (Spec.act c bus s) = []
               /\ result (Spec.act c bus s) = PK_NO_BACKEND
           end)
    /\ (forall s,
        trace (Power.sleep bus s)
        = (if Power.canSuspend bus
           then [Power.HelperCall (if logind_isValid bus then Login1_suspend else UPower_suspend)]
           else [])
        /\ trace (Power.hibernate bus s)
        = (if Power.canHibernate bus
           then [Power.HelperCall (if logind_isValid bus then Login1_hibernate else UPower_hibernate)]
           else [])).
Proof.
  intros c bus. split; intros s.
  - unfold Spec.resolve, Spec.actionCall.
    destruct c; cbn [Spec.act Spec.priority Spec.firstReachable Spec.action];
      unfold PowerKit.Restart, PowerKit.PowerOff, PowerKit.Suspend,
             PowerKit.Hibernate, PowerKit.HybridSleep,
             PowerKit.HasLogind, PowerKit.HasConsoleKit, PowerKit.HasUPower,
             PowerKit.availableService;
      by_tiers bus.
  - split; [apply Power_sleep_trace | apply Power_hibernate_trace].
Qed.

End Actions.

(** C3, as stated, fails.  logind is reachable and answers the "can
    suspend" question with an error, so [CanSuspend()] is false; [Suspend()]
    makes the call all the same and returns the call's own failure, not
    [PK_NO_BACKEND]. *)
Lemma Suspend_called_although_CanSuspend_false :
  PowerKit.CanSuspend (defs := Sample.def_h) Sample.refusingBus = false
  /\ trace (PowerKit.Suspend (defs := Sample.def_h) Sample.refusingBus PowerKit.initial)
     = [PowerKit.MethodCall PKLogind "Suspend"%string [true]]
  /\ result (PowerKit.Suspend (defs := Sample.def_h) Sample.refusingBus PowerKit.initial)
     = "Permission denied"%string
  /\ result (PowerKit.Suspend (defs := Sample.def_h) Sample.refusingBus PowerKit.initial)
     <> PK_NO_BACKEND (Defs := Sample.def_h).
Proof.
  repeat split; try reflexivity.
  vm_compute. discriminate.
Qed.

(** ** Aggregates over the devices *)

Section Aggregates.
Context {defs : Defs}.



Lemma BatteryLeft_result bus s :
  result (PowerKit.BatteryLeft bus s)
  = PrimFloat.div (fst (PowerKit.BatteryLeft_loop (devicesRead bus s)))
                  (double_of_int (snd (PowerKit.BatteryLeft_loop (devicesRead bus s)))).
Proof.
  unfold PowerKit.BatteryLeft, devicesRead, bind, ask, when; cbn.
  destruct (PowerKit.OnBattery bus); reflexivity.
Qed.

Lemma TimeToEmpty_result bus s :
  result (PowerKit.TimeToEmpty bus s) = PowerKit.TimeToEmpty_loop (devicesRead bus s).
Proof.
  unfold PowerKit.TimeToEmpty, devicesRead, bind, ask, when; cbn.
  destruct (PowerKit.OnBattery bus); reflexivity.
Qed.

Lemma TimeToFull_result bus s :
  result (PowerKit.TimeToFull bus s) = PowerKit.TimeToFull_loop (devicesRead bus s).
Proof.
  unfold PowerKit.TimeToFull, devicesRead, bind, ask, when; cbn.
  destruct (PowerKit.OnBattery bus); reflexivity.
Qed.




End Aggregates.



(** ** [BatteryLeft]: the mean, and the empty case *)

Lemma int_wrap_small (z : Z) :
  (- 2 ^ 31 <= z < 2 ^ 31)%Z -> int_wrap z = z.
Proof.
  intros R. unfold int_wrap. rewrite Z.mod_small; lia.
Qed.

Lemma BatteryLeft_loop_from (entries : list (QString * Device)) :
  forall (sum : double) (n : Z),
    (0 <= n)%Z ->
    (n + Z.of_nat (List.length (countedEntries entries)) < 2 ^ 31)%Z ->
    fold_left
      (fun acc e =>
         if PowerKit.counted (snd e)
         then (PrimFloat.add (fst acc) (percentage (snd e)), int_wrap (snd acc + 1))
         else acc)
      entries (sum, n)
    = (fold_left PrimFloat.add
         (map (fun e => percentage (snd e)) (countedEntries entries)) sum,
       (n + Z.of_nat (List.length (countedEntries entries)))%Z).
Proof.
  induction entries as [|e rest IH]; intros sum n Hn Hb; simpl.
  - f_equal. lia.
  - unfold countedEntries in *. simpl in *.
    destruct (PowerKit.counted (snd e)); simpl in *.
    + rewrite int_wrap_small by lia. rewrite IH by lia. f_equal. lia.
    + now apply IH.
Qed.

Section BatteryLeft.
Context {defs : Defs}.

(** With fewer than 2^31 counted devices, [BatteryLeft()] is the mean of
    their percentages, summed in key order. *)
Lemma BatteryLeft_is_mean bus s :
  (Z.of_nat (List.length (countedEntries (devicesRead bus s))) < 2 ^ 31)%Z ->
  result (PowerKit.BatteryLeft bus s)
  = Spec.mean (map (fun e => percentage (snd e)) (countedEntries (devicesRead bus s))).
Proof.
  intros B. rewrite BatteryLeft_result. unfold PowerKit.BatteryLeft_loop.
  rewrite BatteryLeft_loop_from by lia. simpl.
  unfold Spec.mean. now rewrite length_map.
Qed.

(** With no counted device the quotient is 0.0/0: not a number. *)
Lemma BatteryLeft_none_counted bus s :
  countedEntries (devicesRead bus s) = [] ->
  result (PowerKit.BatteryLeft bus s) = PrimFloat.nan.
Proof.
  intros E. rewrite BatteryLeft_is_mean; rewrite E; [reflexivity | simpl; lia].
Qed.

End BatteryLeft.

(** C1, at the input where the code departs from it.  With two counted
    devices at 40% and 60% [BatteryLeft()] returns 50.  With no device at all
    it returns the quotient 0.0/0, which is not a number and is not 0: the
    division has no guard. *)
Theorem BatteryLeft_without_devices_is_nan :
  result (PowerKit.BatteryLeft (defs := Sample.def_h) Sample.mainsBus Sample.twoBatteries)
  = 50%float
  /\ PowerKit.devices PowerKit.initial = []
  /\ result (PowerKit.BatteryLeft (defs := Sample.def_h) Sample.mainsBus PowerKit.initial)
     = PrimFloat.nan
  /\ PrimFloat.is_nan
       (result (PowerKit.BatteryLeft (defs := Sample.def_h) Sample.mainsBus PowerKit.initial))
     = true
  /\ result (PowerKit.BatteryLeft (defs := Sample.def_h) Sample.mainsBus PowerKit.initial)
     <> 0%float
  /\ Power.batteryLeft Power.initial = 0%float.
Proof.
  repeat split; try reflexivity.
  intros E. apply (f_equal PrimFloat.is_nan) in E. vm_compute in E. discriminate E.
Qed.

(** ** The device registry *)

Section Registry.
Context {defs : Defs}.

Lemma QString_sameKey_eqb (a b : QString) : QMap.sameKey a b = String.eqb a b.
Proof.
  destruct (String.eqb_spec a b) as [->|N].
  - apply QMapFacts.sameKey_refl.
  - now apply QMapFacts.sameKey_neq.
Qed.

(** *** What the tracker does inside a scan *)

Lemma deviceChanged_devices bus s :
  PowerKit.devices (after (PowerKit.deviceChanged bus s)) = PowerKit.devices s.
Proof. now rewrite PowerKit_deviceChanged_after. Qed.

Lemma deviceChanged_tracker_events bus s :
  forallb isTrackerEvent (trace (PowerKit.deviceChanged bus s)) = true.
Proof.
  rewrite PowerKit_deviceChanged_trace. unfold Spec.edge.
  destruct (PowerKit.wasLidClosed s), (PowerKit.LidIsClosed bus),
           (PowerKit.wasOnBattery s), (PowerKit.OnBattery bus); reflexivity.
Qed.

Lemma handleDeviceChanged_devices p bus s :
  PowerKit.devices (after (PowerKit.handleDeviceChanged p bus s)) = PowerKit.devices s.
Proof.
  unfold PowerKit.handleDeviceChanged. destruct (isEmpty p); [reflexivity|].
  apply deviceChanged_devices.
Qed.

Lemma handleDeviceChanged_tracker_events p bus s :
  forallb isTrackerEvent (trace (PowerKit.handleDeviceChanged p bus s)) = true.
Proof.
  unfold PowerKit.handleDeviceChanged. destruct (isEmpty p); [reflexivity|].
  apply deviceChanged_tracker_events.
Qed.

(** *** [UpdateDevices] *)

Lemma Device_update_result d bus s :
  result (PowerKit.Device_update d bus s) = refreshed bus d.
Proof.
  unfold PowerKit.Device_update. rewrite !bind_result. reflexivity.
Qed.

Lemma Device_update_after d bus s :
  after (PowerKit.Device_update d bus s)
  = after (PowerKit.handleDeviceChanged (path d) bus s).
Proof.
  unfold PowerKit.Device_update. rewrite !bind_after. reflexivity.
Qed.

Lemma Device_update_trace d bus s :
  trace (PowerKit.Device_update d bus s)
  = trace (PowerKit.handleDeviceChanged (path d) bus s).
Proof.
  unfold PowerKit.Device_update. rewrite !bind_trace. cbn [ask ret trace result after].
  now rewrite app_nil_r.
Qed.

Lemma UpdateDevices_loop_result entries :
  forall bus s,
    result (PowerKit.UpdateDevices_loop entries bus s)
    = QMap.mapValues (refreshed bus) entries.
Proof.
  induction entries as [|[k d] rest IH]; intros bus s;
    cbn [PowerKit.UpdateDevices_loop]; [reflexivity|].
  rewrite !bind_result. cbn [ret result]. rewrite IH, Device_update_result.
  reflexivity.
Qed.

Lemma UpdateDevices_loop_devices entries :
  forall bus s,
    PowerKit.devices (after (PowerKit.UpdateDevices_loop entries bus s))
    = PowerKit.devices s.
Proof.
  induction entries as [|[k d] rest IH]; intros bus s;
    cbn [PowerKit.UpdateDevices_loop]; [reflexivity|].
  rewrite !bind_after. cbn [ret after]. rewrite IH, Device_update_after.
  apply handleDeviceChanged_devices.
Qed.

Lemma UpdateDevices_loop_tracker_events entries :
  forall bus s,
    forallb isTrackerEvent (trace (PowerKit.UpdateDevices_loop entries bus s)) = true.
Proof.
  induction entries as [|[k d] rest IH]; intros bus s;
    cbn [PowerKit.UpdateDevices_loop]; [reflexivity|].
  rewrite !bind_trace. cbn [ret trace]. rewrite app_nil_r, forallb_app, IH.
  rewrite Device_update_trace, handleDeviceChanged_tracker_events. reflexivity.
Qed.

Lemma UpdateDevices_devices bus s :
  PowerKit.devices (after (PowerKit.UpdateDevices bus s))
  = QMap.mapValues (refreshed bus) (PowerKit.devices s).
Proof.
  unfold PowerKit.UpdateDevices. rewrite !bind_after.
  cbn [get PowerKit.modify result after PowerKit.set_devices PowerKit.devices].
  apply UpdateDevices_loop_result.
Qed.

Lemma UpdateDevices_tracker_events bus s :
  forallb isTrackerEvent (trace (PowerKit.UpdateDevices bus s)) = true.
Proof.
  unfold PowerKit.UpdateDevices. rewrite !bind_trace.
  cbn [get PowerKit.modify result after trace]. rewrite app_nil_r. simpl.
  apply UpdateDevices_loop_tracker_events.
Qed.

(** *** [scan] *)

Lemma scan_loop_cons f rest bus s :
  after (PowerKit.scan_loop (f :: rest) bus s)
    = after (PowerKit.scan_loop rest bus (scanStep bus f s))
  /\ trace (PowerKit.scan_loop (f :: rest) bus s)
    = trace (PowerKit.scan_loop rest bus (scanStep bus f s)).
Proof.
  cbn [PowerKit.scan_loop]. rewrite !bind_after, !bind_trace.
  cbn [get result after trace]. unfold scanStep.
  destruct (QMap.contains f (PowerKit.devices s)); split; reflexivity.
Qed.

Lemma scan_loop_trace found :
  forall bus s, trace (PowerKit.scan_loop found bus s) = [].
Proof.
  induction found as [|f rest IH]; intros bus s; [reflexivity|].
  destruct (scan_loop_cons f rest bus s) as [_ ->]. apply IH.
Qed.

Lemma afterScanLoop_step bus f rest s k :
  afterScanLoop bus rest (PowerKit.devices (scanStep bus f s)) k
  = afterScanLoop bus (f :: rest) (PowerKit.devices s) k.
Proof.
  unfold scanStep, afterScanLoop, QMap.contains. simpl.
  destruct (QMap.value f (PowerKit.devices s)) as [d|] eqn:F; simpl.
  - destruct (QMap.value k (PowerKit.devices s)) as [d'|] eqn:Kv; [reflexivity|].
    destruct (String.eqb_spec k f) as [->|N]; [congruence | reflexivity].
  - rewrite QMapFacts.value_insert, QString_sameKey_eqb.
    destruct (String.eqb_spec k f) as [->|N].
    + now rewrite F.
    + reflexivity.
Qed.

Lemma scan_loop_value found :
  forall bus s k,
    QMap.value k (PowerKit.devices (after (PowerKit.scan_loop found bus s)))
    = afterScanLoop bus found (PowerKit.devices s) k.
Proof.
  induction found as [|f rest IH]; intros bus s k.
  - simpl. unfold afterScanLoop. now destruct (QMap.value k (PowerKit.devices s)).
  - destruct (scan_loop_cons f rest bus s) as [-> _].
    rewrite IH. apply afterScanLoop_step.
Qed.

Lemma scanStep_sorted bus f s :
  QMap.sorted (PowerKit.devices s) = true ->
  QMap.sorted (PowerKit.devices (scanStep bus f s)) = true.
Proof.
  intros S. unfold scanStep.
  destruct (QMap.contains f (PowerKit.devices s)); [assumption|].
  simpl. now apply QMapFacts.sorted_insert.
Qed.

Lemma scan_loop_sorted found :
  forall bus s,
    QMap.sorted (PowerKit.devices s) = true ->
    QMap.sorted (PowerKit.devices (after (PowerKit.scan_loop found bus s))) = true.
Proof.
  induction found as [|f rest IH]; intros bus s S; [assumption|].
  destruct (scan_loop_cons f rest bus s) as [-> _].
  apply IH. now apply scanStep_sorted.
Qed.

Lemma scan_devices bus s :
  PowerKit.devices (after (PowerKit.scan bus s))
  = QMap.mapValues (refreshed bus)
      (PowerKit.devices (after (PowerKit.scan_loop (PowerKit.find bus) bus s))).
Proof.
  unfold PowerKit.scan. rewrite !bind_after. cbn [ask PowerKit.emit tell result after].
  apply UpdateDevices_devices.
Qed.

Lemma scan_value bus s k :
  QMap.value k (PowerKit.devices (after (PowerKit.scan bus s)))
  = option_map (refreshed bus)
      (afterScanLoop bus (PowerKit.find bus) (PowerKit.devices s) k).
Proof.
  rewrite scan_devices, QMapFacts.value_mapValues. now rewrite scan_loop_value.
Qed.

Lemma scan_sorted bus s :
  QMap.sorted (PowerKit.devices s) = true ->
  QMap.sorted (PowerKit.devices (after (PowerKit.scan bus s))) = true.
Proof.
  intros S. rewrite scan_devices, QMapFacts.sorted_mapValues.
  now apply scan_loop_sorted.
Qed.

Lemma scan_trace bus s :
  exists t,
    trace (PowerKit.scan bus s) = t ++ [PowerKit.Emit PowerKit.UpdatedDevices]
    /\ forallb isTrackerEvent t = true.
Proof.
  unfold PowerKit.scan. rewrite !bind_trace.
  cbn [ask PowerKit.emit tell trace after result].
  rewrite scan_loop_trace. cbn [app].
  eexists. split; [reflexivity|]. apply UpdateDevices_tracker_events.
Qed.

Lemma scan_tracker_events bus s :
  forallb isTrackerEvent (trace (PowerKit.scan bus s)) = true.
Proof.
  destruct (scan_trace bus s) as (t & -> & T).
  rewrite forallb_app, T. reflexivity.
Qed.

(** *** [Power::scanDevices] *)

Lemma Power_scanDevices_loop_value found :
  forall bus s k,
    QMap.value k (Power.devices (after (Power.scanDevices_loop found bus s)))
    = afterScanLoop bus found (Power.devices s) k.
Proof.
  induction found as [|f rest IH]; intros bus s k.
  - simpl. unfold afterScanLoop. now destruct (QMap.value k (Power.devices s)).
  - cbn [Power.scanDevices_loop]. rewrite !bind_after. cbn [get result after].
    rewrite IH. clear IH.
    unfold afterScanLoop, QMap.contains.
    destruct (QMap.value f (Power.devices s)) as [d|] eqn:F; cbn [after ret];
      rewrite ?bind_after; cbn [ask Power.modify result after Power.set_devices Power.devices].
    + destruct (QMap.value k (Power.devices s)) as [d'|] eqn:Kv; [reflexivity|].
      cbn [existsb].
      destruct (String.eqb_spec k f) as [->|N]; [congruence | reflexivity].
    + rewrite QMapFacts.value_insert, QString_sameKey_eqb. cbn [existsb].
      destruct (String.eqb_spec k f) as [->|N].
      * now rewrite F.
      * reflexivity.
Qed.

Lemma Power_scanDevices_value bus s k :
  QMap.value k (Power.devices (after (Power.scanDevices bus s)))
  = afterScanLoop bus (UPower_getDevices bus) (Power.devices s) k.
Proof.
  unfold Power.scanDevices. rewrite !bind_after. cbn [ask Power.emit tell after result].
  apply Power_scanDevices_loop_value.
Qed.

End Registry.

(** ** The device registry: what the handlers promise *)

Section RegistryContracts.
Context {defs : Defs}.

(** C4, as amended.  [PowerKit::scan()] creates a Device for each id the
    backend reports that is not tracked, and for no other id; it removes and
    replaces none; and it then runs [UpdateDevices()], which refreshes every
    tracked Device, old and new, in place.  [Power::scanDevices()] creates
    the same Devices and leaves the ones already tracked as they are. *)
Theorem scan_creates_untracked_and_refreshes_all :
  forall bus k,
    (forall s,
        QMap.value k (PowerKit.devices (after (PowerKit.scan bus s)))
        = option_map (refreshed bus)
            (afterScanLoop bus (PowerKit.find bus) (PowerKit.devices s) k))
    /\ (forall s,
        QMap.value k (Power.devices (after (Power.scanDevices bus s)))
        = afterScanLoop bus (UPower_getDevices bus) (Power.devices s) k).
Proof.
  intros bus k. split; intros s.
  - apply scan_value.
  - apply Power_scanDevices_value.
Qed.

Lemma deviceRemoved_cases bus s p :
  upower_isValid bus = true ->
  startsWith p DBUS_JOBS_arg_UPOWER_PATH = false ->
  PowerKit.deviceRemoved p bus s
  = if QMap.contains p (PowerKit.devices s) then
      if existsb (String.eqb p) (PowerKit.find bus) then
        {| result := tt; after := s; trace := [] |}
      else
        let o := PowerKit.scan bus
                   (PowerKit.set_devices (QMap.remove p (PowerKit.devices s)) s) in
        {| result := result o; after := after o;
           trace := PowerKit.Emit (PowerKit.DeviceWasRemoved p) :: trace o |}
    else
      let o := PowerKit.scan bus s in
      {| result := result o; after := after o; trace := trace o |}.
Proof.
  intros V J.
  unfold PowerKit.deviceRemoved, bind, ask, get, PowerKit.modify, PowerKit.emit, tell, ret.
  rewrite V. cbn [negb]. rewrite J.
  destruct (QMap.contains p (PowerKit.devices s)).
  - destruct (existsb (String.eqb p) (PowerKit.find bus)); [reflexivity|].
    cbn [QMap.take snd].
    now destruct (PowerKit.scan bus _).
  - now destruct (PowerKit.scan bus s).
Qed.

(** C5, as amended.  For a [deviceRemoved(id)] that passes the job-path
    filter while the [upower] handle is valid: if [id] is tracked and the
    backend's list no longer has it, the Device is taken out of the map, its
    removal is announced, a [scan()] follows and [id] is not tracked
    afterwards; if [id] is tracked and the backend's list still has it, the
    call returns at once: nothing changes, nothing is emitted and no scan
    runs; if [id] is not tracked, the call is a [scan()]. *)
Theorem deviceRemoved_destroys_unlisted_and_ignores_listed :
  forall bus s p,
    upower_isValid bus = true ->
    startsWith p DBUS_JOBS_arg_UPOWER_PATH = false ->
    QMap.sorted (PowerKit.devices s) = true ->
    let o := PowerKit.deviceRemoved p bus s in
    let s1 := PowerKit.set_devices (QMap.remove p (PowerKit.devices s)) s in
    if QMap.contains p (PowerKit.devices s) then
      if existsb (String.eqb p) (PowerKit.find bus) then
        after o = s /\ trace o = []
      else
        after o = after (PowerKit.scan bus s1)
        /\ trace o = PowerKit.Emit (PowerKit.DeviceWasRemoved p) :: trace (PowerKit.scan bus s1)
        /\ QMap.contains p (PowerKit.devices (after o)) = false
    else
      after o = after (PowerKit.scan bus s) /\ trace o = trace (PowerKit.scan bus s).
Proof.
  intros bus s p V J S o s1. subst o.
  rewrite (deviceRemoved_cases bus s p V J).
  destruct (QMap.contains p (PowerKit.devices s)) eqn:C; [|split; reflexivity].
  destruct (existsb (String.eqb p) (PowerKit.find bus)) eqn:F; [split; reflexivity|].
  cbn [after trace]. repeat split.
  unfold QMap.contains. rewrite scan_value. unfold afterScanLoop. subst s1. simpl.
  rewrite QMapFacts.value_remove_same by assumption. now rewrite F.
Qed.

Lemma occurrences_tracker_events (p : PowerKit.Effect -> bool) (t : list PowerKit.Effect) :
  (forall e, isTrackerEvent e = true -> p e = false) ->
  forallb isTrackerEvent t = true ->
  occurrences p t = 0.
Proof.
  intros D. induction t as [|e t IH]; [reflexivity|]. simpl.
  intros A. apply andb_true_iff in A. destruct A as [Te Tt].
  unfold occurrences in *. simpl. rewrite (D e Te). now apply IH.
Qed.

Lemma DeviceWasAdded_not_tracker_event p e :
  isTrackerEvent e = true -> Is.DeviceWasAdded p e = false.
Proof. destruct e as [[]|]; simpl; congruence. Qed.

Lemma DeviceWasRemoved_not_tracker_event e :
  isTrackerEvent e = true -> Is.DeviceWasRemoved e = false.
Proof. destruct e as [[]|]; simpl; congruence. Qed.

Lemma deviceAdded_trace bus s p :
  upower_isValid bus = true ->
  startsWith p DBUS_JOBS_arg_UPOWER_PATH = false ->
  trace (PowerKit.deviceAdded p bus s)
  = PowerKit.Emit (PowerKit.DeviceWasAdded p) :: trace (PowerKit.scan bus s).
Proof.
  intros V J.
  unfold PowerKit.deviceAdded, bind, ask, PowerKit.emit, tell.
  rewrite V. cbn [negb]. rewrite J.
  now destruct (PowerKit.scan bus s).
Qed.

Lemma deviceAdded_announces_once bus s p :
  upower_isValid bus = true ->
  startsWith p DBUS_JOBS_arg_UPOWER_PATH = false ->
  occurrences (Is.DeviceWasAdded p) (trace (PowerKit.deviceAdded p bus s)) = 1.
Proof.
  intros V J. rewrite deviceAdded_trace by assumption.
  change (?e :: ?t) with ([e] ++ t). rewrite occurrences_app.
  rewrite (occurrences_tracker_events (Is.DeviceWasAdded p) _
             (DeviceWasAdded_not_tracker_event p) (scan_tracker_events bus s)).
  unfold occurrences. simpl. now rewrite String.eqb_refl.
Qed.

Lemma deviceRemoved_announcement bus s p q :
  In (PowerKit.Emit (PowerKit.DeviceWasRemoved q)) (trace (PowerKit.deviceRemoved p bus s)) ->
  q = p
  /\ QMap.contains p (PowerKit.devices s) = true
  /\ after (PowerKit.deviceRemoved p bus s)
     = after (PowerKit.scan bus
                (PowerKit.set_devices (QMap.remove p (PowerKit.devices s)) s)).
Proof.
  assert (NoScan : forall s', ~ In (PowerKit.Emit (PowerKit.DeviceWasRemoved q))
                                   (trace (PowerKit.scan bus s'))).
  { intros s' I. pose proof (scan_tracker_events bus s') as T.
    rewrite forallb_forall in T. specialize (T _ I). discriminate T. }
  destruct (upower_isValid bus) eqn:V.
  2:{ unfold PowerKit.deviceRemoved, bind, ask. rewrite V. simpl. contradiction. }
  destruct (startsWith p DBUS_JOBS_arg_UPOWER_PATH) eqn:J.
  1:{ unfold PowerKit.deviceRemoved, bind, ask, get. rewrite V. cbn [negb].
      rewrite J. simpl. contradiction. }
  rewrite (deviceRemoved_cases bus s p V J).
  destruct (QMap.contains p (PowerKit.devices s)).
  - destruct (existsb (String.eqb p) (PowerKit.find bus)); cbn [trace after].
    + contradiction.
    + intros [E|I]; [|exfalso; eapply NoScan; eassumption].
      injection E as ->. repeat split.
  - cbn [trace]. intros I. exfalso. eapply NoScan; eassumption.
Qed.

(** C10.  A [deviceAdded(path)] whose path is not under the jobs prefix,
    received while the [upower] handle is valid, emits [DeviceWasAdded(path)]
    exactly once, first thing, whether or not the path is tracked and whether
    or not the backend lists it; so a run of such notifications for one path
    announces it once per notification.  [DeviceWasRemoved] is emitted by
    [deviceRemoved(path)] only for that path, only when the path was tracked,
    and only together with the removal of its Device from the map. *)
Theorem deviceAdded_announces_every_notification :
  forall bus s p,
    upower_isValid bus = true ->
    startsWith p DBUS_JOBS_arg_UPOWER_PATH = false ->
    trace (PowerKit.deviceAdded p bus s)
      = PowerKit.Emit (PowerKit.DeviceWasAdded p) :: trace (PowerKit.scan bus s)
    /\ occurrences (Is.DeviceWasAdded p) (trace (PowerKit.deviceAdded p bus s)) = 1
    /\ occurrences (Is.DeviceWasAdded p)
         (trace (PowerKit.deviceAdded p bus (after (PowerKit.deviceAdded p bus s)))) = 1
    /\ (forall bus' s' p' q,
          In (PowerKit.Emit (PowerKit.DeviceWasRemoved q))
             (trace (PowerKit.deviceRemoved p' bus' s')) ->
          q = p'
          /\ QMap.contains p' (PowerKit.devices s') = true
          /\ after (PowerKit.deviceRemoved p' bus' s')
             = after (PowerKit.scan bus'
                        (PowerKit.set_devices (QMap.remove p' (PowerKit.devices s')) s'))).
Proof.
  intros bus s p V J. split; [|split; [|split]].
  - now apply deviceAdded_trace.
  - now apply deviceAdded_announces_once.
  - now apply deviceAdded_announces_once.
  - intros bus' s' p' q. apply deviceRemoved_announcement.
Qed.

End RegistryContracts.

(** C4, as stated, fails.  BAT0 is tracked, cached at 40% with an hour left;
    the backend lists it and its object now says 60% and half an hour.  After
    [scan()] the tracked Device holds the new values: it was refreshed. *)
Lemma scan_refreshes_tracked_device :
  QMap.value Sample.BAT0 (PowerKit.devices Sample.oneBattery)
    = Some (Sample.battery Sample.BAT0 "BAT0"%string 40%float)
  /\ QMap.value Sample.BAT0
       (PowerKit.devices
          (after (PowerKit.scan (defs := Sample.def_h) Sample.twoListedBus Sample.oneBattery)))
    = Some {| path := Sample.BAT0; isBattery := true; isPresent := true;
              nativePath := "BAT0"%string; percentage := 60%float;
              timeToEmpty := 1800; timeToFull := 0 |}
  /\ QMap.value Sample.BAT0
       (PowerKit.devices
          (after (PowerKit.scan (defs := Sample.def_h) Sample.twoListedBus Sample.oneBattery)))
    <> QMap.value Sample.BAT0 (PowerKit.devices Sample.oneBattery).
Proof.
  split; [reflexivity|]. split; [reflexivity|].
  intros E. apply (f_equal (option_map timeToEmpty)) in E.
  vm_compute in E. discriminate E.
Qed.

(** C5 at work: BAT0 is tracked and the backend no longer lists it. *)
Lemma deviceRemoved_destroys_unlisted_and_ignores_listed_witness :
  QMap.contains Sample.BAT0
    (PowerKit.devices
       (after (PowerKit.deviceRemoved (defs := Sample.def_h)
                 Sample.BAT0 Sample.mainsBus Sample.oneBattery)))
  = false.
Proof.
  pose proof (deviceRemoved_destroys_unlisted_and_ignores_listed (defs := Sample.def_h)
                Sample.mainsBus Sample.oneBattery Sample.BAT0
                eq_refl eq_refl eq_refl) as (_ & _ & gone).
  exact gone.
Defined.

(** C5, as stated, fails.  BAT0 is tracked and the backend still lists it,
    along with BAT1, which is not tracked.  [deviceRemoved(BAT0)] passes the
    filter and returns at once: it emits nothing and BAT1 stays untracked,
    where a [scan()] would have picked BAT1 up and emitted
    [UpdatedDevices].  No scan follows the call. *)
Lemma deviceRemoved_stale_does_not_scan :
  upower_isValid Sample.twoListedBus = true
  /\ startsWith Sample.BAT0 (DBUS_JOBS_arg_UPOWER_PATH (Defs := Sample.def_h)) = false
  /\ QMap.contains Sample.BAT0 (PowerKit.devices Sample.oneBattery) = true
  /\ PowerKit.find (defs := Sample.def_h) Sample.twoListedBus = [Sample.BAT0; Sample.BAT1]
  /\ trace (PowerKit.deviceRemoved (defs := Sample.def_h)
              Sample.BAT0 Sample.twoListedBus Sample.oneBattery) = []
  /\ after (PowerKit.deviceRemoved (defs := Sample.def_h)
              Sample.BAT0 Sample.twoListedBus Sample.oneBattery) = Sample.oneBattery
  /\ QMap.contains Sample.BAT1 (PowerKit.devices Sample.oneBattery) = false
  /\ QMap.contains Sample.BAT1
       (PowerKit.devices
          (after (PowerKit.scan (defs := Sample.def_h) Sample.twoListedBus Sample.oneBattery)))
     = true
  /\ existsb Is.UpdatedDevices
       (trace (PowerKit.scan (defs := Sample.def_h) Sample.twoListedBus Sample.oneBattery))
     = true.
Proof.
  repeat split.
Qed.

(** C10 at work: the path is tracked already and the backend does not list
    it; the notification is announced all the same. *)
Lemma deviceAdded_announces_every_notification_witness :
  QMap.contains Sample.BAT0 (PowerKit.devices Sample.oneBattery) = true
  /\ PowerKit.find (defs := Sample.def_h) Sample.mainsBus = []
  /\ occurrences (Is.DeviceWasAdded Sample.BAT0)
       (trace (PowerKit.deviceAdded (defs := Sample.def_h)
                 Sample.BAT0 Sample.mainsBus Sample.oneBattery))
     = 1.
Proof.
  pose proof (deviceAdded_announces_every_notification (defs := Sample.def_h)
                Sample.mainsBus Sample.oneBattery Sample.BAT0
                eq_refl eq_refl) as (_ & once & _).
  split; [reflexivity|]. split; [reflexivity|]. exact once.
Defined.

(** ** The inhibitor tables *)

Section Inhibitors.
Context {defs : Defs}.

Lemma quint32_sameKey_eqb (a b : quint32) : QMap.sameKey a b = N.eqb a b.
Proof.
  destruct (N.eqb_spec a b) as [->|N].
  - apply QMapFacts.sameKey_refl.
  - now apply QMapFacts.sameKey_neq.
Qed.

(** Taking a key out of a table, whether it is there or not. *)
Lemma value_remove (m : list (quint32 * QString)) (cookie c : quint32) :
  QMap.sorted m = true ->
  QMap.value c (QMap.remove cookie m)
  = if N.eqb c cookie then None else QMap.value c m.
Proof.
  intros S. destruct (N.eqb_spec c cookie) as [->|N].
  - now apply QMapFacts.value_remove_same.
  - apply QMapFacts.value_remove_other. now apply QMapFacts.sameKey_neq.
Qed.

Lemma value_absent (m : list (quint32 * QString)) (cookie c : quint32) :
  QMap.contains cookie m = false ->
  QMap.value c m = if N.eqb c cookie then None else QMap.value c m.
Proof.
  unfold QMap.contains. intros A.
  destruct (N.eqb_spec c cookie) as [->|N]; [|reflexivity].
  now destruct (QMap.value cookie m).
Qed.

(** C9.  For each of the two tables and every cookie: [NewInhibit] writes
    the application under the cookie whether or not the cookie is there, so
    a second registration under one cookie replaces the first; it leaves all
    other cookies and the other table alone.  [DelInhibit] of a cookie that
    is not in the table changes nothing and emits nothing; in any case the
    cookie is not in the table afterwards and all other cookies and the
    other table are as before.  Neither can fail. *)
Theorem inhibit_upserts_and_uninhibit_ignores_absent :
  forall bus s application reason cookie,
    QMap.sorted (PowerKit.ssInhibitors s) = true ->
    QMap.sorted (PowerKit.pmInhibitors s) = true ->
    let ssNew := after (PowerKit.handleNewInhibitScreenSaver application reason cookie bus s) in
    let pmNew := after (PowerKit.handleNewInhibitPowerManagement application reason cookie bus s) in
    let ssDel := PowerKit.handleDelInhibitScreenSaver cookie bus s in
    let pmDel := PowerKit.handleDelInhibitPowerManagement cookie bus s in
    (forall c, QMap.value c (PowerKit.ssInhibitors ssNew)
               = if N.eqb c cookie then Some application
                 else QMap.value c (PowerKit.ssInhibitors s))
    /\ PowerKit.pmInhibitors ssNew = PowerKit.pmInhibitors s
    /\ (forall c, QMap.value c (PowerKit.pmInhibitors pmNew)
                  = if N.eqb c cookie then Some application
                    else QMap.value c (PowerKit.pmInhibitors s))
    /\ PowerKit.ssInhibitors pmNew = PowerKit.ssInhibitors s
    /\ (forall c, QMap.value c (PowerKit.ssInhibitors (after ssDel))
                  = if N.eqb c cookie then None
                    else QMap.value c (PowerKit.ssInhibitors s))
    /\ PowerKit.pmInhibitors (after ssDel) = PowerKit.pmInhibitors s
    /\ (forall c, QMap.value c (PowerKit.pmInhibitors (after pmDel))
                  = if N.eqb c cookie then None
                    else QMap.value c (PowerKit.pmInhibitors s))
    /\ PowerKit.ssInhibitors (after pmDel) = PowerKit.ssInhibitors s
    /\ (if QMap.contains cookie (PowerKit.ssInhibitors s) then True
        else after ssDel = s /\ trace ssDel = [])
    /\ (if QMap.contains cookie (PowerKit.pmInhibitors s) then True
        else after pmDel = s /\ trace pmDel = []).
Proof.
  intros bus s application reason cookie Sss Spm ssNew pmNew ssDel pmDel.
  subst ssNew pmNew ssDel pmDel.
  unfold PowerKit.handleDelInhibitScreenSaver, PowerKit.handleDelInhibitPowerManagement.
  cbn.
  destruct (QMap.contains cookie (PowerKit.ssInhibitors s)) eqn:Css;
    destruct (QMap.contains cookie (PowerKit.pmInhibitors s)) eqn:Cpm;
    cbn;
    repeat match goal with
           | |- _ /\ _ => split
           | |- forall c, _ => intros c
           end;
    try reflexivity; try exact I;
    try (rewrite QMapFacts.value_insert, quint32_sameKey_eqb; reflexivity);
    try (now apply value_remove);
    try (now apply value_absent).
Qed.

(** The tables stay in key order. *)
Lemma inhibitors_stay_sorted bus s application reason cookie :
  QMap.sorted (PowerKit.ssInhibitors s) = true ->
  QMap.sorted (PowerKit.ssInhibitors
     (after (PowerKit.handleNewInhibitScreenSaver application reason cookie bus s))) = true
  /\ QMap.sorted (PowerKit.ssInhibitors
     (after (PowerKit.handleDelInhibitScreenSaver cookie bus s))) = true.
Proof.
  intros S. split.
  - cbn. now apply QMapFacts.sorted_insert.
  - unfold PowerKit.handleDelInhibitScreenSaver. cbn.
    destruct (QMap.contains cookie (PowerKit.ssInhibitors s)); cbn; [|assumption].
    now apply QMapFacts.sorted_remove.
Qed.

End Inhibitors.

(** C9 at work: cookie 7 is registered by "app"; "other" registers under
    the same cookie and replaces it; removing cookie 999, which is absent,
    changes nothing; removing cookie 7 empties the list. *)
Lemma inhibit_upserts_and_uninhibit_ignores_absent_witness :
  QMap.value 7%N
    (PowerKit.ssInhibitors
       (after (PowerKit.handleNewInhibitScreenSaver "other"%string "reason"%string 7%N
                 Sample.deadBus Sample.oneInhibitor)))
  = Some "other"%string
  /\ PowerKit.ScreenSaverInhibitors
       (after (PowerKit.handleNewInhibitScreenSaver "other"%string "reason"%string 7%N
                 Sample.deadBus Sample.oneInhibitor))
     = ["other"%string]
  /\ after (PowerKit.handleDelInhibitScreenSaver 999%N Sample.deadBus Sample.oneInhibitor)
     = Sample.oneInhibitor
  /\ PowerKit.ScreenSaverInhibitors
       (after (PowerKit.handleDelInhibitScreenSaver 7%N Sample.deadBus Sample.oneInhibitor))
     = [].
Proof.
  pose proof (inhibit_upserts_and_uninhibit_ignores_absent
                Sample.deadBus Sample.oneInhibitor "other"%string "reason"%string 7%N
                eq_refl eq_refl) as (upsert & _).
  pose proof (inhibit_upserts_and_uninhibit_ignores_absent
                Sample.deadBus Sample.oneInhibitor "other"%string "reason"%string 999%N
                eq_refl eq_refl) as (_ & _ & _ & _ & _ & _ & _ & _ & absent & _).
  split; [exact (upsert 7%N)|]. split; [reflexivity|].
  split; [exact (proj1 absent)|]. reflexivity.
Defined.

(** ** Invariants of the members *)

Section Lifetime.
Context {defs : Defs}.

Lemma ledgerKept_refl s : ledgerKept s s.
Proof. repeat split. Qed.

Lemma ledgerKept_trans s1 s2 s3 :
  ledgerKept s1 s2 -> ledgerKept s2 s3 -> ledgerKept s1 s3.
Proof.
  intros (A1 & A2 & A3) (B1 & B2 & B3). repeat split; congruence.
Qed.

Lemma handleDeviceChanged_ledger p bus s :
  ledgerKept s (after (PowerKit.handleDeviceChanged p bus s)).
Proof.
  unfold PowerKit.handleDeviceChanged. destruct (isEmpty p).
  - apply ledgerKept_refl.
  - rewrite PowerKit_deviceChanged_after. repeat split.
Qed.

Lemma UpdateDevices_loop_ledger entries :
  forall bus s, ledgerKept s (after (PowerKit.UpdateDevices_loop entries bus s)).
Proof.
  induction entries as [|[k d] rest IH]; intros bus s;
    cbn [PowerKit.UpdateDevices_loop]; [apply ledgerKept_refl|].
  rewrite !bind_after. cbn [ret after].
  eapply ledgerKept_trans; [|apply IH].
  rewrite Device_update_after. apply handleDeviceChanged_ledger.
Qed.

Lemma UpdateDevices_ledger bus s :
  ledgerKept s (after (PowerKit.UpdateDevices bus s)).
Proof.
  unfold PowerKit.UpdateDevices. rewrite !bind_after.
  cbn [get PowerKit.modify result after].
  destruct (UpdateDevices_loop_ledger (PowerKit.devices s) bus s) as (A & B & C).
  repeat split; assumption.
Qed.

Lemma scanStep_ledger bus f s : ledgerKept s (scanStep bus f s).
Proof.
  unfold scanStep. destruct (QMap.contains f (PowerKit.devices s)); repeat split.
Qed.

Lemma scan_loop_ledger found :
  forall bus s, ledgerKept s (after (PowerKit.scan_loop found bus s)).
Proof.
  induction found as [|f rest IH]; intros bus s; [apply ledgerKept_refl|].
  destruct (scan_loop_cons f rest bus s) as [-> _].
  eapply ledgerKept_trans; [apply scanStep_ledger | apply IH].
Qed.

Lemma scan_ledger bus s : ledgerKept s (after (PowerKit.scan bus s)).
Proof.
  unfold PowerKit.scan. rewrite !bind_after. cbn [ask PowerKit.emit tell result after].
  eapply ledgerKept_trans; [apply scan_loop_ledger | apply UpdateDevices_ledger].
Qed.

Lemma deviceAdded_after bus s p :
  after (PowerKit.deviceAdded p bus s)
  = if upower_isValid bus && negb (startsWith p DBUS_JOBS_arg_UPOWER_PATH)
    then after (PowerKit.scan bus s) else s.
Proof.
  unfold PowerKit.deviceAdded, bind, ask, PowerKit.emit, tell.
  destruct (upower_isValid bus); cbn [negb andb]; [|reflexivity].
  destruct (startsWith p DBUS_JOBS_arg_UPOWER_PATH); cbn [negb]; [reflexivity|].
  now destruct (PowerKit.scan bus s).
Qed.

Lemma deviceRemoved_after bus s p :
  after (PowerKit.deviceRemoved p bus s) = s
  \/ after (PowerKit.deviceRemoved p bus s) = after (PowerKit.scan bus s)
  \/ after (PowerKit.deviceRemoved p bus s)
     = after (PowerKit.scan bus
                (PowerKit.set_devices (QMap.remove p (PowerKit.devices s)) s)).
Proof.
  destruct (upower_isValid bus) eqn:V.
  2:{ left. unfold PowerKit.deviceRemoved, bind, ask. now rewrite V. }
  destruct (startsWith p DBUS_JOBS_arg_UPOWER_PATH) eqn:J.
  1:{ left. unfold PowerKit.deviceRemoved, bind, ask, get. rewrite V. cbn [negb].
      now rewrite J. }
  rewrite (deviceRemoved_cases bus s p V J).
  destruct (QMap.contains p (PowerKit.devices s)).
  - destruct (existsb (String.eqb p) (PowerKit.find bus)); [now left|].
    right. right. reflexivity.
  - right. left. reflexivity.
Qed.

Lemma UpdateBattery_after bus s :
  after (PowerKit.UpdateBattery bus s)
  = PowerKit.set_devices
      (QMap.mapValues (PowerKit.UpdateBattery_body bus) (PowerKit.devices s)) s.
Proof. reflexivity. Qed.

Lemma aggregate_after bus s :
  after (PowerKit.BatteryLeft bus s)
    = (if PowerKit.OnBattery bus then after (PowerKit.UpdateBattery bus s) else s)
  /\ after (PowerKit.TimeToEmpty bus s)
    = (if PowerKit.OnBattery bus then after (PowerKit.UpdateBattery bus s) else s)
  /\ after (PowerKit.TimeToFull bus s)
    = (if PowerKit.OnBattery bus then after (PowerKit.UpdateBattery bus s) else s).
Proof.
  unfold PowerKit.BatteryLeft, PowerKit.TimeToEmpty, PowerKit.TimeToFull.
  rewrite !bind_after. cbn [ask get ret result after when].
  destruct (PowerKit.OnBattery bus); repeat split.
Qed.

Lemma act_after c bus s : after (Spec.act c bus s) = s.
Proof.
  destruct c; cbn [Spec.act];
    unfold PowerKit.Restart, PowerKit.PowerOff, PowerKit.Suspend,
           PowerKit.Hibernate, PowerKit.HybridSleep,
           PowerKit.HasLogind, PowerKit.HasConsoleKit, PowerKit.HasUPower,
           PowerKit.availableService;
    run;
    destruct (interface_isValid bus PKLogind) eqn:L; run; try reflexivity;
    destruct (interface_isValid bus PKConsoleKit) eqn:C; run; try reflexivity;
    destruct (interface_isValid bus PKUPower) eqn:U; run; reflexivity.
Qed.

Lemma mapsSorted_iff s :
  mapsSorted s = true
  <-> QMap.sorted (PowerKit.devices s) = true
      /\ QMap.sorted (PowerKit.ssInhibitors s) = true
      /\ QMap.sorted (PowerKit.pmInhibitors s) = true.
Proof.
  unfold mapsSorted. rewrite !andb_true_iff. tauto.
Qed.

Lemma mapsSorted_ledger s s' :
  ledgerKept s s' ->
  QMap.sorted (PowerKit.devices s') = true ->
  mapsSorted s = true ->
  mapsSorted s' = true /\ PowerKit.wasDocked s' = PowerKit.wasDocked s.
Proof.
  intros (A & B & C) D S. apply mapsSorted_iff in S. destruct S as (_ & S2 & S3).
  split; [|assumption]. apply mapsSorted_iff. rewrite A, B. auto.
Qed.

Lemma scan_invariant bus s :
  mapsSorted s = true ->
  mapsSorted (after (PowerKit.scan bus s)) = true
  /\ PowerKit.wasDocked (after (PowerKit.scan bus s)) = PowerKit.wasDocked s.
Proof.
  intros S. apply mapsSorted_ledger; [apply scan_ledger | | assumption].
  apply scan_sorted. now apply mapsSorted_iff in S.
Qed.

(** No call breaks the key order of a map, and no call writes [wasDocked]. *)
Lemma membersAfter_invariant c bus s :
  mapsSorted s = true ->
  mapsSorted (membersAfter c bus s) = true
  /\ PowerKit.wasDocked (membersAfter c bus s) = PowerKit.wasDocked s.
Proof.
  intros S. pose proof S as S'. apply mapsSorted_iff in S'.
  destruct S' as (Sd & Sss & Spm).
  destruct c; cbn [membersAfter].
  - now apply scan_invariant.
  - rewrite deviceAdded_after.
    destruct (upower_isValid bus && negb (startsWith p DBUS_JOBS_arg_UPOWER_PATH));
      [now apply scan_invariant | now split].
  - destruct (deviceRemoved_after bus s p) as [-> | [-> | ->]].
    + now split.
    + now apply scan_invariant.
    + assert (R : mapsSorted
                    (PowerKit.set_devices (QMap.remove p (PowerKit.devices s)) s) = true).
      { apply mapsSorted_iff. cbn. repeat split; try assumption.
        now apply QMapFacts.sorted_remove. }
      destruct (scan_invariant bus _ R) as [A B]. split; [assumption|].
      rewrite B. reflexivity.
  - rewrite PowerKit_deviceChanged_after. split; [|reflexivity].
    apply mapsSorted_iff. cbn. auto.
  - apply mapsSorted_ledger; [apply handleDeviceChanged_ledger | | assumption].
    now rewrite handleDeviceChanged_devices.
  - cbn. split; [|reflexivity]. apply mapsSorted_iff. cbn.
    repeat split; try assumption. now apply QMapFacts.sorted_insert.
  - cbn. split; [|reflexivity]. apply mapsSorted_iff. cbn.
    repeat split; try assumption. now apply QMapFacts.sorted_insert.
  - unfold PowerKit.handleDelInhibitScreenSaver. cbn.
    destruct (QMap.contains cookie (PowerKit.ssInhibitors s)); cbn; [|now split].
    split; [|reflexivity]. apply mapsSorted_iff. cbn.
    repeat split; try assumption. now apply QMapFacts.sorted_remove.
  - unfold PowerKit.handleDelInhibitPowerManagement. cbn.
    destruct (QMap.contains cookie (PowerKit.pmInhibitors s)); cbn; [|now split].
    split; [|reflexivity]. apply mapsSorted_iff. cbn.
    repeat split; try assumption. now apply QMapFacts.sorted_remove.
  - destruct (aggregate_after bus s) as (-> & _ & _).
    destruct (PowerKit.OnBattery bus); [|now split].
    rewrite UpdateBattery_after. split; [|reflexivity]. apply mapsSorted_iff. cbn.
    rewrite QMapFacts.sorted_mapValues. auto.
  - destruct (aggregate_after bus s) as (_ & -> & _).
    destruct (PowerKit.OnBattery bus); [|now split].
    rewrite UpdateBattery_after. split; [|reflexivity]. apply mapsSorted_iff. cbn.
    rewrite QMapFacts.sorted_mapValues. auto.
  - destruct (aggregate_after bus s) as (_ & _ & ->).
    destruct (PowerKit.OnBattery bus); [|now split].
    rewrite UpdateBattery_after. split; [|reflexivity]. apply mapsSorted_iff. cbn.
    rewrite QMapFacts.sorted_mapValues. auto.
  - apply mapsSorted_ledger; [apply UpdateDevices_ledger | | assumption].
    now rewrite UpdateDevices_devices, QMapFacts.sorted_mapValues.
  - rewrite UpdateBattery_after. split; [|reflexivity]. apply mapsSorted_iff. cbn.
    rewrite QMapFacts.sorted_mapValues. auto.
  - rewrite act_after. now split.
Qed.

(** Whatever the history of calls since construction, the maps are in key
    order and [wasDocked] is still [false]. *)
Lemma history_invariant (history : list (Call * Bus)) :
  forall s,
    mapsSorted s = true ->
    mapsSorted (membersAfterAll history s) = true
    /\ PowerKit.wasDocked (membersAfterAll history s) = PowerKit.wasDocked s.
Proof.
  induction history as [|[c bus] rest IH]; intros s S; cbn [membersAfterAll].
  - now split.
  - destruct (membersAfter_invariant c bus s S) as [S1 D1].
    destruct (IH _ S1) as [S2 D2]. split; [assumption | congruence].
Qed.

Lemma constructed_invariant (history : list (Call * Bus)) :
  mapsSorted (membersAfterAll history PowerKit.initial) = true
  /\ PowerKit.wasDocked (membersAfterAll history PowerKit.initial) = false.
Proof.
  apply (history_invariant history PowerKit.initial). reflexivity.
Qed.

End Lifetime.

(** ** The level caches over the lifetime of the object *)

(** C6, as amended.  After every [deviceChanged()] call [wasLidClosed] and
    [wasOnBattery] hold the values observed during the call, whether or not
    an edge event fired; [wasDocked] is left as it was.  This holds of both
    classes.  In [PowerKit] no call writes [wasDocked] at all: it is [false]
    after every history of calls since construction. *)
Theorem deviceChanged_refreshes_lid_and_battery_caches :
  forall (defs : Defs) bus,
    (forall s,
        PowerKit.wasLidClosed (after (PowerKit.deviceChanged bus s)) = PowerKit.LidIsClosed bus
        /\ PowerKit.wasOnBattery (after (PowerKit.deviceChanged bus s)) = PowerKit.OnBattery bus
        /\ PowerKit.wasDocked (after (PowerKit.deviceChanged bus s)) = PowerKit.wasDocked s)
    /\ (forall s,
        Power.wasLidClosed (after (Power.deviceChanged bus s)) = Power.lidIsClosed bus
        /\ Power.wasOnBattery (after (Power.deviceChanged bus s)) = Power.onBattery bus
        /\ Power.wasDocked (after (Power.deviceChanged bus s)) = Power.wasDocked s)
    /\ (forall history,
        PowerKit.wasDocked (membersAfterAll history PowerKit.initial) = false).
Proof.
  intros defs bus. split; [|split].
  - intros s. rewrite PowerKit_deviceChanged_after. repeat split.
  - intros s. rewrite Power_deviceChanged_after. repeat split.
  - intros history. apply constructed_invariant.
Qed.

(** C6, as stated, fails.  On a docked machine ([IsDocked()] answers true)
    a [deviceChanged()] call on the freshly constructed object leaves
    [wasDocked] at [false]: that cache does not hold the value observed. *)
Lemma deviceChanged_wasDocked_stale :
  PowerKit.IsDocked (defs := Sample.def_h) Sample.dockedBus = true
  /\ PowerKit.wasDocked
       (after (PowerKit.deviceChanged (defs := Sample.def_h) Sample.dockedBus PowerKit.initial))
     = false
  /\ PowerKit.wasDocked
       (after (PowerKit.deviceChanged (defs := Sample.def_h) Sample.dockedBus PowerKit.initial))
     <> PowerKit.IsDocked (defs := Sample.def_h) Sample.dockedBus.
Proof.
  repeat split; try reflexivity.
  vm_compute. discriminate.
Qed.

(** * Further properties of the code *)

(** ** The registry: notifications and scans *)

Section RegistryMore.
Context {defs : Defs}.

Lemma existsb_eqb_In (k : QString) (l : list QString) :
  existsb (String.eqb k) l = true <-> In k l.
Proof.
  rewrite existsb_exists. split.
  - intros (x & I & E). apply String.eqb_eq in E. now subst.
  - intros I. exists k. split; [assumption | apply String.eqb_refl].
Qed.

Lemma scan_contains bus s k :
  QMap.contains k (PowerKit.devices (after (PowerKit.scan bus s)))
  = QMap.contains k (PowerKit.devices s) || existsb (String.eqb k) (PowerKit.find bus).
Proof.
  unfold QMap.contains. rewrite scan_value. unfold afterScanLoop.
  destruct (QMap.value k (PowerKit.devices s)); [reflexivity|].
  now destruct (existsb (String.eqb k) (PowerKit.find bus)).
Qed.

Lemma scanStep_tracked bus f s :
  QMap.contains f (PowerKit.devices s) = true -> scanStep bus f s = s.
Proof. intros C. unfold scanStep. now rewrite C. Qed.

Lemma scan_loop_all_tracked found :
  forall bus s,
    (forall p, In p found -> QMap.contains p (PowerKit.devices s) = true) ->
    after (PowerKit.scan_loop found bus s) = s.
Proof.
  induction found as [|f rest IH]; intros bus s T; [reflexivity|].
  destruct (scan_loop_cons f rest bus s) as [-> _].
  rewrite scanStep_tracked by (apply T; now left).
  apply IH. intros p I. apply T. now right.
Qed.

Lemma keys_mapValues {K V W : Type} (f : V -> W) (m : list (K * V)) :
  QMap.keys (QMap.mapValues f m) = QMap.keys m.
Proof.
  unfold QMap.keys, QMap.mapValues. rewrite map_map. reflexivity.
Qed.

(** X1.  A [deviceAdded] or [deviceRemoved] notification that arrives while
    the [upower] handle is invalid, or whose path lies under the jobs
    prefix, is dropped whole: the members stay as they are and nothing is
    emitted.  This holds of [PowerKit] and of [Power]. *)
Theorem filtered_notification_does_nothing :
  forall bus p UP_PATH,
    (upower_isValid bus = false
     \/ (startsWith p DBUS_JOBS_arg_UPOWER_PATH = true
         /\ startsWith p (Power.jobsPath UP_PATH) = true)) ->
    (forall s,
        after (PowerKit.deviceAdded p bus s) = s
        /\ trace (PowerKit.deviceAdded p bus s) = []
        /\ after (PowerKit.deviceRemoved p bus s) = s
        /\ trace (PowerKit.deviceRemoved p bus s) = [])
    /\ (forall s,
        after (Power.deviceAdded UP_PATH p bus s) = s
        /\ trace (Power.deviceAdded UP_PATH p bus s) = []
        /\ after (Power.deviceRemoved UP_PATH p bus s) = s
        /\ trace (Power.deviceRemoved UP_PATH p bus s) = []).
Proof.
  intros bus p UP_PATH [V | [J J']]; split; intros s;
    unfold PowerKit.deviceAdded, PowerKit.deviceRemoved,
           Power.deviceAdded, Power.deviceRemoved;
    run; repeat split; try reflexivity;
    destruct (upower_isValid bus); run; reflexivity.
Qed.

(** X2.  An admitted [deviceAdded(path)] uses its path for the announcement
    only: the members it leaves are those a [scan()] leaves, the same for
    every admitted path, and an id is tracked afterwards exactly when it was
    tracked before or the backend lists it. *)
Theorem deviceAdded_tracks_what_the_backend_lists :
  forall bus s p q,
    upower_isValid bus = true ->
    startsWith p DBUS_JOBS_arg_UPOWER_PATH = false ->
    startsWith q DBUS_JOBS_arg_UPOWER_PATH = false ->
    after (PowerKit.deviceAdded p bus s) = after (PowerKit.scan bus s)
    /\ after (PowerKit.deviceAdded p bus s) = after (PowerKit.deviceAdded q bus s)
    /\ forall k,
        QMap.contains k (PowerKit.devices (after (PowerKit.deviceAdded p bus s)))
        = QMap.contains k (PowerKit.devices s)
          || existsb (String.eqb k) (PowerKit.find bus).
Proof.
  intros bus s p q V Jp Jq. rewrite !deviceAdded_after, V, Jp, Jq. cbn [negb andb].
  repeat split. intros k. apply scan_contains.
Qed.

(** X3.  After [scan()] every id the backend lists is tracked and every id
    tracked before still is; a second [scan()] on the same bus tracks the
    same ids, in the same order, as the first. *)
Theorem scan_tracks_all_listed_and_settles :
  forall bus s,
    (forall p, In p (PowerKit.find bus) ->
               QMap.contains p (PowerKit.devices (after (PowerKit.scan bus s))) = true)
    /\ (forall k, QMap.contains k (PowerKit.devices s) = true ->
                  QMap.contains k (PowerKit.devices (after (PowerKit.scan bus s))) = true)
    /\ QMap.keys (PowerKit.devices (after (PowerKit.scan bus (after (PowerKit.scan bus s)))))
       = QMap.keys (PowerKit.devices (after (PowerKit.scan bus s))).
Proof.
  intros bus s.
  assert (L : forall p, In p (PowerKit.find bus) ->
                QMap.contains p (PowerKit.devices (after (PowerKit.scan bus s))) = true).
  { intros p I. rewrite scan_contains. apply existsb_eqb_In in I. rewrite I.
    apply orb_true_r. }
  split; [exact L|]. split.
  - intros k C. rewrite scan_contains, C. reflexivity.
  - rewrite (scan_devices bus (after (PowerKit.scan bus s))).
    rewrite scan_loop_all_tracked by exact L.
    apply keys_mapValues.
Qed.

(** X4.  [scan()] ends with [UpdatedDevices], whether or not anything
    changed; every signal it emits before that is one of the level tracker
    (they come from the Device updates of [UpdateDevices()]); it announces
    no added and no removed device. *)
Theorem scan_always_ends_with_UpdatedDevices :
  forall bus s,
    (exists t,
        trace (PowerKit.scan bus s) = t ++ [PowerKit.Emit PowerKit.UpdatedDevices]
        /\ forallb isTrackerEvent t = true)
    /\ occurrences Is.DeviceWasRemoved (trace (PowerKit.scan bus s)) = 0
    /\ (forall p, occurrences (Is.DeviceWasAdded p) (trace (PowerKit.scan bus s)) = 0).
Proof.
  intros bus s. split; [apply scan_trace|]. split.
  - apply occurrences_tracker_events;
      [apply DeviceWasRemoved_not_tracker_event | apply scan_tracker_events].
  - intros p. apply occurrences_tracker_events;
      [apply DeviceWasAdded_not_tracker_event | apply scan_tracker_events].
Qed.

End RegistryMore.

(** X1 at work: the [upower] handle is invalid. *)
Lemma filtered_notification_does_nothing_witness :
  after (PowerKit.deviceRemoved (defs := Sample.def_h) Sample.BAT0 Sample.deadBus Sample.oneBattery)
  = Sample.oneBattery
  /\ trace (PowerKit.deviceAdded (defs := Sample.def_h) Sample.BAT0 Sample.deadBus Sample.oneBattery)
     = [].
Proof.
  pose proof (filtered_notification_does_nothing (defs := Sample.def_h)
                Sample.deadBus Sample.BAT0 "/org/freedesktop/UPower"%string
                (or_introl eq_refl)) as [kit _].
  destruct (kit Sample.oneBattery) as (_ & added & removed & _).
  split; [exact removed | exact added].
Defined.

(** X2 at work: BAT0 is tracked, the backend lists BAT0 and BAT1; the
    notification is for BAT0 and BAT1 is tracked afterwards. *)
Lemma deviceAdded_tracks_what_the_backend_lists_witness :
  QMap.contains Sample.BAT1
    (PowerKit.devices
       (after (PowerKit.deviceAdded (defs := Sample.def_h)
                 Sample.BAT0 Sample.twoListedBus Sample.oneBattery)))
  = true.
Proof.
  pose proof (deviceAdded_tracks_what_the_backend_lists (defs := Sample.def_h)
                Sample.twoListedBus Sample.oneBattery Sample.BAT0 Sample.BAT1
                eq_refl eq_refl eq_refl) as (_ & _ & tracked).
  exact (tracked Sample.BAT1).
Defined.

(** ** QMap: writing a key and taking it out again *)

Section QMapRoundTrip.
Context {K V : Type} `{LessThanLaws K}.

Lemma remove_insert_absent (k : K) (v : V) (m : list (K * V)) :
  QMap.contains k m = false -> QMap.remove k (QMap.insert k v m) = m.
Proof.
  unfold QMap.contains.
  induction m as [|[k0 v0] m IH]; simpl.
  - intros _. now rewrite QMapFacts.sameKey_refl.
  - destruct (QMap.sameKey k k0) eqn:S0; [discriminate|]. intros A.
    destruct (lessThan k k0) eqn:L1; simpl.
    + now rewrite QMapFacts.sameKey_refl.
    + destruct (lessThan k0 k) eqn:L2; simpl.
      * rewrite S0. now rewrite IH.
      * unfold QMap.sameKey in S0. rewrite L1, L2 in S0. discriminate S0.
Qed.

Lemma insert_lists_value (k : K) (v : V) (m : list (K * V)) :
  In v (map snd (QMap.insert k v m)).
Proof.
  induction m as [|[k0 v0] m IH]; simpl; [now left|].
  destruct (lessThan k k0); simpl; [now left|].
  destruct (lessThan k0 k); simpl; [now right | now left].
Qed.

End QMapRoundTrip.

(** ** Inhibitors: registering and listing *)

Section InhibitorsMore.
Context {defs : Defs}.

(** X5.  The application registered by [NewInhibit] is in the list that
    [ScreenSaverInhibitors()], resp. [PowerManagementInhibitors()], returns
    right after, whether the cookie was new or overwritten, and a
    [DelInhibit] of that cookie then emits [UpdatedInhibitors] once.  When
    the cookie was not in the table written, [NewInhibit] followed by
    [DelInhibit] gives back the members as they were; the other table plays
    no part. *)
Theorem inhibit_is_listed_and_uninhibit_undoes_it :
  forall bus bus' s application reason cookie,
    let ss := after (PowerKit.handleNewInhibitScreenSaver application reason cookie bus s) in
    let pm := after (PowerKit.handleNewInhibitPowerManagement application reason cookie bus s) in
    In application (PowerKit.ScreenSaverInhibitors ss)
    /\ In application (PowerKit.PowerManagementInhibitors pm)
    /\ trace (PowerKit.handleDelInhibitScreenSaver cookie bus' ss)
       = [PowerKit.Emit PowerKit.UpdatedInhibitors]
    /\ trace (PowerKit.handleDelInhibitPowerManagement cookie bus' pm)
       = [PowerKit.Emit PowerKit.UpdatedInhibitors]
    /\ (QMap.contains cookie (PowerKit.ssInhibitors s) = false ->
        after (PowerKit.handleDelInhibitScreenSaver cookie bus' ss) = s)
    /\ (QMap.contains cookie (PowerKit.pmInhibitors s) = false ->
        after (PowerKit.handleDelInhibitPowerManagement cookie bus' pm) = s).
Proof.
  intros bus bus' s application reason cookie ss pm. subst ss pm.
  unfold PowerKit.handleDelInhibitScreenSaver, PowerKit.handleDelInhibitPowerManagement,
         PowerKit.ScreenSaverInhibitors, PowerKit.PowerManagementInhibitors.
  cbn.
  rewrite !QMapFacts.contains_insert, !QMapFacts.sameKey_refl. cbn.
  destruct s as [devs docked lid bat ssT pmT]. cbn.
  split; [apply insert_lists_value|]. split; [apply insert_lists_value|].
  split; [reflexivity|]. split; [reflexivity|].
  split; intros A; now rewrite remove_insert_absent.
Qed.

End InhibitorsMore.

(** X5 at work: cookie 9 is not in the table that holds cookie 7, and
    cookie 7 is overwritten. *)
Lemma inhibit_is_listed_and_uninhibit_undoes_it_witness :
  after (PowerKit.handleDelInhibitScreenSaver 9%N Sample.mainsBus
           (after (PowerKit.handleNewInhibitScreenSaver "player"%string "film"%string 9%N
                     Sample.deadBus Sample.oneInhibitor)))
  = Sample.oneInhibitor
  /\ In "player"%string
       (PowerKit.ScreenSaverInhibitors
          (after (PowerKit.handleNewInhibitScreenSaver "player"%string "film"%string 7%N
                    Sample.deadBus Sample.oneInhibitor))).
Proof.
  pose proof (inhibit_is_listed_and_uninhibit_undoes_it
                Sample.deadBus Sample.mainsBus Sample.oneInhibitor
                "player"%string "film"%string 9%N)
    as (_ & _ & _ & _ & undone & _).
  pose proof (inhibit_is_listed_and_uninhibit_undoes_it
                Sample.deadBus Sample.mainsBus Sample.oneInhibitor
                "player"%string "film"%string 7%N)
    as (listed & _).
  split; [exact (undone eq_refl) | exact listed].
Defined.

(** ** The level tracker: settling, and the loss of the handle *)

Section TrackerMore.
Context {defs : Defs}.

(** X6.  A second [deviceChanged()] on the same bus changes nothing and
    emits [UpdatedDevices] alone: the tracker settles after one call.  This
    holds of both classes. *)
Theorem deviceChanged_settles_after_one_call :
  forall bus,
    (forall s,
        after (PowerKit.deviceChanged bus (after (PowerKit.deviceChanged bus s)))
        = after (PowerKit.deviceChanged bus s)
        /\ trace (PowerKit.deviceChanged bus (after (PowerKit.deviceChanged bus s)))
           = [PowerKit.Emit PowerKit.UpdatedDevices])
    /\ (forall s,
        after (Power.deviceChanged bus (after (Power.deviceChanged bus s)))
        = after (Power.deviceChanged bus s)
        /\ trace (Power.deviceChanged bus (after (Power.deviceChanged bus s)))
           = [Power.Emit Power.updatedDevices]).
Proof.
  intros bus. split; intros s.
  - rewrite PowerKit_deviceChanged_trace, !PowerKit_deviceChanged_after.
    cbn. unfold Spec.edge.
    destruct (PowerKit.LidIsClosed bus), (PowerKit.OnBattery bus); split; reflexivity.
  - rewrite Power_deviceChanged_trace, !Power_deviceChanged_after.
    cbn. unfold Spec.edge.
    destruct (Power.lidIsClosed bus), (Power.onBattery bus); split; reflexivity.
Qed.

(** X7.  While the [upower] handle is invalid the lid reads as open and the
    supply as AC, whatever the machine does: a [deviceChanged()] then emits
    [LidOpened] if the lid was cached closed and [SwitchedToAC] if the
    supply was cached on battery, and leaves both caches false. *)
Theorem invalid_handle_reads_as_open_lid_on_AC :
  forall bus s,
    upower_isValid bus = false ->
    PowerKit.LidIsPresent bus = false
    /\ PowerKit.LidIsClosed bus = false
    /\ PowerKit.OnBattery bus = false
    /\ trace (PowerKit.deviceChanged bus s)
       = (if PowerKit.wasLidClosed s then [PowerKit.Emit PowerKit.LidOpened] else [])
         ++ (if PowerKit.wasOnBattery s then [PowerKit.Emit PowerKit.SwitchedToAC] else [])
         ++ [PowerKit.Emit PowerKit.UpdatedDevices]
    /\ PowerKit.wasLidClosed (after (PowerKit.deviceChanged bus s)) = false
    /\ PowerKit.wasOnBattery (after (PowerKit.deviceChanged bus s)) = false.
Proof.
  intros bus s V.
  assert (L : PowerKit.LidIsClosed bus = false) by (unfold PowerKit.LidIsClosed; now rewrite V).
  assert (B : PowerKit.OnBattery bus = false) by (unfold PowerKit.OnBattery; now rewrite V).
  split; [unfold PowerKit.LidIsPresent; now rewrite V|].
  split; [exact L|]. split; [exact B|].
  rewrite PowerKit_deviceChanged_trace, PowerKit_deviceChanged_after, L, B.
  unfold Spec.edge.
  destruct (PowerKit.wasLidClosed s), (PowerKit.wasOnBattery s); repeat split.
Qed.

(** X8.  [executeAction] leaves the members alone and makes at most one
    method call.  It makes the call only on a known backend whose interface
    is valid and for a known action, with the one argument [true] unless the
    backend is UPower, and then returns the error message of the reply.
    When it makes no call it returns [PK_NO_BACKEND], [PK_NO_ACTION] or
    [DBUS_FAILED_CONN]. *)
Theorem executeAction_calls_once_or_refuses :
  forall action backend bus s,
    after (PowerKit.executeAction action backend bus s) = s
    /\ ((trace (PowerKit.executeAction action backend bus s) = []
         /\ (result (PowerKit.executeAction action backend bus s) = PK_NO_BACKEND
             \/ result (PowerKit.executeAction action backend bus s) = PK_NO_ACTION
             \/ result (PowerKit.executeAction action backend bus s) = DBUS_FAILED_CONN))
        \/ (exists cmd,
               backend <> PKNoBackend
               /\ PowerKit.actionCommand action = Some cmd
               /\ interface_isValid bus backend = true
               /\ trace (PowerKit.executeAction action backend bus s)
                  = [PowerKit.MethodCall backend cmd
                       (match backend with PKUPower => [] | _ => [true] end)]
               /\ result (PowerKit.executeAction action backend bus s)
                  = errorMessage
                      (call bus backend cmd
                         (match backend with PKUPower => [] | _ => [true] end)))).
Proof.
  intros action backend bus s.
  destruct backend; cbn [PowerKit.executeAction];
    try (split; [reflexivity | left; split; [reflexivity | now left]]);
    (destruct (PowerKit.actionCommand action) as [cmd|] eqn:A;
     [| split; [reflexivity | left; split; [reflexivity | right; now left]]]);
    match goal with
    | |- context [interface_isValid bus ?b] =>
        destruct (interface_isValid bus b) eqn:V
    end; run;
    (split; [reflexivity|]);
    first [ left; split; [reflexivity | right; now right]
          | right; exists cmd; repeat split; try reflexivity; discriminate ].
Qed.

End TrackerMore.

(** X7 at work: the handle is lost with the lid cached closed. *)
Lemma invalid_handle_reads_as_open_lid_on_AC_witness :
  trace (PowerKit.deviceChanged (defs := Sample.def_h) Sample.deadBus
           (PowerKit.set_wasLidClosed true PowerKit.initial))
  = [PowerKit.Emit PowerKit.LidOpened; PowerKit.Emit PowerKit.UpdatedDevices].
Proof.
  pose proof (invalid_handle_reads_as_open_lid_on_AC (defs := Sample.def_h)
                Sample.deadBus (PowerKit.set_wasLidClosed true PowerKit.initial)
                eq_refl) as (_ & _ & _ & events & _).
  exact events.
Defined.

(** ** The aggregates: sums, sweeps, and what they say without a battery *)

Lemma qlonglong_wrap_small (z : Z) :
  (- 2 ^ 63 <= z < 2 ^ 63)%Z -> qlonglong_wrap z = z.
Proof.
  intros R. unfold qlonglong_wrap. rewrite Z.mod_small; lia.
Qed.

Lemma totalOf_nonneg (f : Device -> Z) (entries : list (QString * Device)) :
  (forall e, In e (countedEntries entries) -> 0 <= f (snd e))%Z ->
  (0 <= totalOf f entries)%Z.
Proof.
  unfold totalOf. induction (countedEntries entries) as [|e l IH]; simpl; intros P; [lia|].
  assert (0 <= f (snd e))%Z by (apply P; now left).
  assert (0 <= fold_right (fun e a => (f (snd e) + a)%Z) 0%Z l)%Z
    by (apply IH; intros e' I; apply P; now right).
  lia.
Qed.

Lemma sum_loop_from (f : Device -> Z) (entries : list (QString * Device)) :
  forall acc : Z,
    (0 <= acc)%Z ->
    (forall e, In e (countedEntries entries) -> 0 <= f (snd e))%Z ->
    (acc + totalOf f entries < 2 ^ 63)%Z ->
    fold_left
      (fun acc e =>
         if PowerKit.counted (snd e) then qlonglong_wrap (acc + f (snd e)) else acc)
      entries acc
    = (acc + totalOf f entries)%Z.
Proof.
  induction entries as [|e rest IH]; intros acc A P B.
  - unfold totalOf. simpl. lia.
  - simpl. unfold totalOf, countedEntries in *. simpl in *.
    destruct (PowerKit.counted (snd e)); simpl in *.
    + assert (0 <= f (snd e))%Z by (apply P; now left).
      assert (0 <= totalOf f rest)%Z
        by (apply totalOf_nonneg; intros e' I; apply P; now right).
      unfold totalOf, countedEntries in *.
      rewrite qlonglong_wrap_small by lia.
      rewrite IH; [lia | lia | intros e' I; apply P; now right | lia].
    + now apply IH.
Qed.

Lemma countedEntries_none (entries : list (QString * Device)) :
  (forall e, In e entries -> isBattery (snd e) = false) ->
  countedEntries entries = [].
Proof.
  unfold countedEntries. induction entries as [|e rest IH]; intros N; [reflexivity|].
  simpl. unfold PowerKit.counted at 1. rewrite (N e (or_introl eq_refl)). simpl.
  apply IH. intros e' I. apply N. now right.
Qed.

Section AggregatesMore.
Context {defs : Defs}.

Lemma HasBattery_false_none_counted bus s :
  PowerKit.HasBattery s = false -> countedEntries (devicesRead bus s) = [].
Proof.
  unfold PowerKit.HasBattery. intros H.
  assert (N : forall e, In e (PowerKit.devices s) -> isBattery (snd e) = false).
  { intros e I. destruct (isBattery (snd e)) eqn:B; [|reflexivity].
    assert (X : existsb (fun e => isBattery (snd e)) (PowerKit.devices s) = true)
      by (apply existsb_exists; eauto).
    congruence. }
  apply countedEntries_none. unfold devicesRead.
  destruct (PowerKit.OnBattery bus); [|exact N].
  intros e I. unfold QMap.mapValues in I. apply in_map_iff in I.
  destruct I as (e0 & <- & I0). simpl. unfold PowerKit.UpdateBattery_body.
  now rewrite (N e0 I0), (N e0 I0).
Qed.

(** X9.  When the times of the counted devices are not negative and add up
    to less than 2^63, [TimeToEmpty()] and [TimeToFull()] return their sums
    over the counted devices. *)
Theorem TimeToEmpty_and_TimeToFull_are_sums :
  forall bus s,
    (forall e, In e (countedEntries (devicesRead bus s)) ->
               0 <= timeToEmpty (snd e) /\ 0 <= timeToFull (snd e))%Z ->
    (totalOf timeToEmpty (devicesRead bus s) < 2 ^ 63)%Z ->
    (totalOf timeToFull (devicesRead bus s) < 2 ^ 63)%Z ->
    result (PowerKit.TimeToEmpty bus s) = totalOf timeToEmpty (devicesRead bus s)
    /\ result (PowerKit.TimeToFull bus s) = totalOf timeToFull (devicesRead bus s).
Proof.
  intros bus s P E F. rewrite TimeToEmpty_result, TimeToFull_result.
  unfold PowerKit.TimeToEmpty_loop, PowerKit.TimeToFull_loop. split.
  - rewrite (sum_loop_from timeToEmpty); [lia | lia | | lia].
    intros e I. now apply P.
  - rewrite (sum_loop_from timeToFull); [lia | lia | | lia].
    intros e I. now apply P.
Qed.

(** X10.  When [HasBattery()] is false, [BatteryLeft()] is not a number and
    [TimeToEmpty()] and [TimeToFull()] are 0, on every bus. *)
Theorem without_battery_BatteryLeft_is_nan_and_times_are_zero :
  forall bus s,
    PowerKit.HasBattery s = false ->
    result (PowerKit.BatteryLeft bus s) = PrimFloat.nan
    /\ result (PowerKit.TimeToEmpty bus s) = 0%Z
    /\ result (PowerKit.TimeToFull bus s) = 0%Z.
Proof.
  intros bus s H. pose proof (HasBattery_false_none_counted bus s H) as N.
  split; [now apply BatteryLeft_none_counted|].
  rewrite TimeToEmpty_result, TimeToFull_result.
  unfold PowerKit.TimeToEmpty_loop, PowerKit.TimeToFull_loop.
  rewrite (sum_loop_from timeToEmpty), (sum_loop_from timeToFull);
    unfold totalOf; rewrite ?N; simpl; try lia; intros e [].
Qed.

Lemma query_after_sweeps {A : Type} (q : PowerKit.Handler A) :
  (forall bus s, trace (q bus s) = []) ->
  (forall bus s,
      after (q bus s)
      = if PowerKit.OnBattery bus then after (PowerKit.UpdateBattery bus s) else s) ->
  sweepsBatteriesOnly q.
Proof.
  intros T Aft bus s. rewrite Aft. split; [apply T|].
  destruct (PowerKit.OnBattery bus).
  - rewrite UpdateBattery_after. cbn. split; [discriminate|].
    split; [apply keys_mapValues|]. split.
    + intros k d Vk B. rewrite QMapFacts.value_mapValues, Vk. simpl.
      unfold PowerKit.UpdateBattery_body. now rewrite B.
    + repeat split.
  - split; [reflexivity|]. repeat split. intros k d Vk _. exact Vk.
Qed.

(** X11.  [BatteryLeft()], [TimeToEmpty()] and [TimeToFull()] emit nothing.
    On AC they leave the members as they are.  On battery they sweep the
    tracked batteries and nothing else: the tracked ids, every Device that
    is not a battery, the level caches and the inhibitor tables are as
    before. *)
Theorem battery_queries_sweep_batteries_only :
  sweepsBatteriesOnly PowerKit.BatteryLeft
  /\ sweepsBatteriesOnly PowerKit.TimeToEmpty
  /\ sweepsBatteriesOnly PowerKit.TimeToFull.
Proof.
  repeat apply conj; apply query_after_sweeps;
    try (intros bus s; apply (aggregate_after bus s));
    intros bus s;
    unfold PowerKit.BatteryLeft, PowerKit.TimeToEmpty, PowerKit.TimeToFull;
    rewrite !bind_trace; cbn [ask get ret result after trace when];
    destruct (PowerKit.OnBattery bus); reflexivity.
Qed.

Lemma Power_batteryLeft_from (entries : list (QString * Device)) :
  forall sum : double,
    fold_left
      (fun acc e =>
         if isBattery (snd e) && isPresent (snd e) && negb (isEmpty (nativePath (snd e)))
         then PrimFloat.add acc (percentage (snd e))
         else acc)
      entries sum
    = fold_left PrimFloat.add
        (map (fun e => percentage (snd e)) (countedEntries entries)) sum.
Proof.
  induction entries as [|e rest IH]; intros sum; [reflexivity|].
  simpl. unfold countedEntries. simpl. unfold PowerKit.counted at 1.
  destruct (isBattery (snd e) && isPresent (snd e) && negb (isEmpty (nativePath (snd e))));
    simpl; apply IH.
Qed.

(** X12.  Over the same devices, read as they are (on AC),
    [PowerKit::BatteryLeft()] is [Power::batteryLeft()] divided by the
    number of counted devices: the one is the mean where the other is the
    sum.  (Fewer than 2^31 devices are counted.) *)
Theorem BatteryLeft_is_Power_batteryLeft_over_count :
  forall bus s (man : Power.Members),
    PowerKit.OnBattery bus = false ->
    Power.devices man = PowerKit.devices s ->
    (Z.of_nat (List.length (countedEntries (PowerKit.devices s))) < 2 ^ 31)%Z ->
    result (PowerKit.BatteryLeft bus s)
    = PrimFloat.div (Power.batteryLeft man)
        (double_of_int (Z.of_nat (List.length (countedEntries (PowerKit.devices s))))).
Proof.
  intros bus s man AC D B.
  assert (R : devicesRead bus s = PowerKit.devices s)
    by (unfold devicesRead; now rewrite AC).
  rewrite BatteryLeft_is_mean by (now rewrite R).
  rewrite R. unfold Spec.mean, Power.batteryLeft.
  rewrite D, Power_batteryLeft_from, length_map. reflexivity.
Qed.

End AggregatesMore.

(** X9 at work: two batteries with an hour left each. *)
Lemma TimeToEmpty_and_TimeToFull_are_sums_witness :
  result (PowerKit.TimeToEmpty (defs := Sample.def_h) Sample.mainsBus Sample.twoBatteries)
  = 7200%Z.
Proof.
  assert (P : forall e,
             In e (countedEntries
                     (devicesRead (defs := Sample.def_h) Sample.mainsBus Sample.twoBatteries)) ->
             (0 <= timeToEmpty (snd e) /\ 0 <= timeToFull (snd e))%Z).
  { intros e [<- | [<- | []]]; simpl; lia. }
  pose proof (TimeToEmpty_and_TimeToFull_are_sums (defs := Sample.def_h)
                Sample.mainsBus Sample.twoBatteries P eq_refl eq_refl) as [empty _].
  exact empty.
Defined.

(** X10 at work: a desktop with its line-power device, on a bus that says
    "on battery". *)
Lemma without_battery_BatteryLeft_is_nan_and_times_are_zero_witness :
  PrimFloat.is_nan
    (result (PowerKit.BatteryLeft (defs := Sample.def_h) Sample.dockedBus Sample2.desktop))
  = true.
Proof.
  pose proof (without_battery_BatteryLeft_is_nan_and_times_are_zero (defs := Sample.def_h)
                Sample.dockedBus Sample2.desktop eq_refl) as (nan & _).
  rewrite nan. reflexivity.
Defined.

(** X12 at work: 40% and 60% are 100 for [Power] and 50 for [PowerKit]. *)
Lemma BatteryLeft_is_Power_batteryLeft_over_count_witness :
  Power.batteryLeft Sample2.twoBatteries = 100%float
  /\ result (PowerKit.BatteryLeft (defs := Sample.def_h) Sample.mainsBus Sample.twoBatteries)
     = PrimFloat.div (Power.batteryLeft Sample2.twoBatteries) 2%float.
Proof.
  pose proof (BatteryLeft_is_Power_batteryLeft_over_count (defs := Sample.def_h)
                Sample.mainsBus Sample.twoBatteries Sample2.twoBatteries
                eq_refl eq_refl) as mean.
  split; [reflexivity|]. apply mean. vm_compute. reflexivity.
Defined.

(** ** The constructor, [setup()] and [check()] of PowerKit *)

Section SupervisorFacts.
Context {defs : Defs}.

Lemma filter_Inner (p : Supervisor.Effect -> bool) (t : list PowerKit.Effect) :
  (forall e, p (Supervisor.Inner e) = false) ->
  filter p (map Supervisor.Inner t) = [].
Proof.
  intros P. induction t as [|e t IH]; simpl; [reflexivity|].
  now rewrite P.
Qed.

Lemma Supervisor_scan_quiet system s :
  filter Supervisor.isConnect (trace (Supervisor.scan system s)) = []
  /\ filter Supervisor.isNewInterface (trace (Supervisor.scan system s)) = []
  /\ Supervisor.upower (after (Supervisor.scan system s)) = Supervisor.upower s
  /\ Supervisor.logind (after (Supervisor.scan system s)) = Supervisor.logind s.
Proof.
  unfold Supervisor.scan; cbn [trace after Supervisor.upower Supervisor.logind].
  repeat split; apply filter_Inner; reflexivity.
Qed.

Lemma check_with_handle system s :
  Supervisor.upower s = true ->
  exists o, Supervisor.check system s = Supervisor.Returns o
    /\ filter Supervisor.isConnect (trace o) = []
    /\ filter Supervisor.isNewInterface (trace o) = []
    /\ Supervisor.upower (after o) = true
    /\ Supervisor.logind (after o) = Supervisor.logind s.
Proof.
  intros U. unfold Supervisor.check, Supervisor.setup.
  destruct (Supervisor.isConnected system); cbn [negb].
  - rewrite U.
    destruct (upower_isValid (Supervisor.services system)); cbn [negb].
    + exists (Supervisor.nothing s). cbn. now rewrite U.
    + exists (Supervisor.scan system s).
      destruct (Supervisor_scan_quiet system s) as (A & B & C & D).
      rewrite C, U. auto.
  - exists (Supervisor.nothing s). cbn. now rewrite U.
Qed.

Lemma checks_with_handle history :
  forall s, Supervisor.upower s = true ->
    exists s' t, Supervisor.checks history s = Some (s', t)
      /\ filter Supervisor.isConnect t = []
      /\ filter Supervisor.isNewInterface t = []
      /\ Supervisor.upower s' = true
      /\ Supervisor.logind s' = Supervisor.logind s.
Proof.
  induction history as [|system rest IH]; intros s U.
  - exists s, []. cbn. auto.
  - destruct (check_with_handle system s U) as (o & E & C & N & U' & L').
    destruct (IH (after o) U') as (s' & t & E' & C' & N' & U'' & L'').
    exists s', (trace o ++ t). cbn [Supervisor.checks]. rewrite E, E'.
    rewrite !filter_app, C, N, C', N'. repeat split; try reflexivity; congruence.
Qed.

Lemma checks_app h1 h2 s :
  Supervisor.checks (h1 ++ h2) s
  = match Supervisor.checks h1 s with
    | None => None
    | Some (s1, t1) =>
        match Supervisor.checks h2 s1 with
        | None => None
        | Some (s2, t2) => Some (s2, t1 ++ t2)
        end
    end.
Proof.
  revert s. induction h1 as [|system rest IH]; intros s; cbn [Supervisor.checks app].
  - now destruct (Supervisor.checks h2 s) as [[s2 t2]|].
  - destruct (Supervisor.check system s) as [o|]; [|reflexivity].
    rewrite IH. destruct (Supervisor.checks rest (after o)) as [[s1 t1]|]; [|reflexivity].
    destruct (Supervisor.checks h2 s1) as [[s2 t2]|]; [|reflexivity].
    now rewrite app_assoc.
Qed.

Lemma checks_offline history :
  forall s, Forall (fun system => Supervisor.isConnected system = false) history ->
    Supervisor.checks history s = Some (s, []).
Proof.
  induction history as [|system rest IH]; intros s F; [reflexivity|].
  inversion F as [|? ? D F']; subst.
  cbn [Supervisor.checks]. unfold Supervisor.check, Supervisor.setup.
  rewrite D. cbn [negb Supervisor.nothing after trace].
  now rewrite (IH s F').
Qed.

(** X13.  One call of check(), on any bus and any members.  The call
    makes no system.connect call and allocates no interface, and leaves
    both handles as they were.  On a disconnected bus it does nothing at
    all (the setup() it calls tests the connection again); on a connected
    bus with a valid upower handle it does nothing; on a connected bus
    with an allocated but invalid upower handle it is exactly scan().  The
    only way not to return is a connected bus with the upower handle still
    NULL, where upower->isValid() is called through the NULL pointer. *)
Theorem check_rescans_but_never_resubscribes :
  forall (system : Supervisor.SystemBus) (s : Supervisor.Members),
    match Supervisor.check system s with
    | Supervisor.ThroughNull =>
        Supervisor.isConnected system = true /\ Supervisor.upower s = false
    | Supervisor.Returns o =>
        filter Supervisor.isConnect (trace o) = []
        /\ filter Supervisor.isNewInterface (trace o) = []
        /\ Supervisor.upower (after o) = Supervisor.upower s
        /\ Supervisor.logind (after o) = Supervisor.logind s
        /\ (Supervisor.isConnected system = false
            \/ upower_isValid (Supervisor.services system) = true ->
            after o = s /\ trace o = [])
        /\ (Supervisor.isConnected system = true ->
            upower_isValid (Supervisor.services system) = false ->
            o = Supervisor.scan system s)
    end.
Proof.
  intros system s. unfold Supervisor.check, Supervisor.setup.
  destruct (Supervisor.isConnected system) eqn:C; cbn [negb].
  - destruct (Supervisor.upower s) eqn:U; [|now split].
    destruct (upower_isValid (Supervisor.services system)) eqn:V; cbn [negb].
    + cbn. repeat split; auto; discriminate.
    + destruct (Supervisor_scan_quiet system s) as (A & B & D & E).
      rewrite U in D.
      split; [exact A|]. split; [exact B|]. split; [exact D|]. split; [exact E|].
      split; [intros [F|F]; discriminate | reflexivity].
  - cbn. repeat split; auto; discriminate.
Qed.

(** X14.  An object constructed while the system bus is disconnected
    never recovers.  The constructor only starts the timer: it subscribes
    to nothing, allocates neither handle and tracks no device.  Every
    check() while the bus stays disconnected changes nothing, and the first
    check() after the bus connects calls upower->isValid() through the NULL
    handle instead of running setup(). *)
Theorem constructed_offline_never_recovers :
  forall (down : Supervisor.SystemBus) (history : list Supervisor.SystemBus)
         (up : Supervisor.SystemBus),
    Supervisor.isConnected down = false ->
    Forall (fun system => Supervisor.isConnected system = false) history ->
    Supervisor.isConnected up = true ->
    let o := Supervisor.construct down in
    trace o = [Supervisor.TimerStart]
    /\ Supervisor.upower (after o) = false
    /\ Supervisor.logind (after o) = false
    /\ Supervisor.base (after o) = PowerKit.initial
    /\ Supervisor.checks history (after o) = Some (after o, [])
    /\ Supervisor.checks (history ++ [up]) (after o) = None.
Proof.
  intros down history up D F U o.
  assert (O : o = {| result := tt;
                     after := {| Supervisor.base := PowerKit.initial;
                                 Supervisor.upower := false;
                                 Supervisor.logind := false |};
                     trace := [Supervisor.TimerStart] |}).
  { unfold o, Supervisor.construct, Supervisor.setup. now rewrite D. }
  rewrite O. cbn [trace after Supervisor.upower Supervisor.logind Supervisor.base].
  repeat split.
  - now apply checks_offline.
  - rewrite checks_app, (checks_offline history _ F).
    cbn [Supervisor.checks]. unfold Supervisor.check. rewrite U. reflexivity.
Qed.

(** X15.  An object constructed on a connected system bus is wired
    exactly once.  The constructor makes the ten system.connect calls of
    setup() in their order, allocates the upower and the logind handle,
    scans, and starts the timer last.  After that, whatever the bus does,
    every check() returns, and the whole history of check() calls makes no
    further system.connect call, allocates nothing, and keeps both handles
    allocated. *)
Theorem constructed_online_is_wired_once :
  forall (system : Supervisor.SystemBus) (history : list Supervisor.SystemBus),
    Supervisor.isConnected system = true ->
    let o := Supervisor.construct system in
    filter Supervisor.isConnect (trace o) = Supervisor.subscriptions
    /\ filter Supervisor.isNewInterface (trace o)
       = [Supervisor.NewInterface PKUPower; Supervisor.NewInterface PKLogind]
    /\ (exists t, trace o = t ++ [Supervisor.TimerStart])
    /\ Supervisor.base (after o) = after (PowerKit.scan (Supervisor.services system) PowerKit.initial)
    /\ exists s' t,
         Supervisor.checks history (after o) = Some (s', t)
         /\ filter Supervisor.isConnect t = []
         /\ filter Supervisor.isNewInterface t = []
         /\ Supervisor.upower s' = true
         /\ Supervisor.logind s' = true.
Proof.
  intros system history C o.
  unfold o, Supervisor.construct, Supervisor.setup. rewrite C.
  cbn [trace after].
  cbn [Supervisor.base Supervisor.upower Supervisor.logind].
  pose proof (Supervisor_scan_quiet system
                {| Supervisor.base := PowerKit.initial; Supervisor.upower := true;
                   Supervisor.logind := true |}) as Q.
  cbn [Supervisor.upower Supervisor.logind] in Q.
  remember (Supervisor.scan system _) as sc eqn:Esc.
  destruct Q as (A & B & U & L).
  split; [|split; [|split; [|split]]].
  - rewrite !filter_app, A. cbn. reflexivity.
  - rewrite !filter_app, B. cbn. reflexivity.
  - eexists. reflexivity.
  - rewrite Esc. reflexivity.
  - destruct (checks_with_handle history (after sc) U) as (s' & t & E & Cn & N & U' & L').
    exists s', t. repeat split; auto. congruence.
Qed.

End SupervisorFacts.

Lemma constructed_offline_never_recovers_witness :
  let o := Supervisor.construct (defs := Sample.def_h) Sample2.offline in
  trace o = [Supervisor.TimerStart]
  /\ Supervisor.upower (after o) = false
  /\ Supervisor.logind (after o) = false
  /\ Supervisor.base (after o) = PowerKit.initial
  /\ Supervisor.checks (defs := Sample.def_h) [Sample2.offline; Sample2.offline] (after o)
     = Some (after o, [])
  /\ Supervisor.checks (defs := Sample.def_h)
       ([Sample2.offline; Sample2.offline] ++ [Sample2.online]) (after o) = None.
Proof.
  apply (constructed_offline_never_recovers (defs := Sample.def_h)
           Sample2.offline [Sample2.offline; Sample2.offline] Sample2.online).
  - reflexivity.
  - repeat constructor.
  - reflexivity.
Defined.

Lemma constructed_online_is_wired_once_witness :
  let o := Supervisor.construct (defs := Sample.def_h) Sample2.online in
  filter Supervisor.isConnect (trace o) = Supervisor.subscriptions
  /\ filter Supervisor.isNewInterface (trace o)
     = [Supervisor.NewInterface PKUPower; Supervisor.NewInterface PKLogind]
  /\ (exists t, trace o = t ++ [Supervisor.TimerStart])
  /\ Supervisor.base (after o)
     = after (PowerKit.scan (defs := Sample.def_h)
                (Supervisor.services Sample2.online) PowerKit.initial)
  /\ exists s' t,
       Supervisor.checks (defs := Sample.def_h)
         [Sample2.offline; Sample2.online] (after o) = Some (s', t)
       /\ filter Supervisor.isConnect t = []
       /\ filter Supervisor.isNewInterface t = []
       /\ Supervisor.upower s' = true
       /\ Supervisor.logind s' = true.
Proof.
  apply (constructed_online_is_wired_once (defs := Sample.def_h)
           Sample2.online [Sample2.offline; Sample2.online]).
  reflexivity.
Defined.

(** ** The policy slots of the tray *)

Section TrayFacts.

Lemma Power_sleep_after bus s : after (Power.sleep bus s) = s.
Proof.
  unfold Power.sleep, Power.canSuspend; cbn.
  destruct (logind_isValid bus) eqn:L; run.
  - destruct (Login1_canSuspend bus); run; reflexivity.
  - destruct (upower_isValid bus) eqn:U; run; [|reflexivity].
    destruct (upower_property bus "CanSuspend"%string); run; reflexivity.
Qed.

Lemma Power_hibernate_after bus s : after (Power.hibernate bus s) = s.
Proof.
  unfold Power.hibernate, Power.canHibernate; cbn.
  destruct (logind_isValid bus) eqn:L; run.
  - destruct (Login1_canHibernate bus); run; reflexivity.
  - destruct (upower_isValid bus) eqn:U; run; [|reflexivity].
    destruct (upower_property bus "CanHibernate"%string); run; reflexivity.
Qed.

Lemma set_man_same s : SysTray.set_man (SysTray.man s) s = s.
Proof. now destruct s. Qed.

Lemma man_sleep_outcome desk s :
  after (SysTray.man_call Power.sleep desk s) = s
  /\ (List.length (trace (SysTray.man_call Power.sleep desk s)) <= 1)%nat.
Proof.
  unfold SysTray.man_call; cbn [after trace].
  rewrite Power_sleep_after, set_man_same, Power_sleep_trace.
  split; [reflexivity|]. destruct (Power.canSuspend _); cbn; lia.
Qed.

Lemma man_hibernate_outcome desk s :
  after (SysTray.man_call Power.hibernate desk s) = s
  /\ (List.length (trace (SysTray.man_call Power.hibernate desk s)) <= 1)%nat.
Proof.
  unfold SysTray.man_call; cbn [after trace].
  rewrite Power_hibernate_after, set_man_same, Power_hibernate_trace.
  split; [reflexivity|]. destruct (Power.canHibernate _); cbn; lia.
Qed.

Lemma Power_shutdown_outcome desk s :
  after (SysTray.Power_shutdown desk s) = s
  /\ (List.length (trace (SysTray.Power_shutdown desk s)) <= 1)%nat.
Proof.
  unfold SysTray.Power_shutdown.
  destruct (logind_isValid _ && SysTray.Login1_canPowerOff desk); cbn; [split; [reflexivity|lia]|].
  destruct (upower_isValid _); cbn; [|split; [reflexivity|lia]].
  destruct (SysTray.CKit_canPowerOff desk); cbn; split; try reflexivity; lia.
Qed.

Lemma filter_length_le {A : Type} (p : A -> bool) (t : list A) :
  (List.length (filter p t) <= List.length t)%nat.
Proof.
  induction t as [|a t IH]; simpl; [lia|]. destruct (p a); simpl; lia.
Qed.

(** *** [xIdle()] *)

Lemma xIdle_minutes desk :
  (0 <= SysTray.idle desk < 2149200000)%Z ->
  SysTray.xIdle desk = ((SysTray.idle desk / 60000) mod 60)%Z.
Proof.
  intros R. unfold SysTray.xIdle.
  change (1000 * 60 * 60)%Z with 3600000%Z. change (1000 * 60)%Z with 60000%Z.
  rewrite (Z.quot_div_nonneg (SysTray.idle desk) 3600000) by lia.
  set (i := SysTray.idle desk) in *.
  assert (H0 : (0 <= i / 3600000 <= 596)%Z).
  { split; [apply Z.div_pos; lia|]. apply Z.lt_succ_r.
    apply Z.div_lt_upper_bound; lia. }
  rewrite (int_wrap_small (i / 3600000)) by lia.
  rewrite (int_wrap_small (i / 3600000 * 1000)) by lia.
  rewrite (int_wrap_small (i / 3600000 * 1000 * 60)) by lia.
  rewrite (int_wrap_small (i / 3600000 * 1000 * 60 * 60)) by lia.
  assert (H1 : (i - i / 3600000 * 1000 * 60 * 60 = i mod 3600000)%Z).
  { pose proof (Z.div_mod i 3600000). lia. }
  rewrite H1.
  pose proof (Z.mod_pos_bound i 3600000) as B.
  rewrite qlonglong_wrap_small by lia.
  rewrite Z.quot_div_nonneg by lia.
  assert (H2 : (0 <= i mod 3600000 / 60000 < 60)%Z).
  { split; [apply Z.div_pos; lia|]. apply Z.div_lt_upper_bound; lia. }
  rewrite int_wrap_small by lia.
  change 3600000%Z with (60000 * 60)%Z.
  rewrite Z.rem_mul_r by lia.
  rewrite Z.mul_comm, Z.div_add by lia.
  rewrite (Z.div_small (i mod 60000) 60000) by (apply Z.mod_pos_bound; lia).
  reflexivity.
Qed.

(** *** [timeout()] *)

Lemma set_tray_isVisible_same s :
  SysTray.set_tray_isVisible (SysTray.tray_isVisible s) s = s.
Proof. now destruct s. Qed.

Lemma set_tray_isVisible_twice b b' s :
  SysTray.set_tray_isVisible b (SysTray.set_tray_isVisible b' s)
  = SysTray.set_tray_isVisible b s.
Proof. reflexivity. Qed.

Lemma tray_show_spec desk s :
  exists b,
    after (SysTray.tray_show_when_wanted desk s) = SysTray.set_tray_isVisible b s
    /\ filter SysTray.isPowerAct (trace (SysTray.tray_show_when_wanted desk s)) = [].
Proof.
  unfold SysTray.tray_show_when_wanted.
  destruct (_ && _); cbn [after trace SysTray.nothing].
  - exists true. split; reflexivity.
  - exists (SysTray.tray_isVisible s). now rewrite set_tray_isVisible_same.
Qed.

Lemma tray_hide_spec desk s :
  exists b,
    after (SysTray.tray_hide_when_unwanted desk s) = SysTray.set_tray_isVisible b s
    /\ filter SysTray.isPowerAct (trace (SysTray.tray_hide_when_unwanted desk s)) = [].
Proof.
  unfold SysTray.tray_hide_when_unwanted.
  destruct (_ && _); cbn [after trace SysTray.nothing].
  - exists false. split; reflexivity.
  - exists (SysTray.tray_isVisible s). now rewrite set_tray_isVisible_same.
Qed.

Lemma timeout_tray_spec desk s :
  exists b,
    fst (SysTray.timeout_tray desk s) = SysTray.set_tray_isVisible b s
    /\ filter SysTray.isPowerAct (snd (SysTray.timeout_tray desk s)) = [].
Proof.
  unfold SysTray.timeout_tray, SysTray.andThen. cbn [fst snd after trace].
  destruct (tray_hide_spec desk s) as (b1 & E1 & Q1). rewrite E1.
  destruct (tray_show_spec desk (SysTray.set_tray_isVisible b1 s)) as (b2 & E2 & Q2).
  rewrite E2, set_tray_isVisible_twice, filter_app, Q1, Q2.
  exists b2. split; reflexivity.
Qed.

Lemma timeout_counts desk s :
  SysTray.timeout_doSuspend desk s = false ->
  exists b,
    after (SysTray.timeout desk s)
    = SysTray.set_timeouts (int_wrap (SysTray.timeouts s + 1))
        (SysTray.set_tray_isVisible b s)
    /\ filter SysTray.isPowerAct (trace (SysTray.timeout desk s)) = [].
Proof.
  intros D. destruct (timeout_tray_spec desk s) as (b & F & Q).
  unfold SysTray.timeout.
  destruct (SysTray.timeout_tray desk s) as [s1 shown]. cbn [fst snd] in F, Q. subst s1.
  change (SysTray.timeout_doSuspend desk (SysTray.set_tray_isVisible b s))
    with (SysTray.timeout_doSuspend desk s).
  rewrite D. cbn [negb after trace]. exists b. split; [reflexivity | exact Q].
Qed.

Lemma timeout_acts desk s :
  SysTray.timeout_doSuspend desk s = true ->
  exists b,
    after (SysTray.timeout desk s)
    = SysTray.set_timeouts 0 (SysTray.set_tray_isVisible b s)
    /\ (List.length (filter SysTray.isPowerAct (trace (SysTray.timeout desk s))) <= 1)%nat.
Proof.
  intros D. destruct (timeout_tray_spec desk s) as (b & F & Q).
  unfold SysTray.timeout.
  destruct (SysTray.timeout_tray desk s) as [s1 shown]. cbn [fst snd] in F, Q. subst s1.
  change (SysTray.timeout_doSuspend desk (SysTray.set_tray_isVisible b s))
    with (SysTray.timeout_doSuspend desk s).
  rewrite D. cbn [negb]. exists b.
  set (s2 := SysTray.set_timeouts 0 (SysTray.set_tray_isVisible b s)).
  destruct (man_sleep_outcome desk s2) as [A1 L1].
  destruct (man_hibernate_outcome desk s2) as [A2 L2].
  destruct (Power_shutdown_outcome desk s2) as [A3 L3].
  destruct (if Power.onBattery (SysTray.system desk)
            then SysTray.autoSuspendBatteryAction (SysTray.set_tray_isVisible b s)
            else SysTray.autoSuspendACAction (SysTray.set_tray_isVisible b s));
    cbn [after trace]; rewrite filter_app, Q; cbn [app];
    (split; [assumption || reflexivity|]);
    try (eapply Nat.le_trans; [apply filter_length_le | assumption]).
  cbn. lia.
Qed.

Lemma timeout_quiet_or_due desk s :
  filter SysTray.isPowerAct (trace (SysTray.timeout desk s)) <> [] ->
  SysTray.timeout_doSuspend desk s = true.
Proof.
  intros N. destruct (SysTray.timeout_doSuspend desk s) eqn:D; [reflexivity|].
  destruct (timeout_counts desk s D) as (b & _ & Q). contradiction.
Qed.

(** X16.  xIdle() returns the minutes of the idle time within the
    current hour, not the idle time in minutes: for an idle time of less
    than 597 hours (where the int arithmetic does not wrap) the result is
    (idle / 60000) mod 60, so it is always below 60 and falls back to 0
    each time a full hour of idling is reached. *)
Theorem xIdle_is_minutes_within_the_hour :
  forall desk : SysTray.Desktop,
    (0 <= SysTray.idle desk < 2149200000)%Z ->
    SysTray.xIdle desk = ((SysTray.idle desk / 60000) mod 60)%Z
    /\ (0 <= SysTray.xIdle desk < 60)%Z
    /\ forall hours : Z,
         (0 <= hours)%Z ->
         (SysTray.idle desk = hours * 3600000)%Z ->
         SysTray.xIdle desk = 0%Z.
Proof.
  intros desk R. rewrite (xIdle_minutes desk R).
  split; [reflexivity|]. split.
  - apply Z.mod_pos_bound. lia.
  - intros hours H E. rewrite E.
    replace (hours * 3600000)%Z with (hours * 60 * 60000)%Z by lia.
    rewrite Z.div_mul by lia. apply Z.mod_mul. lia.
Qed.

(** X17.  A configured auto-suspend time of 60 minutes or more never
    fires.  timeout() requires xIdle() >= autoSuspend, and xIdle() is below
    60: whatever the tick count and however long the user has been idle
    (up to 597 hours), the slot performs no power act and only counts the
    tick. *)
Theorem timeout_never_suspends_from_60_minutes_on :
  forall (desk : SysTray.Desktop) (s : SysTray.Members),
    (0 <= SysTray.idle desk < 2149200000)%Z ->
    (60 <= (if Power.onBattery (SysTray.system desk)
            then SysTray.autoSuspendBattery s
            else SysTray.autoSuspendAC s))%Z ->
    filter SysTray.isPowerAct (trace (SysTray.timeout desk s)) = []
    /\ SysTray.timeouts (after (SysTray.timeout desk s))
       = int_wrap (SysTray.timeouts s + 1).
Proof.
  intros desk s R A.
  assert (D : SysTray.timeout_doSuspend desk s = false).
  { unfold SysTray.timeout_doSuspend.
    pose proof (xIdle_minutes desk R) as X.
    pose proof (Z.mod_pos_bound (SysTray.idle desk / 60000) 60) as B.
    destruct (Power.onBattery (SysTray.system desk));
      match goal with
      | |- context [(?a <=? SysTray.xIdle desk)%Z] =>
          replace (a <=? SysTray.xIdle desk)%Z with false
            by (symmetry; apply Z.leb_gt; lia)
      end;
      now rewrite Bool.andb_false_r. }
  destruct (timeout_counts desk s D) as (b & E & Q).
  split; [exact Q|]. now rewrite E.
Qed.

(** X18.  After the timer is reset (resetTimer(), which
    handleHasInhibitChanged(true) calls), the next ticks do not act: for any
    history of ticks no longer than the configured auto-suspend times (a
    time of 0 or less switches that supply's auto-suspend off), whatever
    the bus, the idle time and the inhibitors do at each tick, no tick
    performs a power act and the counter ends at the number of ticks. *)
Theorem timeout_waits_after_reset :
  forall (history : list SysTray.Desktop) (desk0 : SysTray.Desktop) (s : SysTray.Members),
    (Z.of_nat (List.length history) < 2 ^ 31)%Z ->
    (SysTray.autoSuspendBattery s <= 0
     \/ Z.of_nat (List.length history) <= SysTray.autoSuspendBattery s)%Z ->
    (SysTray.autoSuspendAC s <= 0
     \/ Z.of_nat (List.length history) <= SysTray.autoSuspendAC s)%Z ->
    let s0 := after (SysTray.handleHasInhibitChanged true desk0 s) in
    Forall (fun t => filter SysTray.isPowerAct t = []) (snd (SysTray.ticks history s0))
    /\ SysTray.timeouts (fst (SysTray.ticks history s0)) = Z.of_nat (List.length history).
Proof.
  intros history desk0 s Len B A s0.
  assert (G : forall h s1 k,
             SysTray.timeouts s1 = k -> (0 <= k)%Z ->
             (k + Z.of_nat (List.length h) < 2 ^ 31)%Z ->
             (SysTray.autoSuspendBattery s1 <= 0
              \/ k + Z.of_nat (List.length h) <= SysTray.autoSuspendBattery s1)%Z ->
             (SysTray.autoSuspendAC s1 <= 0
              \/ k + Z.of_nat (List.length h) <= SysTray.autoSuspendAC s1)%Z ->
             Forall (fun t => filter SysTray.isPowerAct t = []) (snd (SysTray.ticks h s1))
             /\ SysTray.timeouts (fst (SysTray.ticks h s1))
                = (k + Z.of_nat (List.length h))%Z).
  { clear. induction h as [|desk rest IH]; intros s1 k K K0 Len B A.
    - cbn. split; [constructor | lia].
    - cbn [SysTray.ticks]. cbn [List.length] in Len, B, A.
      rewrite Nat2Z.inj_succ in Len, B, A.
      assert (D : SysTray.timeout_doSuspend desk s1 = false).
      { unfold SysTray.timeout_doSuspend. rewrite K.
        destruct (Power.onBattery (SysTray.system desk)).
        - destruct (Z.ltb_spec 0 (SysTray.autoSuspendBattery s1)); [|reflexivity].
          replace (SysTray.autoSuspendBattery s1 <=? k)%Z with false
            by (symmetry; apply Z.leb_gt; lia). reflexivity.
        - destruct (Z.ltb_spec 0 (SysTray.autoSuspendAC s1)); [|reflexivity].
          replace (SysTray.autoSuspendAC s1 <=? k)%Z with false
            by (symmetry; apply Z.leb_gt; lia). reflexivity. }
      destruct (timeout_counts desk s1 D) as (b & E & Q).
      rewrite K, int_wrap_small in E by lia.
      specialize (IH (after (SysTray.timeout desk s1)) (k + 1)%Z).
      rewrite E in IH. cbn [SysTray.timeouts SysTray.set_timeouts
                            SysTray.autoSuspendBattery SysTray.autoSuspendAC
                            SysTray.set_tray_isVisible] in IH.
      destruct IH as [F T]; try lia.
      rewrite <- E in F, T.
      destruct (SysTray.ticks rest (after (SysTray.timeout desk s1))) as [s' ts].
      cbn [fst snd] in *. split; [constructor; assumption |].
      cbn [List.length]. rewrite Nat2Z.inj_succ. lia. }
  destruct (G history s0 0%Z) as [F T]; try (cbn; lia || assumption || reflexivity).
  split; [exact F | rewrite T; lia].
Qed.

(** X19.  timeout() never acts on two ticks in a row.  A tick that
    performs a power act (a suspend, hibernate or power-off call) leaves the
    counter at 0, so the next tick, whatever the bus, the idle time and the
    inhibitors are then, performs none and leaves the counter at 1. *)
Theorem timeout_never_acts_twice_in_a_row :
  forall (desk desk' : SysTray.Desktop) (s : SysTray.Members),
    filter SysTray.isPowerAct (trace (SysTray.timeout desk s)) <> [] ->
    SysTray.timeouts (after (SysTray.timeout desk s)) = 0%Z
    /\ filter SysTray.isPowerAct
         (trace (SysTray.timeout desk' (after (SysTray.timeout desk s)))) = []
    /\ SysTray.timeouts (after (SysTray.timeout desk' (after (SysTray.timeout desk s)))) = 1%Z.
Proof.
  intros desk desk' s N.
  pose proof (timeout_quiet_or_due desk s N) as D.
  destruct (timeout_acts desk s D) as (b & E & _).
  set (s1 := after (SysTray.timeout desk s)) in *.
  assert (T : SysTray.timeouts s1 = 0%Z) by now rewrite E.
  assert (D' : SysTray.timeout_doSuspend desk' s1 = false).
  { unfold SysTray.timeout_doSuspend. rewrite T.
    destruct (Power.onBattery (SysTray.system desk')).
    - destruct (Z.ltb_spec 0 (SysTray.autoSuspendBattery s1)); [|reflexivity].
      replace (SysTray.autoSuspendBattery s1 <=? 0)%Z with false
        by (symmetry; apply Z.leb_gt; lia). reflexivity.
    - destruct (Z.ltb_spec 0 (SysTray.autoSuspendAC s1)); [|reflexivity].
      replace (SysTray.autoSuspendAC s1 <=? 0)%Z with false
        by (symmetry; apply Z.leb_gt; lia). reflexivity. }
  destruct (timeout_counts desk' s1 D') as (b' & E' & Q').
  split; [exact T|]. split; [exact Q'|].
  rewrite E', T. reflexivity.
Qed.

(** A change [f] of the members that reaches none of the members that
    [timeout()] reads or writes. *)
Section BesideTimeout.
Variable f : SysTray.Members -> SysTray.Members.
Hypothesis f_showTray : forall s, SysTray.showTray (f s) = SysTray.showTray s.
Hypothesis f_tray_isVisible :
  forall s, SysTray.tray_isVisible (f s) = SysTray.tray_isVisible s.
Hypothesis f_autoSuspendBattery :
  forall s, SysTray.autoSuspendBattery (f s) = SysTray.autoSuspendBattery s.
Hypothesis f_autoSuspendAC :
  forall s, SysTray.autoSuspendAC (f s) = SysTray.autoSuspendAC s.
Hypothesis f_autoSuspendBatteryAction :
  forall s, SysTray.autoSuspendBatteryAction (f s) = SysTray.autoSuspendBatteryAction s.
Hypothesis f_autoSuspendACAction :
  forall s, SysTray.autoSuspendACAction (f s) = SysTray.autoSuspendACAction s.
Hypothesis f_timeouts : forall s, SysTray.timeouts (f s) = SysTray.timeouts s.
Hypothesis f_man : forall s, SysTray.man (f s) = SysTray.man s.
Hypothesis f_set_tray_isVisible :
  forall b s, SysTray.set_tray_isVisible b (f s) = f (SysTray.set_tray_isVisible b s).
Hypothesis f_set_timeouts :
  forall n s, SysTray.set_timeouts n (f s) = f (SysTray.set_timeouts n s).
Hypothesis f_set_man :
  forall m s, SysTray.set_man m (f s) = f (SysTray.set_man m s).

Lemma beside_hide desk s :
  after (SysTray.tray_hide_when_unwanted desk (f s))
  = f (after (SysTray.tray_hide_when_unwanted desk s))
  /\ trace (SysTray.tray_hide_when_unwanted desk (f s))
     = trace (SysTray.tray_hide_when_unwanted desk s).
Proof.
  unfold SysTray.tray_hide_when_unwanted. rewrite f_showTray, f_tray_isVisible.
  destruct (_ && _); cbn [after trace SysTray.nothing]; rewrite ?f_set_tray_isVisible;
    split; reflexivity.
Qed.

Lemma beside_show desk s :
  after (SysTray.tray_show_when_wanted desk (f s))
  = f (after (SysTray.tray_show_when_wanted desk s))
  /\ trace (SysTray.tray_show_when_wanted desk (f s))
     = trace (SysTray.tray_show_when_wanted desk s).
Proof.
  unfold SysTray.tray_show_when_wanted. rewrite f_showTray, f_tray_isVisible.
  destruct (_ && _); cbn [after trace SysTray.nothing]; rewrite ?f_set_tray_isVisible;
    split; reflexivity.
Qed.

Lemma beside_timeout_tray desk s :
  SysTray.timeout_tray desk (f s)
  = (f (fst (SysTray.timeout_tray desk s)), snd (SysTray.timeout_tray desk s)).
Proof.
  unfold SysTray.timeout_tray, SysTray.andThen. cbn [fst snd after trace].
  destruct (beside_hide desk s) as [A1 T1]. rewrite A1, T1.
  destruct (beside_show desk (after (SysTray.tray_hide_when_unwanted desk s))) as [A2 T2].
  now rewrite A2, T2.
Qed.

Lemma beside_doSuspend desk s :
  SysTray.timeout_doSuspend desk (f s) = SysTray.timeout_doSuspend desk s.
Proof.
  unfold SysTray.timeout_doSuspend.
  now rewrite f_autoSuspendBattery, f_autoSuspendAC, f_timeouts.
Qed.

Lemma beside_timeout desk s :
  after (SysTray.timeout desk (f s)) = f (after (SysTray.timeout desk s))
  /\ trace (SysTray.timeout desk (f s)) = trace (SysTray.timeout desk s).
Proof.
  unfold SysTray.timeout. rewrite beside_timeout_tray.
  destruct (SysTray.timeout_tray desk s) as [s1 shown]. cbn [fst snd].
  rewrite beside_doSuspend, f_timeouts, f_autoSuspendBatteryAction,
    f_autoSuspendACAction, !f_set_timeouts.
  destruct (negb (SysTray.timeout_doSuspend desk s1)); cbn [after trace];
    [split; reflexivity|].
  destruct (if Power.onBattery (SysTray.system desk)
            then SysTray.autoSuspendBatteryAction s1
            else SysTray.autoSuspendACAction s1);
    unfold SysTray.man_call, SysTray.Power_shutdown, SysTray.nothing;
    rewrite ?f_man; cbn [after trace]; rewrite ?f_set_man;
    repeat match goal with
           | |- context [if ?c then _ else _] => destruct c; cbn [after trace]
           end;
    split; reflexivity.
Qed.

End BesideTimeout.

(** X20.  What keeps timeout() from suspending is pm->HasInhibit()
    and nothing the tray records itself: when HasInhibit() is true the slot
    performs no power act; and the four inhibitor slots of the tray, which
    only write the tables ssInhibitors and pmInhibitors, emit nothing and
    change nothing that timeout() does afterwards. *)
Theorem timeout_heeds_HasInhibit_not_the_tables :
  forall (desk desk' : SysTray.Desktop) (s : SysTray.Members)
         (application reason : QString) (cookie : quint32),
    (SysTray.pm_HasInhibit desk = true ->
     filter SysTray.isPowerAct (trace (SysTray.timeout desk s)) = [])
    /\ Forall
         (fun slot : SysTray.Slot =>
            trace (slot desk' s) = []
            /\ trace (SysTray.timeout desk (after (slot desk' s)))
               = trace (SysTray.timeout desk s)
            /\ SysTray.timeouts (after (SysTray.timeout desk (after (slot desk' s))))
               = SysTray.timeouts (after (SysTray.timeout desk s)))
         [ SysTray.handleNewInhibitScreenSaver application reason cookie;
           SysTray.handleNewInhibitPowerManagement application reason cookie;
           SysTray.handleDelInhibitScreenSaver cookie;
           SysTray.handleDelInhibitPowerManagement cookie ].
Proof.
  intros desk desk' s application reason cookie. split.
  - intros I.
    assert (D : SysTray.timeout_doSuspend desk s = false).
    { unfold SysTray.timeout_doSuspend. rewrite I. cbn [negb].
      now rewrite Bool.andb_false_r. }
    now destruct (timeout_counts desk s D) as (b & _ & Q).
  - assert (SS : forall m,
               trace (SysTray.timeout desk (SysTray.set_ssInhibitors m s))
               = trace (SysTray.timeout desk s)
               /\ SysTray.timeouts (after (SysTray.timeout desk (SysTray.set_ssInhibitors m s)))
                  = SysTray.timeouts (after (SysTray.timeout desk s))).
    { intros m.
      destruct (beside_timeout (SysTray.set_ssInhibitors m)) with (desk := desk) (s := s)
        as [A T]; try reflexivity.
      rewrite A, T. split; reflexivity. }
    assert (PM : forall m,
               trace (SysTray.timeout desk (SysTray.set_pmInhibitors m s))
               = trace (SysTray.timeout desk s)
               /\ SysTray.timeouts (after (SysTray.timeout desk (SysTray.set_pmInhibitors m s)))
                  = SysTray.timeouts (after (SysTray.timeout desk s))).
    { intros m.
      destruct (beside_timeout (SysTray.set_pmInhibitors m)) with (desk := desk) (s := s)
        as [A T]; try reflexivity.
      rewrite A, T. split; reflexivity. }
    assert (Same : trace (SysTray.timeout desk s) = trace (SysTray.timeout desk s)
                   /\ SysTray.timeouts (after (SysTray.timeout desk s))
                      = SysTray.timeouts (after (SysTray.timeout desk s)))
      by (split; reflexivity).
    constructor; [split; [reflexivity | apply SS]|].
    constructor; [split; [reflexivity | apply PM]|].
    constructor.
    { unfold SysTray.handleDelInhibitScreenSaver.
      destruct (QMap.contains cookie (SysTray.ssInhibitors s));
        cbn [trace after SysTray.nothing]; (split; [reflexivity|]);
        [apply SS | exact Same]. }
    constructor; [|constructor].
    unfold SysTray.handleDelInhibitPowerManagement.
    destruct (QMap.contains cookie (SysTray.pmInhibitors s));
      cbn [trace after SysTray.nothing]; (split; [reflexivity|]);
      [apply PM | exact Same].
Qed.

(** *** Monitors and the lid *)

Lemma set_monitors_same s : SysTray.set_monitors (SysTray.monitors s) s = s.
Proof. now destruct s. Qed.

(** X21.  handleDisplay(display, connected) always leaves the display
    recorded with the given state and touches no other display; it emits
    updatedMonitors exactly when the state differs from the recorded one,
    where a display not yet recorded counts as disconnected (so the first
    report of an unknown display as disconnected is recorded silently).
    Repeating the call changes nothing and emits nothing, and the map
    stays in key order. *)
Theorem handleDisplay_records_and_announces_changes :
  forall (desk desk' : SysTray.Desktop) (s : SysTray.Members)
         (display : QString) (connected : bool),
    let o := SysTray.handleDisplay display connected desk s in
    let before :=
      match QMap.value display (SysTray.monitors s) with
      | Some b => b
      | None => false
      end in
    QMap.value display (SysTray.monitors (after o)) = Some connected
    /\ (forall other, other <> display ->
          QMap.value other (SysTray.monitors (after o))
          = QMap.value other (SysTray.monitors s))
    /\ trace o = (if Bool.eqb before connected then [] else [SysTray.updatedMonitors])
    /\ SysTray.handleDisplay display connected desk' (after o) = SysTray.nothing (after o)
    /\ (QMap.sorted (SysTray.monitors s) = true ->
        QMap.sorted (SysTray.monitors (after o)) = true).
Proof.
  intros desk desk' s display connected o before.
  assert (V : QMap.value display (SysTray.monitors (after o)) = Some connected).
  { unfold o, SysTray.handleDisplay, QMap.contains.
    destruct (QMap.value display (SysTray.monitors s)) as [b|] eqn:E.
    - rewrite E. destruct (Bool.eqb b connected) eqn:B; cbn.
      + apply Bool.eqb_prop in B. now subst b.
      + now rewrite QMapFacts.value_insert, QMapFacts.sameKey_refl.
    - rewrite QMapFacts.value_insert, QMapFacts.sameKey_refl.
      destruct connected; cbn.
      + now rewrite QMapFacts.value_insert, QMapFacts.sameKey_refl.
      + now rewrite QMapFacts.value_insert, QMapFacts.sameKey_refl. }
  split; [exact V|]. split; [|split; [|split]].
  - intros other N. apply QMapFacts.sameKey_neq in N.
    unfold o, SysTray.handleDisplay, QMap.contains.
    destruct (QMap.value display (SysTray.monitors s)) as [b|] eqn:E.
    + rewrite E. destruct (Bool.eqb b connected); cbn; [reflexivity|].
      now rewrite QMapFacts.value_insert, N.
    + rewrite QMapFacts.value_insert, QMapFacts.sameKey_refl.
      destruct connected; cbn;
        rewrite ?QMapFacts.value_insert, N; reflexivity.
  - unfold o, before, SysTray.handleDisplay, QMap.contains.
    destruct (QMap.value display (SysTray.monitors s)) as [b|] eqn:E.
    + rewrite E. now destruct (Bool.eqb b connected).
    + rewrite QMapFacts.value_insert, QMapFacts.sameKey_refl.
      now destruct connected.
  - unfold SysTray.handleDisplay at 1. unfold QMap.contains. rewrite V.
    rewrite V, Bool.eqb_reflx, set_monitors_same. reflexivity.
  - intros S. unfold o, SysTray.handleDisplay, QMap.contains.
    destruct (QMap.value display (SysTray.monitors s)) as [b|] eqn:E.
    + rewrite E. destruct (Bool.eqb b connected); cbn; [exact S|].
      now apply QMapFacts.sorted_insert.
    + rewrite QMapFacts.value_insert, QMapFacts.sameKey_refl.
      destruct connected; cbn; repeat apply QMapFacts.sorted_insert; exact S.
Qed.

Lemma handleDisplay_recorded desk s display connected :
  QMap.value display
    (SysTray.monitors (after (SysTray.handleDisplay display connected desk s)))
  = Some connected
  /\ SysTray.internalMonitor (after (SysTray.handleDisplay display connected desk s))
     = SysTray.internalMonitor s
  /\ SysTray.disableLidOnExternalMonitors
       (after (SysTray.handleDisplay display connected desk s))
     = SysTray.disableLidOnExternalMonitors s.
Proof.
  unfold SysTray.handleDisplay, QMap.contains.
  destruct (QMap.value display (SysTray.monitors s)) as [b|] eqn:E.
  - rewrite E. destruct (Bool.eqb b connected) eqn:B; cbn.
    + apply Bool.eqb_prop in B. now subst b.
    + now rewrite QMapFacts.value_insert, QMapFacts.sameKey_refl.
  - rewrite QMapFacts.value_insert, QMapFacts.sameKey_refl.
    destruct connected; cbn;
      now rewrite QMapFacts.value_insert, QMapFacts.sameKey_refl.
Qed.

Section Lid.
Variable VIRTUAL_MONITOR : QString.

Lemma external_connected_of_value internal (m : list (QString * bool)) d :
  QMap.value d m = Some true ->
  d <> internal ->
  startsWith d VIRTUAL_MONITOR = false ->
  SysTray.externalMonitorIsConnected_loop VIRTUAL_MONITOR internal m = true.
Proof.
  intros V N P. induction m as [|[k v] m IH]; [discriminate|].
  cbn [QMap.value] in V. cbn [SysTray.externalMonitorIsConnected_loop].
  destruct (QMap.sameKey d k) eqn:K.
  - apply QMapFacts.sameKey_eq in K. subst k. injection V as ->.
    apply String.eqb_neq in N. rewrite N, P. reflexivity.
  - rewrite (IH V). now destruct (_ && _), v.
Qed.

Lemma external_none internal (m : list (QString * bool)) :
  (forall k, In (k, true) m -> k = internal \/ startsWith k VIRTUAL_MONITOR = true) ->
  SysTray.externalMonitorIsConnected_loop VIRTUAL_MONITOR internal m = false.
Proof.
  induction m as [|[k v] m IH]; intros A; [reflexivity|].
  cbn [SysTray.externalMonitorIsConnected_loop].
  rewrite IH by (intros k' I; apply A; now right).
  destruct v; [|now destruct (_ && _)].
  destruct (A k (or_introl eq_refl)) as [->|P].
  - now rewrite String.eqb_refl.
  - rewrite P. now rewrite Bool.andb_false_r.
Qed.

(** X22.  The lid action yields to an external monitor, and only to
    one.  With disableLidOnExternalMonitors set: once handleDisplay has
    reported as connected a display that is neither the internal monitor
    nor a virtual one, handleClosedLid() does nothing at all, whatever the
    configured lid action and the bus.  Whereas a list of found displays in
    which every connected display is the internal monitor or a virtual one
    makes no difference: handleClosedLid() then does what it does with no
    display recorded. *)
Theorem lid_action_yields_to_external_monitor :
  forall (desk desk' : SysTray.Desktop) (s : SysTray.Members) (display : QString),
    SysTray.disableLidOnExternalMonitors s = true ->
    display <> SysTray.internalMonitor s ->
    startsWith display VIRTUAL_MONITOR = false ->
    (let s1 := after (SysTray.handleDisplay display true desk' s) in
     SysTray.externalMonitorIsConnected VIRTUAL_MONITOR s1 = true
     /\ SysTray.handleClosedLid VIRTUAL_MONITOR desk s1 = SysTray.nothing s1)
    /\ (forall displays : list (QString * bool),
          (forall k, In (k, true) displays ->
                     k = SysTray.internalMonitor s \/ startsWith k VIRTUAL_MONITOR = true) ->
          let s2 := after (SysTray.handleFoundDisplays displays desk' s) in
          let s3 := after (SysTray.handleFoundDisplays [] desk' s) in
          SysTray.externalMonitorIsConnected VIRTUAL_MONITOR s2 = false
          /\ trace (SysTray.handleClosedLid VIRTUAL_MONITOR desk s2)
             = trace (SysTray.handleClosedLid VIRTUAL_MONITOR desk s3)).
Proof.
  intros desk desk' s display F N P. split.
  - intros s1.
    destruct (handleDisplay_recorded desk' s display true)
      as (V & I & Dis).
    fold s1 in V, I, Dis.
    assert (X : SysTray.externalMonitorIsConnected VIRTUAL_MONITOR s1 = true).
    { unfold SysTray.externalMonitorIsConnected.
      apply (external_connected_of_value _ _ display); [exact V | congruence | exact P]. }
    split; [exact X|].
    unfold SysTray.handleClosedLid. now rewrite Dis, F, X.
  - intros displays A s2 s3.
    assert (X : SysTray.externalMonitorIsConnected VIRTUAL_MONITOR s2 = false).
    { unfold SysTray.externalMonitorIsConnected. apply external_none. exact A. }
    split; [exact X|].
    unfold SysTray.handleClosedLid. rewrite X.
    change (SysTray.externalMonitorIsConnected VIRTUAL_MONITOR s3) with false.
    rewrite !Bool.andb_false_r.
    destruct s as [mn vis crit has lb la ca ab aa n notif dss dpm show dis bb ba mon int ss pm].
    unfold SysTray.man_call, SysTray.Power_shutdown, SysTray.Power_lockScreen, SysTray.nothing;
      cbn.
    destruct (Power.onBattery (SysTray.system desk)), lb, la; cbn;
      repeat match goal with
             | |- context [if ?c then _ else _] => destruct c; cbn
             end; reflexivity.
Qed.

(** X23.  No slot of the tray acts twice in one call: timeout(),
    handleClosedLid() and handleCritical() each perform at most one power
    act (a lock, suspend, hibernate or power-off call) per call, on every
    bus and for every configuration, and leave the members of the Power
    object as they are. *)
Theorem tray_slots_act_at_most_once :
  forall (desk : SysTray.Desktop) (s : SysTray.Members),
    Forall
      (fun slot : SysTray.Slot =>
         (List.length (filter SysTray.isPowerAct (trace (slot desk s))) <= 1)%nat
         /\ SysTray.man (after (slot desk s)) = SysTray.man s)
      [ SysTray.timeout;
        SysTray.handleClosedLid VIRTUAL_MONITOR;
        SysTray.handleCritical ].
Proof.
  intros desk s.
  destruct (man_sleep_outcome desk s) as [A1 L1].
  destruct (man_hibernate_outcome desk s) as [A2 L2].
  destruct (Power_shutdown_outcome desk s) as [A3 L3].
  constructor; [split | constructor; [split | constructor; [split | constructor]]].
  - destruct (SysTray.timeout_doSuspend desk s) eqn:D.
    + now destruct (timeout_acts desk s D) as (b & _ & L).
    + destruct (timeout_counts desk s D) as (b & _ & Q). rewrite Q. cbn. lia.
  - destruct (SysTray.timeout_doSuspend desk s) eqn:D.
    + destruct (timeout_acts desk s D) as (b & E & _). now rewrite E.
    + destruct (timeout_counts desk s D) as (b & E & _). now rewrite E.
  - unfold SysTray.handleClosedLid.
    destruct (_ && _); [cbn; lia|].
    destruct (if Power.onBattery _ then _ else _);
      try (eapply Nat.le_trans; [apply filter_length_le | assumption]); cbn; lia.
  - unfold SysTray.handleClosedLid.
    destruct (_ && _); [reflexivity|].
    destruct (if Power.onBattery _ then _ else _); try congruence; reflexivity.
  - unfold SysTray.handleCritical.
    destruct (SysTray.criticalAction s);
      try (eapply Nat.le_trans; [apply filter_length_le | assumption]); cbn; lia.
  - unfold SysTray.handleCritical.
    destruct (SysTray.criticalAction s); try congruence; reflexivity.
Qed.

End Lid.


End TrayFacts.

(** X16 at work: idle for 2 h 05 min reads as 5 minutes, idle for 2 h as 0. *)
Lemma xIdle_is_minutes_within_the_hour_witness :
  SysTray.xIdle (Sample2.idleOnBattery 125) = 5%Z
  /\ SysTray.xIdle (Sample2.idleOnBattery 120) = 0%Z.
Proof.
  split.
  - destruct (xIdle_is_minutes_within_the_hour (Sample2.idleOnBattery 125)) as (E & _).
    + cbn. lia.
    + rewrite E. reflexivity.
  - destruct (xIdle_is_minutes_within_the_hour (Sample2.idleOnBattery 120)) as (_ & _ & Z).
    + cbn. lia.
    + apply (Z 2%Z); [lia | reflexivity].
Defined.

(** X17 at work: 90 minutes configured, 600 ticks counted, idle for ten
    hours, on battery, nobody inhibits: the tick only counts. *)
Lemma timeout_never_suspends_from_60_minutes_on_witness :
  filter SysTray.isPowerAct
    (trace (SysTray.timeout (Sample2.idleOnBattery 600) (Sample2.tray 90 600))) = []
  /\ SysTray.timeouts
       (after (SysTray.timeout (Sample2.idleOnBattery 600) (Sample2.tray 90 600)))
     = int_wrap (600 + 1).
Proof.
  apply (timeout_never_suspends_from_60_minutes_on
           (Sample2.idleOnBattery 600) (Sample2.tray 90 600)).
  - cbn. lia.
  - vm_compute. discriminate.
Defined.

(** X18 at work: three ticks after a reset, 15 minutes configured. *)
Lemma timeout_waits_after_reset_witness :
  let history :=
    [Sample2.idleOnBattery 30; Sample2.idleOnBattery 31; Sample2.idleOnBattery 32] in
  let s0 :=
    after (SysTray.handleHasInhibitChanged true Sample2.noUPower (Sample2.tray 15 40)) in
  Forall (fun t => filter SysTray.isPowerAct t = []) (snd (SysTray.ticks history s0))
  /\ SysTray.timeouts (fst (SysTray.ticks history s0)) = 3%Z.
Proof.
  apply (timeout_waits_after_reset
           [Sample2.idleOnBattery 30; Sample2.idleOnBattery 31; Sample2.idleOnBattery 32]
           Sample2.noUPower (Sample2.tray 15 40)).
  - vm_compute. reflexivity.
  - right. vm_compute. discriminate.
  - left. vm_compute. discriminate.
Defined.

(** X19 at work: 15 minutes configured, 15 ticks counted, idle for 20
    minutes on battery: this tick suspends through UPower, the next cannot. *)
Lemma timeout_never_acts_twice_in_a_row_witness :
  let o := SysTray.timeout (Sample2.idleOnBattery 20) (Sample2.tray 15 15) in
  trace o = [SysTray.tray_show; SysTray.ByPower (Power.HelperCall UPower_suspend)]
  /\ SysTray.timeouts (after o) = 0%Z
  /\ filter SysTray.isPowerAct
       (trace (SysTray.timeout (Sample2.idleOnBattery 21) (after o))) = []
  /\ SysTray.timeouts (after (SysTray.timeout (Sample2.idleOnBattery 21) (after o))) = 1%Z.
Proof.
  split; [vm_compute; reflexivity|].
  apply (timeout_never_acts_twice_in_a_row
           (Sample2.idleOnBattery 20) (Sample2.idleOnBattery 21) (Sample2.tray 15 15)).
  vm_compute. discriminate.
Defined.

(** X22 at work: HDMI1 is plugged into the laptop, then the lid is closed
    on battery: no sleep. *)
Lemma lid_action_yields_to_external_monitor_witness :
  let s1 :=
    after (SysTray.handleDisplay "HDMI1"%string true Sample2.noUPower Sample2.laptop) in
  SysTray.externalMonitorIsConnected "VIRTUAL"%string s1 = true
  /\ SysTray.handleClosedLid "VIRTUAL"%string (Sample2.idleOnBattery 0) s1
     = SysTray.nothing s1.
Proof.
  apply (lid_action_yields_to_external_monitor "VIRTUAL"%string
           (Sample2.idleOnBattery 0) Sample2.noUPower Sample2.laptop "HDMI1"%string).
  - reflexivity.
  - vm_compute. discriminate.
  - reflexivity.
Defined.

(** ** The tray and the signals of [man] *)

Section TrayListens.
Variable VIRTUAL_MONITOR : QString.
Variable showMessage_critical : bool.

Lemma settingsKept_refl s : settingsKept s s.
Proof. unfold settingsKept. repeat split; reflexivity. Qed.

Lemma settingsKept_trans s1 s2 s3 :
  settingsKept s1 s2 -> settingsKept s2 s3 -> settingsKept s1 s3.
Proof.
  unfold settingsKept. intros H1 H2.
  repeat match goal with H : _ /\ _ |- _ => destruct H end.
  repeat split; congruence.
Qed.

Lemma settingsKept_tray_isVisible b s : settingsKept s (SysTray.set_tray_isVisible b s).
Proof. unfold settingsKept. repeat split; reflexivity. Qed.

Lemma settingsKept_hasService b s : settingsKept s (SysTray.set_hasService b s).
Proof. unfold settingsKept. repeat split; reflexivity. Qed.

Lemma settingsKept_timeouts n s : settingsKept s (SysTray.set_timeouts n s).
Proof. unfold settingsKept. repeat split; reflexivity. Qed.

Lemma settingsKept_man m s :
  Power.devices m = Power.devices (SysTray.man s) ->
  settingsKept s (SysTray.set_man m s).
Proof. intros D. unfold settingsKept. repeat split; try reflexivity. exact D. Qed.

Lemma filter_andThen (p : SysTray.Act -> bool) first second desk s :
  filter p (trace (SysTray.andThen first second desk s))
  = filter p (trace (first desk s))
    ++ filter p (trace (second desk (after (first desk s)))).
Proof. unfold SysTray.andThen. cbn [trace]. apply filter_app. Qed.

Lemma after_andThen first second desk s :
  after (SysTray.andThen first second desk s)
  = after (second desk (after (first desk s))).
Proof. reflexivity. Qed.

Lemma bystander_andThen first second :
  bystander first -> bystander second -> bystander (SysTray.andThen first second).
Proof.
  intros B1 B2 desk s. rewrite filter_andThen, after_andThen.
  destruct (B1 desk s) as [Q1 K1].
  destruct (B2 desk (after (first desk s))) as [Q2 K2].
  rewrite Q1, Q2. split; [reflexivity|]. eapply settingsKept_trans; eassumption.
Qed.

Lemma bystander_nothing : bystander (fun _ s => SysTray.nothing s).
Proof. intros desk s. split; [reflexivity | apply settingsKept_refl]. Qed.

Lemma bystander_show : bystander SysTray.tray_show_when_wanted.
Proof.
  intros desk s. unfold SysTray.tray_show_when_wanted.
  destruct (_ && _); cbn [after trace SysTray.nothing filter SysTray.isPowerAct];
    split; try reflexivity;
    [apply settingsKept_tray_isVisible | apply settingsKept_refl].
Qed.

Lemma bystander_hide : bystander SysTray.tray_hide_when_unwanted.
Proof.
  intros desk s. unfold SysTray.tray_hide_when_unwanted.
  destruct (_ && _); cbn [after trace SysTray.nothing filter SysTray.isPowerAct];
    split; try reflexivity;
    [apply settingsKept_tray_isVisible | apply settingsKept_refl].
Qed.

Lemma bystander_showMessage title msg critical :
  bystander (SysTray.showMessage title msg critical).
Proof.
  intros desk s. unfold SysTray.showMessage.
  destruct (SysTray.tray_isVisible s);
    cbn [after trace SysTray.nothing filter SysTray.isPowerAct];
    split; try reflexivity; apply settingsKept_refl.
Qed.

Lemma bystander_theme : bystander SysTray.checkDevices_theme.
Proof.
  intros desk s. unfold SysTray.checkDevices_theme.
  destruct (_ && _);
    [exact (bystander_showMessage _ _ _ desk s) | exact (bystander_nothing desk s)].
Qed.

Lemma bystander_toolTip left : bystander (SysTray.checkDevices_toolTip left).
Proof.
  intros desk s. unfold SysTray.checkDevices_toolTip. cbn [after trace].
  split; [|apply settingsKept_refl].
  induction (if PrimFloat.ltb 0 _ then _ else _) as [|t ts IH]; [reflexivity|].
  cbn [map filter SysTray.isPowerAct]. exact IH.
Qed.

Lemma bystander_drawBattery left : bystander (SysTray.drawBattery left).
Proof.
  intros desk s. unfold SysTray.drawBattery.
  destruct (_ && _).
  - cbn [after trace filter SysTray.isPowerAct].
    split; [reflexivity | apply settingsKept_tray_isVisible].
  - refine (bystander_andThen _ _ bystander_show _ desk s).
    intros desk' s'. cbn [after trace filter SysTray.isPowerAct].
    split; [reflexivity | apply settingsKept_refl].
Qed.

Lemma registerService_requests desk s :
  (after (SysTray.registerService desk s) = s
   \/ after (SysTray.registerService desk s) = SysTray.set_hasService true s)
  /\ forallb isRequest (trace (SysTray.registerService desk s)) = true.
Proof.
  unfold SysTray.registerService.
  destruct (SysTray.hasService s); [now split; [left|]|].
  destruct (SysTray.sessionBus_isConnected desk); cbn [negb]; [|now split; [left|]].
  destruct (SysTray.desktopPM s), (SysTray.desktopSS s),
    (SysTray.sessionBus_registerService desk SysTray.PM_SERVICE),
    (SysTray.sessionBus_registerObject desk SysTray.PM_SERVICE),
    (SysTray.sessionBus_registerService desk SysTray.SS_SERVICE),
    (SysTray.sessionBus_registerObject desk SysTray.SS_SERVICE),
    (SysTray.sessionBus_registerService desk SysTray.PD_SERVICE),
    (SysTray.sessionBus_registerObject desk SysTray.PD_SERVICE);
    cbn; split; auto.
Qed.

Lemma request_not_power_act (t : list SysTray.Act) :
  forallb isRequest t = true -> filter SysTray.isPowerAct t = [].
Proof.
  induction t as [|a t IH]; [reflexivity|]. cbn [forallb filter].
  intros H. apply andb_true_iff in H. destruct H as [R H].
  destruct a; try discriminate; cbn; now apply IH.
Qed.

Lemma bystander_registerService : bystander SysTray.registerService.
Proof.
  intros desk s. destruct (registerService_requests desk s) as [[A|A] R];
    rewrite A; (split; [now apply request_not_power_act|]);
    [apply settingsKept_refl | apply settingsKept_hasService].
Qed.

Lemma bystander_register : bystander SysTray.checkDevices_register.
Proof.
  intros desk s. unfold SysTray.checkDevices_register.
  destruct (negb _);
    [exact (bystander_registerService desk s) | exact (bystander_nothing desk s)].
Qed.

Lemma bystander_handleOnBattery : bystander (SysTray.handleOnBattery showMessage_critical).
Proof.
  intros desk s. unfold SysTray.handleOnBattery.
  destruct (SysTray.showNotifications s);
    [exact (bystander_showMessage _ _ _ desk s) | exact (bystander_nothing desk s)].
Qed.

Lemma bystander_handleOnAC : bystander (SysTray.handleOnAC showMessage_critical).
Proof.
  intros desk s. unfold SysTray.handleOnAC.
  destruct (SysTray.showNotifications s);
    [exact (bystander_showMessage _ _ _ desk s) | exact (bystander_nothing desk s)].
Qed.

Lemma bystander_supply : bystander (SysTray.man_deviceChanged_supply showMessage_critical).
Proof.
  intros desk s. unfold SysTray.man_deviceChanged_supply.
  destruct (negb (Bool.eqb _ _)); [|exact (bystander_nothing desk s)].
  destruct (_ && _); [exact (bystander_handleOnBattery desk s)|].
  destruct (_ && _); [exact (bystander_handleOnAC desk s) | exact (bystander_nothing desk s)].
Qed.

Lemma bystander_wasLidClosed : bystander SysTray.man_deviceChanged_wasLidClosed.
Proof.
  intros desk s. unfold SysTray.man_deviceChanged_wasLidClosed, SysTray.nothing.
  cbn [after trace filter]. split; [reflexivity|]. now apply settingsKept_man.
Qed.

Lemma bystander_wasOnBattery : bystander SysTray.man_deviceChanged_wasOnBattery.
Proof.
  intros desk s. unfold SysTray.man_deviceChanged_wasOnBattery, SysTray.nothing.
  cbn [after trace filter]. split; [reflexivity|]. now apply settingsKept_man.
Qed.

(** The power acts are read off the settings. *)

Lemma man_sleep_trace desk s :
  trace (SysTray.man_call Power.sleep desk s)
  = map SysTray.ByPower (trace (Power.sleep (SysTray.system desk) Power.initial)).
Proof. unfold SysTray.man_call. cbn [trace]. now rewrite !Power_sleep_trace. Qed.

Lemma man_hibernate_trace desk s :
  trace (SysTray.man_call Power.hibernate desk s)
  = map SysTray.ByPower (trace (Power.hibernate (SysTray.system desk) Power.initial)).
Proof. unfold SysTray.man_call. cbn [trace]. now rewrite !Power_hibernate_trace. Qed.

Lemma Power_shutdown_trace desk s s' :
  trace (SysTray.Power_shutdown desk s') = trace (SysTray.Power_shutdown desk s).
Proof.
  unfold SysTray.Power_shutdown.
  destruct (_ && _); [reflexivity|].
  destruct (upower_isValid _); [|reflexivity].
  now destruct (SysTray.CKit_canPowerOff desk).
Qed.

Lemma handleCritical_trace desk s s' :
  settingsKept s s' ->
  trace (SysTray.handleCritical desk s') = trace (SysTray.handleCritical desk s).
Proof.
  intros K. unfold SysTray.handleCritical.
  assert (E : SysTray.criticalAction s' = SysTray.criticalAction s) by apply K.
  rewrite E. destruct (SysTray.criticalAction s).
  - now rewrite !man_hibernate_trace.
  - apply Power_shutdown_trace.
  - reflexivity.
Qed.

Lemma isCritical_kept left desk s s' :
  settingsKept s s' -> SysTray.isCritical left desk s' = SysTray.isCritical left desk s.
Proof.
  intros K. unfold SysTray.isCritical.
  assert (C : SysTray.critBatteryValue s' = SysTray.critBatteryValue s) by apply K.
  now rewrite C.
Qed.

Lemma batteryLeft_kept s s' :
  settingsKept s s' ->
  Power.batteryLeft (SysTray.man s') = Power.batteryLeft (SysTray.man s).
Proof.
  intros K. unfold Power.batteryLeft.
  assert (D : Power.devices (SysTray.man s') = Power.devices (SysTray.man s)) by apply K.
  now rewrite D.
Qed.

Lemma handleCritical_kept desk s : settingsKept s (after (SysTray.handleCritical desk s)).
Proof.
  unfold SysTray.handleCritical. destruct (SysTray.criticalAction s).
  - rewrite (proj1 (man_hibernate_outcome desk s)). apply settingsKept_refl.
  - rewrite (proj1 (Power_shutdown_outcome desk s)). apply settingsKept_refl.
  - apply settingsKept_refl.
Qed.

Lemma handleClosedLid_kept desk s :
  after (SysTray.handleClosedLid VIRTUAL_MONITOR desk s) = s.
Proof.
  unfold SysTray.handleClosedLid.
  destruct (_ && _); [reflexivity|].
  destruct (if Power.onBattery _ then _ else _); try reflexivity.
  - apply man_sleep_outcome.
  - apply man_hibernate_outcome.
  - apply Power_shutdown_outcome.
Qed.

Lemma critical_step left desk s s' :
  settingsKept s s' ->
  filter SysTray.isPowerAct (trace (SysTray.checkDevices_critical left desk s'))
  = (if SysTray.isCritical left desk s
     then filter SysTray.isPowerAct (trace (SysTray.handleCritical desk s))
     else [])
  /\ settingsKept s (after (SysTray.checkDevices_critical left desk s')).
Proof.
  intros K. unfold SysTray.checkDevices_critical.
  rewrite (isCritical_kept left desk s s' K).
  destruct (SysTray.isCritical left desk s).
  - rewrite (handleCritical_trace desk s s' K). split; [reflexivity|].
    eapply settingsKept_trans; [exact K | apply handleCritical_kept].
  - split; [reflexivity | exact K].
Qed.

Lemma checkDevices_from desk s s' :
  settingsKept s s' ->
  filter SysTray.isPowerAct (trace (SysTray.checkDevices desk s'))
  = (if SysTray.isCritical (Power.batteryLeft (SysTray.man s)) desk s
     then filter SysTray.isPowerAct (trace (SysTray.handleCritical desk s))
     else [])
  /\ settingsKept s (after (SysTray.checkDevices desk s')).
Proof.
  intros K. unfold SysTray.checkDevices.
  repeat rewrite filter_andThen, after_andThen.
  destruct (bystander_show desk s') as [Q1 K1]. rewrite Q1.
  set (s1 := after (SysTray.tray_show_when_wanted desk s')) in *.
  destruct (bystander_hide desk s1) as [Q2 K2]. rewrite Q2.
  set (s2 := after (SysTray.tray_hide_when_unwanted desk s1)) in *.
  destruct (bystander_theme desk s2) as [Q3 K3]. rewrite Q3.
  set (s3 := after (SysTray.checkDevices_theme desk s2)) in *.
  assert (K03 : settingsKept s s3).
  { apply (settingsKept_trans _ _ _ K).
    apply (settingsKept_trans _ _ _ K1). apply (settingsKept_trans _ _ _ K2).
    exact K3. }
  unfold SysTray.checkDevices_battery.
  rewrite (batteryLeft_kept s s3 K03).
  set (left := Power.batteryLeft (SysTray.man s)).
  repeat rewrite filter_andThen, after_andThen.
  destruct (bystander_toolTip left desk s3) as [Q4 K4]. rewrite Q4.
  set (s4 := after (SysTray.checkDevices_toolTip left desk s3)) in *.
  destruct (bystander_drawBattery left desk s4) as [Q5 K5]. rewrite Q5.
  set (s5 := after (SysTray.drawBattery left desk s4)) in *.
  assert (K05 : settingsKept s s5).
  { apply (settingsKept_trans _ _ _ K03). apply (settingsKept_trans _ _ _ K4).
    exact K5. }
  destruct (critical_step left desk s s5 K05) as [Q6 K6]. rewrite Q6.
  set (s6 := after (SysTray.checkDevices_critical left desk s5)) in *.
  destruct (bystander_register desk s6) as [Q7 K7]. rewrite Q7.
  cbn [app]. rewrite app_nil_r. split; [reflexivity|].
  eapply settingsKept_trans; eassumption.
Qed.

(** [man] itself is left alone by [checkDevices()]. *)

Lemma man_andThen first second desk s :
  SysTray.man (after (first desk s)) = SysTray.man s ->
  SysTray.man (after (second desk (after (first desk s))))
  = SysTray.man (after (first desk s)) ->
  SysTray.man (after (SysTray.andThen first second desk s)) = SysTray.man s.
Proof. rewrite after_andThen. congruence. Qed.

Lemma man_show desk s :
  SysTray.man (after (SysTray.tray_show_when_wanted desk s)) = SysTray.man s.
Proof. unfold SysTray.tray_show_when_wanted. now destruct (_ && _). Qed.

Lemma man_hide desk s :
  SysTray.man (after (SysTray.tray_hide_when_unwanted desk s)) = SysTray.man s.
Proof. unfold SysTray.tray_hide_when_unwanted. now destruct (_ && _). Qed.

Lemma man_showMessage title msg critical desk s :
  after (SysTray.showMessage title msg critical desk s) = s.
Proof. unfold SysTray.showMessage. now destruct (SysTray.tray_isVisible s). Qed.

Lemma man_theme desk s :
  SysTray.man (after (SysTray.checkDevices_theme desk s)) = SysTray.man s.
Proof.
  unfold SysTray.checkDevices_theme.
  destruct (_ && _); [now rewrite man_showMessage | reflexivity].
Qed.

Lemma man_draw left desk s :
  SysTray.man (after (SysTray.drawBattery left desk s)) = SysTray.man s.
Proof.
  unfold SysTray.drawBattery.
  destruct (_ && _); [reflexivity|].
  rewrite after_andThen. cbn [after]. apply man_show.
Qed.

Lemma man_critical left desk s :
  SysTray.man (after (SysTray.checkDevices_critical left desk s)) = SysTray.man s.
Proof.
  unfold SysTray.checkDevices_critical, SysTray.handleCritical.
  destruct (SysTray.isCritical left desk s); [|reflexivity].
  destruct (SysTray.criticalAction s); [| |reflexivity].
  - now rewrite (proj1 (man_hibernate_outcome desk s)).
  - now rewrite (proj1 (Power_shutdown_outcome desk s)).
Qed.

Lemma man_register desk s :
  SysTray.man (after (SysTray.checkDevices_register desk s)) = SysTray.man s.
Proof.
  unfold SysTray.checkDevices_register.
  destruct (negb _); [|reflexivity].
  now destruct (registerService_requests desk s) as [[A|A] _]; rewrite A.
Qed.

Lemma man_checkDevices desk s :
  SysTray.man (after (SysTray.checkDevices desk s)) = SysTray.man s.
Proof.
  unfold SysTray.checkDevices, SysTray.checkDevices_battery.
  repeat rewrite after_andThen.
  rewrite man_register, man_critical, man_draw.
  cbn [after SysTray.checkDevices_toolTip].
  now rewrite man_theme, man_hide, man_show.
Qed.

Lemma after_supply desk s :
  after (SysTray.man_deviceChanged_supply showMessage_critical desk s) = s.
Proof.
  unfold SysTray.man_deviceChanged_supply, SysTray.handleOnBattery, SysTray.handleOnAC.
  repeat match goal with
         | |- context [if ?c then _ else _] => destruct c
         end; rewrite ?man_showMessage; reflexivity.
Qed.

Lemma man_deviceChanged_from desk s s' :
  settingsKept s s' ->
  let o := SysTray.man_deviceChanged VIRTUAL_MONITOR showMessage_critical desk s' in
  filter SysTray.isPowerAct (trace o)
  = (if negb (Power.wasLidClosed (SysTray.man s'))
        && Power.lidIsClosed (SysTray.system desk)
     then filter SysTray.isPowerAct
            (trace (SysTray.handleClosedLid VIRTUAL_MONITOR desk s'))
     else [])
    ++ (if SysTray.isCritical (Power.batteryLeft (SysTray.man s)) desk s
        then filter SysTray.isPowerAct (trace (SysTray.handleCritical desk s))
        else [])
  /\ settingsKept s (after o)
  /\ SysTray.man (after o)
     = Power.set_wasOnBattery (Power.onBattery (SysTray.system desk))
         (Power.set_wasLidClosed (Power.lidIsClosed (SysTray.system desk))
            (SysTray.man s')).
Proof.
  intros K o. unfold o, SysTray.man_deviceChanged.
  repeat rewrite filter_andThen, after_andThen.
  (* the lid *)
  assert (L : after (SysTray.man_deviceChanged_lid VIRTUAL_MONITOR desk s') = s'
              /\ filter SysTray.isPowerAct
                   (trace (SysTray.man_deviceChanged_lid VIRTUAL_MONITOR desk s'))
                 = (if negb (Power.wasLidClosed (SysTray.man s'))
                       && Power.lidIsClosed (SysTray.system desk)
                    then filter SysTray.isPowerAct
                           (trace (SysTray.handleClosedLid VIRTUAL_MONITOR desk s'))
                    else [])).
  { unfold SysTray.man_deviceChanged_lid, SysTray.handleOpenedLid.
    destruct (Power.wasLidClosed (SysTray.man s')),
      (Power.lidIsClosed (SysTray.system desk)); cbn [negb andb Bool.eqb];
      split; try reflexivity.
    apply handleClosedLid_kept. }
  destruct L as [L1 L2]. rewrite L1, L2.
  destruct (bystander_wasLidClosed desk s') as [Q1 K1]. rewrite Q1.
  set (s1 := after (SysTray.man_deviceChanged_wasLidClosed desk s')) in *.
  destruct (bystander_supply desk s1) as [Q2 K2]. rewrite Q2.
  set (s2 := after (SysTray.man_deviceChanged_supply showMessage_critical desk s1)) in *.
  destruct (bystander_wasOnBattery desk s2) as [Q3 K3]. rewrite Q3.
  set (s3 := after (SysTray.man_deviceChanged_wasOnBattery desk s2)) in *.
  assert (K03 : settingsKept s s3).
  { apply (settingsKept_trans _ _ _ K).
    apply (settingsKept_trans _ _ _ K1). apply (settingsKept_trans _ _ _ K2).
    exact K3. }
  destruct (checkDevices_from desk s s3 K03) as [Q4 K4]. rewrite Q4.
  cbn [app]. split; [reflexivity|]. split; [exact K4|].
  rewrite man_checkDevices.
  assert (M2 : SysTray.man s2 = SysTray.man s1).
  { unfold s2. now rewrite after_supply. }
  unfold s3, SysTray.man_deviceChanged_wasOnBattery, SysTray.nothing.
  cbn [after SysTray.man SysTray.set_man]. rewrite M2.
  reflexivity.
Qed.

(** X26.  checkDevices() acts on a critical battery and on nothing
    else, and does so every time.  The only power act it can perform is
    that of handleCritical(), and it performs it exactly when the sum that
    Power::batteryLeft() returns is above 0 and at most critBatteryValue
    while on battery; it changes no setting.  The test is on the level, not
    on a change: a second checkDevices() in the same situation performs
    the same act again.  On AC, or with no battery counted (sum 0), it
    performs none. *)
Theorem checkDevices_acts_on_a_critical_battery_every_time :
  forall (desk : SysTray.Desktop) (s : SysTray.Members),
    let acts :=
      if SysTray.isCritical (Power.batteryLeft (SysTray.man s)) desk s
      then filter SysTray.isPowerAct (trace (SysTray.handleCritical desk s))
      else [] in
    filter SysTray.isPowerAct (trace (SysTray.checkDevices desk s)) = acts
    /\ filter SysTray.isPowerAct
         (trace (SysTray.checkDevices desk (after (SysTray.checkDevices desk s))))
       = acts
    /\ settingsKept s (after (SysTray.checkDevices desk s))
    /\ SysTray.man (after (SysTray.checkDevices desk s)) = SysTray.man s
    /\ (Power.onBattery (SysTray.system desk) = false
        \/ PrimFloat.ltb 0 (Power.batteryLeft (SysTray.man s)) = false ->
        acts = []).
Proof.
  intros desk s acts.
  destruct (checkDevices_from desk s s (settingsKept_refl s)) as [Q K].
  destruct (checkDevices_from desk s _ K) as [Q' _].
  split; [exact Q|]. split; [exact Q'|]. split; [exact K|].
  split; [apply man_checkDevices|].
  intros H. unfold acts, SysTray.isCritical.
  destruct H as [H|H]; rewrite H; [|reflexivity].
  now rewrite Bool.andb_false_r.
Qed.

(** X27.  With the tray listening to its Power object, one
    deviceChanged() performs the lid action only if the lid went from
    cached-open to closed, and then the acts of handleClosedLid(); to these
    it adds the critical-battery act of the checkDevices() that
    updatedDevices triggers.  A second deviceChanged() in the same
    situation performs no lid action (the lid is now cached closed) but
    repeats the critical-battery act.  No setting changes, and the caches of
    the Power object end as Power::deviceChanged() leaves them. *)
Theorem lid_action_once_per_closing_critical_act_every_time :
  forall (desk : SysTray.Desktop) (s : SysTray.Members),
    let o := SysTray.man_deviceChanged VIRTUAL_MONITOR showMessage_critical desk s in
    let lidActs :=
      if negb (Power.wasLidClosed (SysTray.man s))
         && Power.lidIsClosed (SysTray.system desk)
      then filter SysTray.isPowerAct
             (trace (SysTray.handleClosedLid VIRTUAL_MONITOR desk s))
      else [] in
    let criticalActs :=
      if SysTray.isCritical (Power.batteryLeft (SysTray.man s)) desk s
      then filter SysTray.isPowerAct (trace (SysTray.handleCritical desk s))
      else [] in
    filter SysTray.isPowerAct (trace o) = lidActs ++ criticalActs
    /\ filter SysTray.isPowerAct
         (trace (SysTray.man_deviceChanged VIRTUAL_MONITOR showMessage_critical desk
                   (after o)))
       = criticalActs
    /\ settingsKept s (after o)
    /\ SysTray.man (after o)
       = after (Power.deviceChanged (SysTray.system desk) (SysTray.man s)).
Proof.
  intros desk s o lidActs criticalActs.
  destruct (man_deviceChanged_from desk s s (settingsKept_refl s)) as (Q & K & M).
  fold o in Q, K, M.
  destruct (man_deviceChanged_from desk s (after o) K) as (Q' & _ & _).
  split; [exact Q|]. split; [|split; [exact K|]].
  - rewrite Q', M. cbn [Power.wasLidClosed Power.set_wasOnBattery Power.set_wasLidClosed].
    now destruct (Power.lidIsClosed (SysTray.system desk)).
  - rewrite M. symmetry. apply Power_deviceChanged_after.
Qed.

(** X28.  registerService() is all or nothing, and is retried until
    everything is granted.  hasService becomes true exactly when the
    session bus is connected and every request is granted: name and object
    of PM_SERVICE if desktopPM is set, of SS_SERVICE if desktopSS is set,
    and of PD_SERVICE.  Otherwise the members are unchanged, so the next
    checkDevices() starts again from the first service.  Once hasService is
    true, neither registerService() nor the last step of checkDevices()
    makes any request.  The slot makes registration requests only, and
    never more than six. *)
Theorem registerService_retries_until_all_granted :
  forall (desk : SysTray.Desktop) (s : SysTray.Members),
    let o := SysTray.registerService desk s in
    let granted service :=
      SysTray.sessionBus_registerService desk service
      && SysTray.sessionBus_registerObject desk service in
    let all :=
      SysTray.sessionBus_isConnected desk
      && (negb (SysTray.desktopPM s) || granted SysTray.PM_SERVICE)
      && (negb (SysTray.desktopSS s) || granted SysTray.SS_SERVICE)
      && granted SysTray.PD_SERVICE in
    SysTray.hasService (after o) = SysTray.hasService s || all
    /\ (SysTray.hasService (after o) = false -> after o = s)
    /\ (SysTray.hasService s = true ->
        o = SysTray.nothing s
        /\ SysTray.checkDevices_register desk s = SysTray.nothing s)
    /\ forallb isRequest (trace o) = true
    /\ (List.length (trace o) <= 6)%nat.
Proof.
  intros desk s o granted all.
  unfold o, all, granted, SysTray.checkDevices_register, SysTray.registerService.
  destruct s as [mn vis crit has lb la ca ab aa n notif dss dpm show dis bb ba mon int ss pm].
  cbn [SysTray.hasService SysTray.desktopPM SysTray.desktopSS].
  destruct has; cbn [negb orb].
  { repeat split; try reflexivity; try discriminate. cbn. lia. }
  destruct (SysTray.sessionBus_isConnected desk); cbn [negb andb];
    [|repeat split; try reflexivity; try discriminate; cbn; lia].
  destruct dpm, dss,
    (SysTray.sessionBus_registerService desk SysTray.PM_SERVICE),
    (SysTray.sessionBus_registerObject desk SysTray.PM_SERVICE),
    (SysTray.sessionBus_registerService desk SysTray.SS_SERVICE),
    (SysTray.sessionBus_registerObject desk SysTray.SS_SERVICE),
    (SysTray.sessionBus_registerService desk SysTray.PD_SERVICE),
    (SysTray.sessionBus_registerObject desk SysTray.PD_SERVICE);
    cbn; repeat split; try reflexivity; try discriminate; lia.
Qed.

(** *** The visibility of the tray icon *)

Lemma visible_hide_show desk s :
  SysTray.tray_isVisible
    (after (SysTray.andThen SysTray.tray_hide_when_unwanted
              SysTray.tray_show_when_wanted desk s))
  = (if SysTray.showTray s
     then SysTray.tray_isVisible s || SysTray.isSystemTrayAvailable desk
     else false).
Proof.
  unfold SysTray.andThen, SysTray.tray_hide_when_unwanted, SysTray.tray_show_when_wanted.
  destruct s as [mn vis crit has lb la ca ab aa n notif dss dpm show dis bb ba mon int ss pm].
  cbn [SysTray.showTray SysTray.tray_isVisible].
  destruct show, vis, (SysTray.isSystemTrayAvailable desk); reflexivity.
Qed.

Lemma visible_show_hide desk s :
  SysTray.tray_isVisible
    (after (SysTray.andThen SysTray.tray_show_when_wanted
              SysTray.tray_hide_when_unwanted desk s))
  = (if SysTray.showTray s
     then SysTray.tray_isVisible s || SysTray.isSystemTrayAvailable desk
     else false).
Proof.
  unfold SysTray.andThen, SysTray.tray_hide_when_unwanted, SysTray.tray_show_when_wanted.
  destruct s as [mn vis crit has lb la ca ab aa n notif dss dpm show dis bb ba mon int ss pm].
  cbn [SysTray.showTray SysTray.tray_isVisible].
  destruct show, vis, (SysTray.isSystemTrayAvailable desk); reflexivity.
Qed.

Lemma visible_drawBattery left desk s :
  SysTray.tray_isVisible (after (SysTray.drawBattery left desk s))
  = (if SysTray.showTray s
     then SysTray.tray_isVisible s || SysTray.isSystemTrayAvailable desk
     else false).
Proof.
  unfold SysTray.drawBattery, SysTray.andThen, SysTray.tray_show_when_wanted.
  destruct s as [mn vis crit has lb la ca ab aa n notif dss dpm show dis bb ba mon int ss pm].
  cbn [SysTray.showTray SysTray.tray_isVisible].
  destruct show, vis, (SysTray.isSystemTrayAvailable desk); reflexivity.
Qed.

Lemma visible_theme desk s :
  after (SysTray.checkDevices_theme desk s) = s.
Proof.
  unfold SysTray.checkDevices_theme.
  destruct (_ && _); [apply man_showMessage | reflexivity].
Qed.

Lemma visible_critical left desk s :
  after (SysTray.checkDevices_critical left desk s) = s.
Proof.
  unfold SysTray.checkDevices_critical, SysTray.handleCritical.
  destruct (SysTray.isCritical left desk s); [|reflexivity].
  destruct (SysTray.criticalAction s); [| |reflexivity].
  - apply man_hibernate_outcome.
  - apply Power_shutdown_outcome.
Qed.

Lemma visible_register desk s :
  SysTray.tray_isVisible (after (SysTray.checkDevices_register desk s))
  = SysTray.tray_isVisible s.
Proof.
  unfold SysTray.checkDevices_register.
  destruct (negb _); [|reflexivity].
  now destruct (registerService_requests desk s) as [[A|A] _]; rewrite A.
Qed.

Lemma visible_timeout desk s :
  SysTray.tray_isVisible (after (SysTray.timeout desk s))
  = SysTray.tray_isVisible (fst (SysTray.timeout_tray desk s)).
Proof.
  unfold SysTray.timeout.
  destruct (SysTray.timeout_tray desk s) as [s1 shown]. cbn [fst].
  destruct (negb _); [reflexivity|].
  destruct (if Power.onBattery _ then _ else _); cbn [after].
  - now rewrite (proj1 (man_sleep_outcome desk _)).
  - now rewrite (proj1 (man_hibernate_outcome desk _)).
  - now rewrite (proj1 (Power_shutdown_outcome desk _)).
  - reflexivity.
Qed.

(** X29.  The tray icon follows showTray.  After every timeout() and
    after every checkDevices(), whatever else they do: the icon is hidden
    when showTray is false; when showTray is true it is visible if it was
    visible or the system tray is available, and it is never hidden by
    these slots.  The two slots ask in opposite orders (hide first in
    timeout(), show first in checkDevices()) and agree. *)
Theorem tray_icon_follows_showTray :
  forall (desk : SysTray.Desktop) (s : SysTray.Members),
    let wanted :=
      if SysTray.showTray s
      then SysTray.tray_isVisible s || SysTray.isSystemTrayAvailable desk
      else false in
    SysTray.tray_isVisible (after (SysTray.timeout desk s)) = wanted
    /\ SysTray.tray_isVisible (after (SysTray.checkDevices desk s)) = wanted
    /\ SysTray.showTray (after (SysTray.timeout desk s)) = SysTray.showTray s
    /\ SysTray.showTray (after (SysTray.checkDevices desk s)) = SysTray.showTray s.
Proof.
  intros desk s wanted.
  assert (T : SysTray.tray_isVisible (after (SysTray.timeout desk s)) = wanted).
  { rewrite visible_timeout. unfold SysTray.timeout_tray. cbn [fst].
    apply visible_hide_show. }
  assert (C : SysTray.tray_isVisible (after (SysTray.checkDevices desk s)) = wanted
              /\ SysTray.showTray (after (SysTray.checkDevices desk s))
                 = SysTray.showTray s).
  { split; [|apply (checkDevices_from desk s s (settingsKept_refl s))].
    pose proof (visible_show_hide desk s) as V.
    assert (S2 : SysTray.showTray
                   (after (SysTray.andThen SysTray.tray_show_when_wanted
                             SysTray.tray_hide_when_unwanted desk s))
                 = SysTray.showTray s).
    { destruct (bystander_andThen _ _ bystander_show bystander_hide desk s) as [_ K].
      unfold settingsKept in K. decompose [and] K. assumption. }
    unfold SysTray.checkDevices, SysTray.checkDevices_battery.
    repeat rewrite after_andThen.
    rewrite visible_register, visible_critical, visible_drawBattery.
    cbn [after SysTray.checkDevices_toolTip].
    rewrite visible_theme.
    rewrite after_andThen in V, S2. rewrite V, S2.
    unfold wanted. destruct (SysTray.showTray s); [|reflexivity].
    now destruct (SysTray.tray_isVisible s), (SysTray.isSystemTrayAvailable desk). }
  destruct C as [C1 C2].
  split; [exact T|]. split; [exact C1|]. split; [|exact C2].
  destruct (SysTray.timeout_doSuspend desk s) eqn:D.
  - destruct (timeout_acts desk s D) as (b & E & _). now rewrite E.
  - destruct (timeout_counts desk s D) as (b & E & _). now rewrite E.
Qed.

End TrayListens.

(** ** The registry of [Power] *)

Section PowerRegistry.
Variable UP_PATH : QString.

Lemma Power_scanDevices_loop_trace found :
  forall bus s, trace (Power.scanDevices_loop found bus s) = [].
Proof.
  induction found as [|f rest IH]; intros bus s; [reflexivity|].
  cbn [Power.scanDevices_loop]. rewrite !bind_trace. cbn [get result after trace].
  rewrite IH. destruct (QMap.contains f (Power.devices s)); cbn [ret trace app];
    [reflexivity|].
  rewrite bind_trace. reflexivity.
Qed.

Lemma Power_scanDevices_trace bus s :
  trace (Power.scanDevices bus s) = [Power.Emit Power.updatedDevices].
Proof.
  unfold Power.scanDevices. rewrite !bind_trace. cbn [ask result after trace app].
  rewrite Power_scanDevices_loop_trace. reflexivity.
Qed.

Lemma Power_deviceAdded_admitted p bus s :
  upower_isValid bus = true ->
  startsWith p (Power.jobsPath UP_PATH) = false ->
  Power.deviceAdded UP_PATH p bus s = Power.scanDevices bus s.
Proof.
  intros V J. unfold Power.deviceAdded, bind, ask. rewrite V, J. cbn [negb].
  now destruct (Power.scanDevices bus s).
Qed.

(** X25.  The registry of Power changes membership only.  For an
    admitted notification (upower handle valid, path outside the jobs
    prefix): deviceAdded(path) emits updatedDevices alone, never looks at
    its path, keeps every tracked Device exactly as it is (nothing is
    refreshed), and tracks afterwards what was tracked before or what
    UPower::getDevices() lists.  deviceRemoved(path) of a tracked path that
    is no longer listed leaves the path untracked and every other tracked
    Device exactly as it is, and emits updatedDevices alone: the listeners
    of Power are never told which device came or went. *)
Theorem Power_registry_changes_membership_only :
  forall (bus : Bus) (s : Power.Members) (p : QString),
    upower_isValid bus = true ->
    startsWith p (Power.jobsPath UP_PATH) = false ->
    (trace (Power.deviceAdded UP_PATH p bus s) = [Power.Emit Power.updatedDevices]
     /\ (forall k d,
           QMap.value k (Power.devices s) = Some d ->
           QMap.value k (Power.devices (after (Power.deviceAdded UP_PATH p bus s))) = Some d)
     /\ (forall k,
           QMap.contains k (Power.devices (after (Power.deviceAdded UP_PATH p bus s)))
           = QMap.contains k (Power.devices s)
             || existsb (String.eqb k) (UPower_getDevices bus)))
    /\ (QMap.sorted (Power.devices s) = true ->
        QMap.contains p (Power.devices s) = true ->
        existsb (String.eqb p) (UPower_getDevices bus) = false ->
        trace (Power.deviceRemoved UP_PATH p bus s) = [Power.Emit Power.updatedDevices]
        /\ QMap.contains p (Power.devices (after (Power.deviceRemoved UP_PATH p bus s)))
           = false
        /\ (forall k d,
              k <> p ->
              QMap.value k (Power.devices s) = Some d ->
              QMap.value k (Power.devices (after (Power.deviceRemoved UP_PATH p bus s)))
              = Some d)).
Proof.
  intros bus s p V J. split.
  - rewrite (Power_deviceAdded_admitted p bus s V J).
    split; [apply Power_scanDevices_trace|]. split.
    + intros k d E. rewrite Power_scanDevices_value. unfold afterScanLoop. now rewrite E.
    + intros k. unfold QMap.contains. rewrite Power_scanDevices_value.
      unfold afterScanLoop.
      destruct (QMap.value k (Power.devices s)); [reflexivity|].
      now destruct (existsb (String.eqb k) (UPower_getDevices bus)).
  - intros S C L.
    assert (E : Power.deviceRemoved UP_PATH p bus s
                = Power.scanDevices bus
                    (Power.set_devices (QMap.remove p (Power.devices s)) s)).
    { unfold Power.deviceRemoved, bind, ask, get, Power.modify, ret.
      rewrite V. cbn [negb]. rewrite J, C, L.
      cbn [QMap.take snd].
      now destruct (Power.scanDevices bus _). }
    rewrite E. split; [apply Power_scanDevices_trace|]. split.
    + unfold QMap.contains. rewrite Power_scanDevices_value. unfold afterScanLoop.
      cbn [Power.devices Power.set_devices].
      rewrite (QMapFacts.value_remove_same p _ S), L. reflexivity.
    + intros k d N Kv. rewrite Power_scanDevices_value. unfold afterScanLoop.
      cbn [Power.devices Power.set_devices].
      apply QMapFacts.sameKey_neq in N.
      rewrite (QMapFacts.value_remove_other p _ k N), Kv. reflexivity.
Qed.

End PowerRegistry.

(** X25 at work: BAT0 and BAT1 are tracked, UPower lists nothing any more,
    and BAT0 is reported removed. *)
Lemma Power_registry_changes_membership_only_witness :
  let o := Power.deviceRemoved "/org/freedesktop/UPower"%string Sample.BAT0
             Sample.mainsBus Sample2.twoBatteries in
  trace o = [Power.Emit Power.updatedDevices]
  /\ QMap.contains Sample.BAT0 (Power.devices (after o)) = false
  /\ QMap.contains Sample.BAT1 (Power.devices (after o)) = true.
Proof.
  destruct (Power_registry_changes_membership_only "/org/freedesktop/UPower"%string
              Sample.mainsBus Sample2.twoBatteries Sample.BAT0) as [_ R];
    [reflexivity | reflexivity |].
  destruct R as (T & G & K); [reflexivity | reflexivity | reflexivity |].
  split; [exact T|]. split; [exact G|]. reflexivity.
Defined.
